(** * Line-21 closed-caption decoder ([decode_cc.py]): model and properties

    The development follows [decodeFrame] and [getByteStream] of
    [src/decode_cc.py].  Python ints are [Z]; Python floats are Rocq's
    primitive binary64 floats, so every rounding of the source
    ([100 * (values[x] / maxluma)], [width * 0.05], [0.2 * width],
    [0.3 * width], [runInLength / 0.251], [dataSpan * 0.038]) is computed
    exactly as CPython computes it.  Exceptions are an explicit error
    monad; the value a call returns is [PyNone] or a sequence of ints.
    [OnDisk] holds the two functions as they are called, on file names
    and with the pool, and [main] the command line; [encode] is the
    line-21 encoder that the round trip is stated with. *)

From Stdlib Require Import ZArith List Bool Lia.
From Stdlib Require Import SpecFloat PrimFloat FloatOps Uint63.
From Stdlib Require String Ascii Orders Mergesort.
From Stdlib Require Import Sorted Permutation.
Import ListNotations.
Import String.StringSyntax.
Delimit Scope string_scope with string.
Set Warnings "-inexact-float".
Open Scope Z_scope.

(** ** Python values, exceptions *)

Inductive exn : Set := ValueError | IndexError | TypeError.

Inductive result (A : Type) : Type :=
| Ok (a : A)
| Raise (e : exn).
Arguments Ok {A} a.
Arguments Raise {A} e.

Definition bind {A B : Type} (m : result A) (k : A -> result B) : result B :=
  match m with
  | Ok a => k a
  | Raise e => Raise e
  end.

Notation "x <- m ;; k" := (bind m (fun x => k))
  (at level 61, m at next level, right associativity).

(** What a call of [decodeFrame] hands back: the tuple [(0, 0)] and the list
    [data] are both sequences of ints (their only consumer iterates over
    them); falling off the end of the function gives [None]. *)
Inductive pyvalue : Set :=
| PyNone
| PySeq (items : list Z).

(** ** Floats *)

Module Py.

(** [float(n)] for an int; exact below 2^53. *)
Definition float_of_int (n : Z) : float :=
  if n <? 0 then (- of_uint63 (Uint63.of_Z (- n)))%float
  else of_uint63 (Uint63.of_Z n).

(** [math.floor]: a finite float is [±m·2^e]; the source never applies it
    to an infinity or a NaN (Python raises there), for which 0 stands. *)
Definition math_floor (f : float) : Z :=
  match Prim2SF f with
  | S754_finite s m e =>
      let n := if s then Z.neg m else Z.pos m in
      if 0 <=? e then Z.shiftl n e else Z.shiftr n (- e)
  | _ => 0
  end.

(** [math.ceil]. *)
Definition math_ceil (f : float) : Z := - math_floor (- f)%float.

(** [n > f] and [n < f] for an int [n] and a float [f]: Python compares
    the two exactly, and an integer is above [f] iff it is above
    [floor f], below [f] iff it is below [ceil f]. *)
Definition int_gt_float (n : Z) (f : float) : bool := math_floor f <? n.
Definition int_lt_float (n : Z) (f : float) : bool := n <? math_ceil f.

(** [values[i]] on a list: negative indices count from the end, anything
    else out of range raises [IndexError]. *)
Definition getitem (values : list Z) (i : Z) : result Z :=
  let n := Z.of_nat (length values) in
  let j := if i <? 0 then i + n else i in
  if (0 <=? j) && (j <? n) then Ok (nth (Z.to_nat j) values 0)
  else Raise IndexError.

End Py.

(** ** [decodeFrame], lines 92-160: normalisation and run-in *)

(** Lines 93-98: the maximum of the row. *)
Definition maxLuma (pixels : list Z) : Z :=
  fold_left (fun maxluma cpixel => if cpixel >? maxluma then cpixel else maxluma)
            pixels 0.

(** Line 111: [math.floor(100 * (values[x] / maxluma))]. *)
Definition percent (maxluma cpixel : Z) : Z :=
  Py.math_floor (Py.float_of_int 100 *
                 (Py.float_of_int cpixel / Py.float_of_int maxluma))%float.

(** Lines 112-115. *)
Definition binarize (v lastVal : Z) : Z :=
  if (45 <=? v) && (v <=? 55) then lastVal
  else if v >? 50 then 1 else 0.

(** Lines 109-116: the loop that rewrites [values] in place. *)
Fixpoint normalize (maxluma lastVal : Z) (values : list Z) : list Z :=
  match values with
  | [] => []
  | cpixel :: rest =>
      let b := binarize (percent maxluma cpixel) lastVal in
      b :: normalize maxluma b rest
  end.

(** Lines 119-123: index of the first 1, or the initial 0. *)
Fixpoint findStart (values : list Z) (x : Z) : Z :=
  match values with
  | [] => 0
  | v :: rest => if v =? 1 then x else findStart rest (x + 1)
  end.

(** Lines 137-146: [suffix] is [values[x:]]; the index of the 13th change,
    or the initial 0. *)
Fixpoint findStop (suffix : list Z) (x lastVal count : Z) : Z :=
  match suffix with
  | [] => 0
  | v :: rest =>
      if v =? lastVal then findStop rest (x + 1) lastVal count
      else if count + 1 =? 13 then x
           else findStop rest (x + 1) v (count + 1)
  end.

Record RunIn : Set := mkRunIn {
  values : list Z;
  startRunIn : Z;
  stopRunIn : Z
}.

(** Lines 92-160.  [None] is one of the four [return (0, 0)] of these
    lines; [Some] means the frame went on to line 165. *)
Definition locateRunIn (pixels : list Z) : option RunIn :=
  let width := Z.of_nat (length pixels) in
  let maxluma := maxLuma pixels in
  if maxluma <? 32 then None
  else
    let values := normalize maxluma 0 pixels in
    let startRunIn := findStart values 0 in
    if Py.int_gt_float startRunIn (Py.float_of_int width * 0.05)%float then None
    else
      let stopRunIn :=
        findStop (skipn (Z.to_nat startRunIn) values) startRunIn 1 0 in
      if stopRunIn =? 0 then None
      else if Py.int_lt_float stopRunIn (0.2 * Py.float_of_int width)%float
              || Py.int_gt_float stopRunIn (0.3 * Py.float_of_int width)%float
           then None
           else Some (mkRunIn values startRunIn stopRunIn).

(** ** Lines 165-178: timing *)

(** Lines 166 and 169. *)
Definition bitWidthOf (runInLength : Z) : Z :=
  Py.math_ceil ((Py.float_of_int runInLength / 0.251) * 0.038)%float.

(** Lines 176-177: [suffix] is [values[bitStart:]]; [values[bitStart]] is
    read before the bound is tested. *)
Fixpoint skipDead (suffix : list Z) (bitStart width : Z) : result Z :=
  match suffix with
  | [] => Raise IndexError
  | v :: rest =>
      if (v =? 0) && (bitStart <? width - 1)
      then skipDead rest (bitStart + 1) width
      else Ok bitStart
  end.

(** ** Lines 185-206: [getBit] *)

(** Lines 198-204, the samples the diagnostic print reads. *)
Fixpoint debugWindow (values : list Z) (o : Z) (n : nat) : result unit :=
  match n with
  | O => Ok tt
  | S n' => _ <- Py.getitem values o ;; debugWindow values (o + 1) n'
  end.

(** Line 192.  [bitStart], [bit] and [bitWidth] are ints, so the float sum
    is the integer [bitStart + bit*bitWidth] plus the half-integer
    [bitWidth / 2], which binary64 holds exactly (below 2^52); [int]
    truncates toward zero, which is [Z.quot] on the doubled sum. *)
Definition bitOffset (bitStart bitWidth bit : Z) : Z :=
  Z.quot (2 * (bitStart + bit * bitWidth) + bitWidth) 2.

Definition getBit (values : list Z) (bitStart bitWidth : Z) (DEBUG : bool)
                  (bit : Z) : result Z :=
  let offset := bitOffset bitStart bitWidth bit in
  if (offset >? Z.of_nat (length values) - 1) || (offset <? 0) then Ok (-1)
  else
    _ <- (if DEBUG
          then debugWindow values (bitStart + bit * bitWidth) (Z.to_nat bitWidth)
          else Ok tt) ;;
    Py.getitem values offset.

(** ** Lines 209-245: sanity bits, the two bytes, the handler *)

(** Lines 222-229, with [bs] the rest of [range(0, 7)]. *)
Fixpoint dataBits (get : Z -> result Z) (base : Z) (bs : list Z)
                  (byte parity : Z) : result (Z * Z) :=
  match bs with
  | [] => Ok (byte, parity)
  | b :: rest =>
      v <- get (base + b) ;;
      if v =? -1 then Raise ValueError
      else if v =? 0 then dataBits get base rest byte parity
           else dataBits get base rest (byte + Z.shiftl 1 b) (parity + 1)
  end.

Definition range7 : list Z := [0; 1; 2; 3; 4; 5; 6].

(** Lines 220-238, one round of [for base in (0, 8)]. *)
Definition decodeByte (get : Z -> result Z) (base : Z) : result Z :=
  bp <- dataBits get base range7 0 0 ;;
  p <- get (base + 7) ;;
  if negb (Z.land (p + snd bp) 1 =? 1) then Raise ValueError
  else Ok (fst bp).

(** Lines 210-239, the body of the [try]. *)
Definition tryBody (get : Z -> result Z) : result (list Z) :=
  s3 <- get (-3) ;;
  s2 <- get (-2) ;;
  s1 <- get (-1) ;;
  if negb ((s3 =? 0) && (s2 =? 0) && (s1 =? 1)) then Raise ValueError
  else
    byte0 <- decodeByte get 0 ;;
    byte8 <- decodeByte get 8 ;;
    Ok [byte0; byte8].

(** Lines 165-178: the bit width and the start of data bit 0. *)
Record Timing : Set := mkTiming {
  bitWidth : Z;
  bitStart : Z
}.

Definition calibrate (width : Z) (r : RunIn) : result Timing :=
  let runInLength := stopRunIn r - startRunIn r in
  let bitWidth := bitWidthOf runInLength in
  first1 <- skipDead (skipn (Z.to_nat (stopRunIn r)) (values r))
                     (stopRunIn r) width ;;
  Ok (mkTiming bitWidth (first1 + bitWidth)).

(** Lines 165-245. *)
Definition readData (width : Z) (r : RunIn) (DEBUG : bool) : result pyvalue :=
  t <- calibrate width r ;;
  match tryBody (getBit (values r) (bitStart t) (bitWidth t) DEBUG) with
  | Ok data => Ok (PySeq data)
  | Raise ValueError => if DEBUG then Ok PyNone else Ok (PySeq [0; 0])
  | Raise e => Raise e
  end.

(** [decodeFrame] from line 92 on: [pixels] is the luma row that lines
    81-85 load from [filename] at [line]. *)
Definition decodeFrame (pixels : list Z) (DEBUG : bool) : result pyvalue :=
  match locateRunIn pixels with
  | None => Ok (PySeq [0; 0])
  | Some r => readData (Z.of_nat (length pixels)) r DEBUG
  end.

(** ** [getByteStream] *)

(** A frame image, as the luma row it yields for each line. *)
Definition image : Type := Z -> list Z.

(** [pool.starmap]: the results in the order of the arguments; an
    exception of a worker is raised in the caller. *)
Fixpoint starmap {A B : Type} (f : A -> result B) (iterArgs : list A)
  : result (list B) :=
  match iterArgs with
  | [] => Ok []
  | a :: rest => b <- f a ;; bs <- starmap f rest ;; Ok (b :: bs)
  end.

(** [bytearray.append]. *)
Definition append (bytes : list Z) (b : Z) : result (list Z) :=
  if (0 <=? b) && (b <? 256) then Ok (bytes ++ [b]) else Raise ValueError.

(** Line 262: [for b in r: bytes.append(b)]. *)
Definition extend (bytes : list Z) (r : pyvalue) : result (list Z) :=
  match r with
  | PyNone => Raise TypeError
  | PySeq items =>
      fold_left (fun acc b => bytes' <- acc ;; append bytes' b) items (Ok bytes)
  end.

(** Lines 254-263, on frames that have been opened and with the pool of
    line 253 in place; [OnDisk.getByteStream] below is the function as
    called, with [threads] and the file names. *)
Definition getByteStream (images : list image) (line : Z) (DEBUG : bool)
  : result (list Z) :=
  results <- starmap (fun i => decodeFrame (i line) DEBUG) images ;;
  fold_left (fun acc r => bytes <- acc ;; extend bytes r) results (Ok []).

(** * Definitions used to state the properties *)

(** ** Names for the intermediate values of [decodeFrame] *)

(** Threshold of line 102. *)
Definition blankBelow : Z := 32.

(** The largest value an 8-bit luma sample takes (image mode "L"). *)
Definition maxSample : Z := 255.

Definition sampleRow (pixels : list Z) : Prop :=
  Forall (fun p => 0 <= p <= maxSample) pixels.

(** The intermediate values of lines 105-146, as functions of the row. *)
Definition binaryRow (pixels : list Z) : list Z :=
  normalize (maxLuma pixels) 0 pixels.

Definition firstOne (pixels : list Z) : Z := findStart (binaryRow pixels) 0.

Definition thirteenthChange (pixels : list Z) : Z :=
  findStop (skipn (Z.to_nat (firstOne pixels)) (binaryRow pixels))
           (firstOne pixels) 1 0.

Definition binary (l : list Z) : Prop := Forall (fun v => v = 0 \/ v = 1) l.

Definition outside (values : list Z) (offset : Z) : bool :=
  (offset >? Z.of_nat (length values) - 1) || (offset <? 0).

(** What the bit sampler reads at slot [bit] (lines 192-195 and 206). *)
Definition sample (pixels : list Z) (t : Timing) (bit : Z) : result Z :=
  getBit (binaryRow pixels) (bitStart t) (bitWidth t) false bit.

(** The slots of the bits -3 to 15 lie inside the row. *)
Definition slotsInside (pixels : list Z) (t : Timing) : Prop :=
  0 <= bitStart t - 3 * bitWidth t
  /\ bitStart t + 16 * bitWidth t <= Z.of_nat (length pixels).

(** The bytes of a returned sequence. *)
Definition itemsOf (r : result pyvalue) : list Z :=
  match r with
  | Ok (PySeq items) => items
  | _ => []
  end.

(** A computation that returns or raises [ValueError], nothing else. *)
Definition mild {A : Type} (m : result A) : Prop :=
  match m with
  | Ok _ | Raise ValueError => True
  | Raise _ => False
  end.

(** A value of seven bits. *)
Definition ascii (b : Z) : Prop := 0 <= b <= 127.

(** The largest value the bits of [bs] can add up to. *)
Fixpoint weight (bs : list Z) : Z :=
  match bs with
  | [] => 0
  | b :: rest => Z.shiftl 1 b + weight rest
  end.

(** ** The specification's normaliser and bit sampler, in exact arithmetic *)

(** The normaliser as the specification words it: the percentage of peak
    brightness is the exact [floor(100·sample/maxluma)]; the hysteresis
    test comes first. *)
Definition spec_percent (maxluma sample : Z) : Z := (100 * sample) / maxluma.

Definition spec_classify (v prev : Z) : Z :=
  if (45 <=? v) && (v <=? 55) then prev
  else if v >? 50 then 1
       else if v <? 45 then 0 else prev.

Fixpoint normalizer_spec (maxluma prev : Z) (samples : list Z) : list Z :=
  match samples with
  | [] => []
  | sample :: rest =>
      let b := spec_classify (spec_percent maxluma sample) prev in
      b :: normalizer_spec maxluma b rest
  end.

(** The sampler as the specification words it: the offset is the floor of
    the slot midpoint, and an offset outside the row gives -1. *)
Definition spec_offset (bitStart bitWidth bit : Z) : Z :=
  (2 * (bitStart + bit * bitWidth) + bitWidth) / 2.

Definition spec_getBit (values : list Z) (bitStart bitWidth bit : Z) : Z :=
  let offset := spec_offset bitStart bitWidth bit in
  if (0 <=? offset) && (offset <? Z.of_nat (length values))
  then nth (Z.to_nat offset) values 0
  else -1.

(** ** Bytes carried by a row *)

(** Bit [b] of a byte, the number of ones among the bits [bs], and the
    value those bits spell, least significant first. *)
Definition bitOf (byte b : Z) : Z := if Z.testbit byte b then 1 else 0.

Fixpoint onesOf (byte : Z) (bs : list Z) : Z :=
  match bs with
  | [] => 0
  | b :: rest => bitOf byte b + onesOf byte rest
  end.

Fixpoint valueOf (byte : Z) (bs : list Z) : Z :=
  match bs with
  | [] => 0
  | b :: rest => bitOf byte b * Z.shiftl 1 b + valueOf byte rest
  end.

(** Odd parity: the bit that makes the number of ones of the group odd. *)
Definition parityBit (byte : Z) : Z :=
  if Z.even (onesOf byte range7) then 1 else 0.

(** What the decoder must find in a row to return [byteA] and [byteB]: a
    signal is present, the thirteenth change lies between 20% and 30% of
    the width, and with the timing [t] that [calibrate] derives the slots
    -3, -2, -1 read 0, 0, 1 and the two groups read the seven bits of each
    byte, least significant first, followed by its odd-parity bit. *)
Record ReadsAs (pixels : list Z) (t : Timing) (byteA byteB : Z) : Prop :=
  mkReadsAs {
    reads_peak : blankBelow <= maxLuma pixels;
    reads_band : Z.of_nat (length pixels) <= 5 * thirteenthChange pixels
               /\ 10 * thirteenthChange pixels <= 3 * Z.of_nat (length pixels);
    reads_timing :
      calibrate (Z.of_nat (length pixels))
                (mkRunIn (binaryRow pixels) (firstOne pixels)
                         (thirteenthChange pixels)) = Ok t;
    reads_sanity : sample pixels t (-3) = Ok 0
                 /\ sample pixels t (-2) = Ok 0
                 /\ sample pixels t (-1) = Ok 1;
    reads_rangeA : 0 <= byteA < 128;
    reads_bitsA : forall b, In b range7 -> sample pixels t (0 + b) = Ok (bitOf byteA b);
    reads_parityA : sample pixels t (0 + 7) = Ok (parityBit byteA);
    reads_rangeB : 0 <= byteB < 128;
    reads_bitsB : forall b, In b range7 -> sample pixels t (8 + b) = Ok (bitOf byteB b);
    reads_parityB : sample pixels t (8 + 7) = Ok (parityBit byteB)
  }.

(** ** Tables checked by evaluation *)

Fixpoint all_below (P : Z -> bool) (k : nat) (start : Z) : bool :=
  match k with
  | O => P start
  | S k' => all_below P k' start && all_below P k' (start + 2 ^ Z.of_nat k')
  end.

(** Rows up to this width are covered by the tables below. *)
Definition maxWidth : Z := 65535.

Definition thresholds_ok (w : Z) : bool :=
  (Py.math_floor (Py.float_of_int w * 0.05)%float =? w / 20)
  && (Py.math_ceil (0.2 * Py.float_of_int w)%float =? - ((- w) / 5))
  && (Py.math_floor (0.3 * Py.float_of_int w)%float =? (3 * w) / 10).

(** Two percentages the classification cannot tell apart. *)
Definition same_class (v v' : Z) : bool :=
  Bool.eqb ((45 <=? v) && (v <=? 55)) ((45 <=? v') && (v' <=? 55))
  && Bool.eqb (v >? 50) (v' >? 50).

(** Entry [256·maxluma + sample] of the table of all 8-bit pairs. *)
Definition percent_ok (i : Z) : bool :=
  let maxluma := i / 256 in
  let sample := i mod 256 in
  (maxluma <? blankBelow)
  || same_class (percent maxluma sample) (spec_percent maxluma sample).

(** Entry [runInLength] of the table of bit widths. *)
Definition bitWidth_ok (runInLength : Z) : bool :=
  bitWidthOf runInLength =? - ((- (38 * runInLength)) / 251).

Definition byte_ok (byte : Z) : bool :=
  (valueOf byte range7 =? byte)
  && (Z.land (parityBit byte + onesOf byte range7) 1 =? 1).

(** ** Synthetic rows *)

(** [n] samples per level, white (255) for 1 and black (0) for 0. *)
Definition levels (n : nat) (bits : list Z) : list Z :=
  flat_map (fun b => repeat (if b =? 0 then 0 else 255) n) bits.

(** The seven cycles of the run-in, ending on a high half-cycle. *)
Definition runInBurst : list Z := [1; 0; 1; 0; 1; 0; 1; 0; 1; 0; 1; 0; 1].

(** A scanline: run-in with [h] samples per half-cycle, [d] samples of
    dead space, then the start bit and [bits], [n] samples each. *)
Definition scanline (h d n : nat) (bits : list Z) : list Z :=
  levels h runInBurst ++ repeat 0 d ++ levels n (1 :: bits).

(** 0x41 and 0x00, least significant bit first, each with its parity bit. *)
Definition bits_41_00 : list Z := [1; 0; 0; 0; 0; 0; 1; 1;  0; 0; 0; 0; 0; 0; 0; 1].

(** 0x41 and 0x03. *)
Definition bits_41_03 : list Z := [1; 0; 0; 0; 0; 0; 1; 1;  1; 1; 0; 0; 0; 0; 0; 1].

(** 102 samples: run-in to index 26 (25.5%), bits 4 samples wide. *)
Definition row_41_00 : list Z := scanline 2 8 4 bits_41_00.

(** The same signal with the dead space cut to 4 samples: slot -3 falls
    on the last half-cycle of the run-in and the sanity bits read
    (1, 0, 1). *)
Definition row_bad_sanity : list Z := scanline 2 4 4 bits_41_00.

(** The parity bit of the first byte flipped. *)
Definition row_bad_parity : list Z :=
  scanline 2 8 4 [1; 0; 0; 0; 0; 0; 1; 0;  0; 0; 0; 0; 0; 0; 0; 1].

(** A row that ends inside the last slot, after its midpoint. *)
Definition row_short_slot : list Z := firstn 101 row_41_00.

(** A row that ends before the midpoint of the last slot, the parity bit of
    the second byte. *)
Definition row_no_parity : list Z := firstn 100 (scanline 2 8 4 bits_41_03).

(** 70 samples, bits 3 samples wide, data bit 0 starting at index 22. *)
Definition row_odd_width : list Z :=
  levels 2 [1] ++ levels 1 (tl runInBurst) ++ repeat 0 5
  ++ levels 3 (1 :: bits_41_00).

Definition blank_row : list Z := repeat 0 102.

(** ** An encoder for the round trip *)

(** Modelled from the spec: the repository holds the decoder only, and the
    round trip needs the encoder.  This is the line-21 row that the
    docstring of [decodeFrame] (lines 36-60) and the specification's
    synthetic rows describe, sampled at [h] samples per half-cycle of the
    run-in: [lead] black samples, the seven cycles of the run-in, a dead
    space of two bit cells, the start bit, then the two bytes, each as its
    seven bits, least significant first, and its odd-parity bit, and
    [trail] black samples.  A bit cell lasts one cycle of the run-in
    ([2 * h] samples); black is 0 and white is [white]. *)
Definition wave (white : Z) (n : nat) (cells : list Z) : list Z :=
  flat_map (fun c => repeat (if c =? 0 then 0 else white) n) cells.

Definition byteBits (byte : Z) : list Z :=
  map (bitOf byte) range7 ++ [parityBit byte].

Definition encode (lead h trail : nat) (white byteA byteB : Z) : list Z :=
  repeat 0 lead
  ++ wave white h runInBurst
  ++ repeat 0 (4 * h)
  ++ wave white (2 * h) (1 :: byteBits byteA ++ byteBits byteB)
  ++ repeat 0 trail.

(** Index of the first sample after the run-in of an encoded row. *)
Definition runInEnd (lead h : nat) : Z := Z.of_nat lead + 13 * Z.of_nat h.

(** 0x41 and 0x00 at 10 samples per half-cycle after 30 black samples:
    540 samples, run-in from 5.6% to 29.6% of the width. *)
Definition row_encoded_late : list Z := encode 30 10 0 255 65 0.

(** 0x41 and 0x00 with a white level of 31. *)
Definition row_encoded_dim : list Z := encode 0 2 0 31 65 0.

(** ** Further names used below *)

(** Two computations that agree unless the first fails with something
    other than [ValueError]. *)
Definition agree {A : Type} (m m' : result A) : Prop :=
  match m with
  | Ok a => m' = Ok a
  | Raise ValueError => m' = Raise ValueError
  | Raise _ => True
  end.

(** What the non-debug path returns where the debug path returns [v]. *)
Definition withoutDiagnostics (v : pyvalue) : pyvalue :=
  match v with
  | PyNone => PySeq [0; 0]
  | PySeq items => PySeq items
  end.

(** The shortest run-in (one sample per half-cycle) and black samples up to
    43 and to 44 samples. *)
Definition row_43 : list Z := levels 1 runInBurst ++ repeat 0 30.
Definition row_44 : list Z := levels 1 runInBurst ++ repeat 0 31.

(** The value that the reads [rs] of the bits [bs] spell, least
    significant first, and the number of ones among them. *)
Fixpoint spelled (bs rs : list Z) : Z :=
  match bs, rs with
  | b :: bs', r :: rs' => r * Z.shiftl 1 b + spelled bs' rs'
  | _, _ => 0
  end.

Fixpoint total (rs : list Z) : Z :=
  match rs with
  | [] => 0
  | r :: rs' => r + total rs'
  end.

(** The group of bits [base .. base+7] is read as [byte]: the seven data
    reads are the bits of [byte], and the eighth read makes the count of
    ones odd (line 233; the read may be the -1 of an offset out of
    range). *)
Definition groupAccepted (get : Z -> result Z) (base byte : Z) : Prop :=
  0 <= byte < 128
  /\ (forall b, In b range7 -> get (base + b) = Ok (bitOf byte b))
  /\ exists p, get (base + 7) = Ok p
               /\ Z.land (p + onesOf byte range7) 1 = 1.

(** The reads that lines 213-234 accept as the bytes [byteA], [byteB]. *)
Definition accepted (get : Z -> result Z) (byteA byteB : Z) : Prop :=
  get (-3) = Ok 0 /\ get (-2) = Ok 0 /\ get (-1) = Ok 1
  /\ groupAccepted get 0 byteA /\ groupAccepted get 8 byteB.

(** Each frame of a batch hands back a pair of bytes. *)
Definition pairs (line : Z) (DEBUG : bool) (images : list image) : Prop :=
  Forall (fun i : image =>
            exists byte0 byte8,
              decodeFrame (i line) DEBUG = Ok (PySeq [byte0; byte8]))
         images.

(** The frames' pairs, in the order of the frames. *)
Definition stream (line : Z) (DEBUG : bool) (images : list image) : list Z :=
  flat_map (fun i : image => itemsOf (decodeFrame (i line) DEBUG)) images.

(** Lines 257-263 with bytes already collected in [bytes]. *)
Definition collectFrom (bytes : list Z) (images : list image) (line : Z)
           (DEBUG : bool) : result (list Z) :=
  results <- starmap (fun i : image => decodeFrame (i line) DEBUG) images ;;
  fold_left (fun acc r => bytes' <- acc ;; extend bytes' r) results (Ok bytes).

(** ** The command line (lines 265-303) *)

(** [posixpath.join] of two components. *)
Definition slash : Ascii.ascii := Ascii.ascii_of_nat 47.

Definition startsWithSlash (s : String.string) : bool :=
  match s with
  | String.String c _ => Ascii.eqb c slash
  | String.EmptyString => false
  end.

Fixpoint endsWithSlash (s : String.string) : bool :=
  match s with
  | String.EmptyString => false
  | String.String c String.EmptyString => Ascii.eqb c slash
  | String.String _ rest => endsWithSlash rest
  end.

Definition join (a b : String.string) : String.string :=
  if startsWithSlash b then b
  else if match a with String.EmptyString => true | _ => false end
          || endsWithSlash a
       then String.append a b
       else String.append a (String.String slash b).

(** [list.sort] on paths: [str] is ordered character by character, a
    total and antisymmetric order, so a list has exactly one sorted
    arrangement and any sorting function computes it. *)
Module PathOrder <: Orders.TotalLeBool.
Definition t : Type := String.string.
Definition leb : t -> t -> bool := String.leb.
Definition leb_total : forall a1 a2, leb a1 a2 = true \/ leb a2 a1 = true :=
  String.leb_total.
End PathOrder.

Module PathSort := Mergesort.Sort PathOrder.

(** The two ways the loop of lines 289-300 ends: with the list of files,
    or in [sys.exit(1)] on a path that is neither a file nor a
    directory. *)
Inductive listing : Set :=
| Listed (files : list String.string)
| NotAFileOrDirectory (f : String.string).

(** [bytes.decode('ascii')]: [None] is [UnicodeDecodeError]. *)
Definition decode_ascii (bytes : list Z) : option (list Z) :=
  if forallb (fun b => b <? 128) bytes then Some bytes else None.

(** What [Pool(threads)] accepts: no number, or a number of processes of
    at least 1. *)
Definition poolAccepts (threads : option Z) : Prop :=
  match threads with Some n => 1 <= n | None => True end.

(** What can leave [getByteStream]: an exception of the decoder's own
    code, or the [OSError] of lines 81-82 on a file that is missing,
    unreadable or no image ([UnidentifiedImageError] is an [OSError]). *)
Inductive error : Set :=
| Exn (e : exn)
| OSError.

Fixpoint starmap_files {A B : Type} (f : A -> error + B) (iterArgs : list A)
  : error + list B :=
  match iterArgs with
  | [] => inr []
  | a :: rest =>
      match f a with
      | inl e => inl e
      | inr b =>
          match starmap_files f rest with
          | inl e => inl e
          | inr bs => inr (b :: bs)
          end
      end
  end.

(** Line 253: [Pool(threads)] raises [ValueError] for a number of
    processes below 1; [None] takes the number of CPUs. *)
Definition Pool (threads : option Z) : result unit :=
  match threads with
  | Some n => if n <? 1 then Raise ValueError else Ok tt
  | None => Ok tt
  end.

(** The two functions as they are called, on file names.  [Image_open] is
    what lines 81-85 make of a file name: the luma rows of the image, or
    [None] where [Image.open] or [convert] raises. *)
Module OnDisk.
Section Images.
Variable Image_open : String.string -> option image.

(** Lines 11-245. *)
Definition decodeFrame (filename : String.string) (line : Z) (DEBUG : bool)
  : error + pyvalue :=
  match Image_open filename with
  | None => inl OSError
  | Some luma =>
      match decodeFrame (luma line) DEBUG with
      | Ok v => inr v
      | Raise e => inl (Exn e)
      end
  end.

(** Lines 248-263. *)
Definition getByteStream (images : list String.string) (line : Z)
           (threads : option Z) (DEBUG : bool) : error + list Z :=
  match Pool threads with
  | Raise e => inl (Exn e)
  | Ok _ =>
      match starmap_files (fun i => decodeFrame i line DEBUG) images with
      | inl e => inl e
      | inr results =>
          match fold_left (fun acc r => bytes <- acc ;; extend bytes r)
                          results (Ok []) with
          | Ok bytes => inr bytes
          | Raise e => inl (Exn e)
          end
      end
  end.
End Images.
End OnDisk.

(** The frames of the files [images], in order, when all of them open. *)
Fixpoint opened (Image_open : String.string -> option image)
         (images : list String.string) : option (list image) :=
  match images with
  | [] => Some []
  | i :: rest =>
      match Image_open i, opened Image_open rest with
      | Some luma, Some frames => Some (luma :: frames)
      | _, _ => None
      end
  end.

(** How a run of the script ends. *)
Inductive outcome : Set :=
| Printed (text : list Z)
| Exited (status : Z)
| Uncaught (e : error)
| UnicodeDecodeError.

Section CommandLine.
(** The file system as [os.path.isfile], [os.path.isdir] and [os.listdir]
    answer for it, and the images as [Image_open] above. *)
Variables isfile isdir : String.string -> bool.
Variable listdir : String.string -> list String.string.
Variable Image_open : String.string -> option image.

(** Lines 293-296. *)
Definition fromDirectory (f : String.string) (files : list String.string)
  : list String.string :=
  fold_left (fun files i =>
               let file := join f i in
               if isfile file then files ++ [file] else files)
            (listdir f) files.

(** Lines 289-300. *)
Fixpoint gather (args files : list String.string) : listing :=
  match args with
  | [] => Listed files
  | f :: rest =>
      if isfile f then gather rest (files ++ [f])
      else if isdir f then gather rest (PathSort.sort (fromDirectory f files))
           else NotAFileOrDirectory f
  end.

(** The files one argument contributes. *)
Definition contribution (f : String.string) : list String.string :=
  if isfile f then [f]
  else filter isfile (map (join f) (listdir f)).

(** Lines 288-303 after [parse_args]; [print] ends the text with a
    newline. *)
Definition main (args : list String.string) (ccline : Z) (threads : option Z)
           (debug : bool) : outcome :=
  match gather args [] with
  | NotAFileOrDirectory _ => Exited 1
  | Listed files =>
      match OnDisk.getByteStream Image_open files ccline threads debug with
      | inl e => Uncaught e
      | inr bytes =>
          match decode_ascii bytes with
          | Some text => Printed (text ++ [10])
          | None => UnicodeDecodeError
          end
      end
  end.
End CommandLine.

(** A directory ["d"] holding the frames ["b"] and ["a"] and a
    subdirectory ["sub"], a frame ["z.png"] beside it, and a directory
    ["e"] holding a text file. *)
Definition demo_isfile (p : String.string) : bool :=
  String.eqb p "z.png"%string || String.eqb p "d/a"%string
  || String.eqb p "d/b"%string || String.eqb p "e/notes.txt"%string.
Definition demo_isdir (p : String.string) : bool :=
  String.eqb p "d"%string || String.eqb p "d/sub"%string
  || String.eqb p "e"%string.
Definition demo_listdir (p : String.string) : list String.string :=
  if String.eqb p "d"%string then ["b"; "sub"; "a"]%string
  else if String.eqb p "e"%string then ["notes.txt"]%string else [].
Definition demo_open (p : String.string) : option image :=
  if String.eqb p "d/a"%string then Some (fun _ => row_41_00)
  else if String.eqb p "d/b"%string || String.eqb p "z.png"%string
       then Some (fun _ => blank_row)
       else None.

(** * Properties *)

(** ** Checking a predicate on a whole interval by evaluation *)

Lemma all_below_sound (P : Z -> bool) (k : nat) :
  forall start, all_below P k start = true ->
  forall w, start <= w < start + 2 ^ Z.of_nat k -> P w = true.
Proof.
  induction k as [|k IH]; intros start H w Hw.
  - change (2 ^ Z.of_nat 0) with 1 in Hw.
    replace w with start by lia. exact H.
  - cbn [all_below] in H. apply andb_prop in H as [Hlo Hhi].
    rewrite Nat2Z.inj_succ, Z.pow_succ_r in Hw by lia.
    destruct (Z_lt_le_dec w (start + 2 ^ Z.of_nat k)).
    + apply (IH start); [assumption | lia].
    + apply (IH (start + 2 ^ Z.of_nat k)); [assumption | lia].
Qed.

(** ** The float thresholds of lines 127 and 159 are the exact ones *)

Lemma thresholds_table : all_below thresholds_ok 16 0 = true.
Proof. vm_compute. reflexivity. Qed.

Lemma thresholds_exact (w : Z) :
  0 <= w <= maxWidth ->
  Py.math_floor (Py.float_of_int w * 0.05)%float = w / 20
  /\ Py.math_ceil (0.2 * Py.float_of_int w)%float = - ((- w) / 5)
  /\ Py.math_floor (0.3 * Py.float_of_int w)%float = (3 * w) / 10.
Proof.
  intros Hw.
  assert (H : thresholds_ok w = true).
  { apply (all_below_sound _ _ _ thresholds_table).
    unfold maxWidth in Hw. change (2 ^ Z.of_nat 16) with 65536. lia. }
  unfold thresholds_ok in H.
  apply andb_prop in H as [H H3]. apply andb_prop in H as [H1 H2].
  apply Z.eqb_eq in H1, H2, H3. auto.
Qed.

(** Line 127: [startRunIn > width * 0.05]. *)
Lemma late_start_exact (w s : Z) :
  0 <= w <= maxWidth ->
  Py.int_gt_float s (Py.float_of_int w * 0.05)%float = (w <? 20 * s).
Proof.
  intros Hw. destruct (thresholds_exact w Hw) as (E & _ & _).
  unfold Py.int_gt_float. rewrite E.
  pose proof (Z.div_mod w 20 ltac:(lia)).
  pose proof (Z.mod_pos_bound w 20 ltac:(lia)).
  destruct (Z.ltb_spec (w / 20) s), (Z.ltb_spec w (20 * s)); lia.
Qed.

(** Line 159, left: [stopRunIn < 0.2 * width]. *)
Lemma short_runin_exact (w s : Z) :
  0 <= w <= maxWidth ->
  Py.int_lt_float s (0.2 * Py.float_of_int w)%float = (5 * s <? w).
Proof.
  intros Hw. destruct (thresholds_exact w Hw) as (_ & E & _).
  unfold Py.int_lt_float. rewrite E.
  pose proof (Z.div_mod (- w) 5 ltac:(lia)).
  pose proof (Z.mod_pos_bound (- w) 5 ltac:(lia)).
  destruct (Z.ltb_spec s (- (- w / 5))), (Z.ltb_spec (5 * s) w); lia.
Qed.

(** Line 159, right: [stopRunIn > 0.3 * width]. *)
Lemma long_runin_exact (w s : Z) :
  0 <= w <= maxWidth ->
  Py.int_gt_float s (0.3 * Py.float_of_int w)%float = (3 * w <? 10 * s).
Proof.
  intros Hw. destruct (thresholds_exact w Hw) as (_ & _ & E).
  unfold Py.int_gt_float. rewrite E.
  pose proof (Z.div_mod (3 * w) 10 ltac:(lia)).
  pose proof (Z.mod_pos_bound (3 * w) 10 ltac:(lia)).
  destruct (Z.ltb_spec (3 * w / 10) s), (Z.ltb_spec (3 * w) (10 * s)); lia.
Qed.

(** ** Blank rows (lines 92-103) *)

(** C9.  A row whose peak is below 32 is rejected at line 103, before the
    binary row or anything later is computed, whatever the debug flag. *)
Theorem blank_row_rejected (pixels : list Z) (DEBUG : bool) :
  maxLuma pixels < blankBelow ->
  locateRunIn pixels = None
  /\ decodeFrame pixels DEBUG = Ok (PySeq [0; 0]).
Proof.
  intros Hblank. unfold blankBelow in Hblank.
  assert (E : locateRunIn pixels = None).
  { unfold locateRunIn. apply Z.ltb_lt in Hblank. now rewrite Hblank. }
  split; [exact E|]. unfold decodeFrame. now rewrite E.
Qed.

Lemma blank_row_rejected_witness :
  maxLuma [0; 12; 31; 7] < blankBelow
  /\ locateRunIn [0; 12; 31; 7] = None
  /\ decodeFrame [0; 12; 31; 7] true = Ok (PySeq [0; 0]).
Proof.
  assert (H : maxLuma [0; 12; 31; 7] < blankBelow) by (vm_compute; reflexivity).
  split; [exact H|]. exact (blank_row_rejected _ true H).
Defined.

(** ** The normaliser (lines 105-116) *)

Lemma percent_table : all_below percent_ok 16 0 = true.
Proof. vm_compute. reflexivity. Qed.

Lemma same_class_binarize (v v' prev : Z) :
  same_class v v' = true -> binarize v prev = spec_classify v' prev.
Proof.
  unfold same_class, binarize, spec_classify. intros H.
  apply andb_prop in H as [Hb Hg].
  apply eqb_prop in Hb. apply eqb_prop in Hg. rewrite Hb, Hg.
  destruct (Z.leb_spec 45 v'), (Z.leb_spec v' 55), (Z.gtb_spec v' 50),
           (Z.ltb_spec v' 45); cbn; try reflexivity; lia.
Qed.

Lemma binarize_exact (maxluma sample prev : Z) :
  blankBelow <= maxluma <= maxSample -> 0 <= sample <= maxSample ->
  binarize (percent maxluma sample) prev
  = spec_classify (spec_percent maxluma sample) prev.
Proof.
  unfold blankBelow, maxSample. intros Hm Hs.
  apply same_class_binarize.
  assert (H : percent_ok (256 * maxluma + sample) = true).
  { apply (all_below_sound _ _ _ percent_table).
    change (2 ^ Z.of_nat 16) with 65536. lia. }
  unfold percent_ok in H.
  replace ((256 * maxluma + sample) / 256) with maxluma in H
    by (apply (Z.div_unique _ 256 maxluma sample); lia).
  replace ((256 * maxluma + sample) mod 256) with sample in H
    by (apply (Z.mod_unique _ 256 maxluma sample); lia).
  apply orb_prop in H as [H | H]; [|exact H].
  apply Z.ltb_lt in H. unfold blankBelow in H. lia.
Qed.

Lemma normalize_exact (maxluma : Z) :
  blankBelow <= maxluma <= maxSample ->
  forall samples prev, sampleRow samples ->
  normalize maxluma prev samples = normalizer_spec maxluma prev samples.
Proof.
  intros Hm samples. induction samples as [|s rest IH]; intros prev Hrow.
  - reflexivity.
  - inversion Hrow as [|? ? Hs Hrest]; subst. cbn [normalize normalizer_spec].
    rewrite (binarize_exact maxluma s prev Hm Hs). f_equal.
    apply IH. exact Hrest.
Qed.

Lemma normalize_length (maxluma : Z) :
  forall samples prev, length (normalize maxluma prev samples) = length samples.
Proof.
  induction samples as [|s rest IH]; intros prev; cbn [normalize length].
  - reflexivity.
  - now rewrite IH.
Qed.

Lemma fold_max_bounds (hi : Z) (pixels : list Z) :
  forall acc, 0 <= acc <= hi -> Forall (fun p => 0 <= p <= hi) pixels ->
  acc <= fold_left (fun maxluma cpixel =>
                      if cpixel >? maxluma then cpixel else maxluma) pixels acc
      <= hi.
Proof.
  induction pixels as [|p rest IH]; intros acc Hacc Hrow; cbn [fold_left].
  - lia.
  - inversion Hrow as [|? ? Hp Hrest]; subst.
    destruct (Z.gtb_spec p acc).
    + specialize (IH p ltac:(lia) Hrest). lia.
    + specialize (IH acc Hacc Hrest). lia.
Qed.

Lemma maxLuma_bounds (pixels : list Z) :
  sampleRow pixels -> 0 <= maxLuma pixels <= maxSample.
Proof.
  intros Hrow. unfold maxLuma.
  apply (fold_max_bounds maxSample pixels 0); [unfold maxSample; lia | exact Hrow].
Qed.

(** C8.  On a row of 8-bit samples whose peak is at least 32, the binary row
    the code computes is the one the specification describes, and it is as
    long as the sample row. *)
Theorem normalize_refines_spec (pixels : list Z) :
  sampleRow pixels -> blankBelow <= maxLuma pixels ->
  normalize (maxLuma pixels) 0 pixels
  = normalizer_spec (maxLuma pixels) 0 pixels
  /\ length (normalize (maxLuma pixels) 0 pixels) = length pixels.
Proof.
  intros Hrow Hpeak. split.
  - apply normalize_exact; [|exact Hrow].
    pose proof (maxLuma_bounds pixels Hrow). lia.
  - apply normalize_length.
Qed.

Lemma normalize_refines_spec_witness :
  sampleRow [0; 29; 44; 45; 57; 55; 56; 100; 50; 20]
  /\ blankBelow <= maxLuma [0; 29; 44; 45; 57; 55; 56; 100; 50; 20]
  /\ normalize (maxLuma [0; 29; 44; 45; 57; 55; 56; 100; 50; 20]) 0
               [0; 29; 44; 45; 57; 55; 56; 100; 50; 20]
     = normalizer_spec (maxLuma [0; 29; 44; 45; 57; 55; 56; 100; 50; 20]) 0
                       [0; 29; 44; 45; 57; 55; 56; 100; 50; 20]
  /\ length (normalize (maxLuma [0; 29; 44; 45; 57; 55; 56; 100; 50; 20]) 0
                       [0; 29; 44; 45; 57; 55; 56; 100; 50; 20])
     = length [0; 29; 44; 45; 57; 55; 56; 100; 50; 20].
Proof.
  assert (Hrow : sampleRow [0; 29; 44; 45; 57; 55; 56; 100; 50; 20])
    by (unfold sampleRow, maxSample; repeat constructor; lia).
  assert (Hpeak : blankBelow <= maxLuma [0; 29; 44; 45; 57; 55; 56; 100; 50; 20])
    by (vm_compute; discriminate).
  split; [exact Hrow|]. split; [exact Hpeak|].
  exact (normalize_refines_spec _ Hrow Hpeak).
Defined.

(** The code's percentage is not always the exact one: 29 of a peak of 100
    comes out as 28, which the classification does not see. *)
Example percent_29_of_100 :
  percent 100 29 = 28 /\ spec_percent 100 29 = 29.
Proof. split; vm_compute; reflexivity. Qed.

Lemma binarize_binary (v prev : Z) :
  prev = 0 \/ prev = 1 -> binarize v prev = 0 \/ binarize v prev = 1.
Proof.
  intros Hprev. unfold binarize.
  destruct ((45 <=? v) && (v <=? 55)); [exact Hprev|].
  destruct (v >? 50); auto.
Qed.

Lemma normalize_binary (maxluma : Z) :
  forall samples prev, prev = 0 \/ prev = 1 ->
  binary (normalize maxluma prev samples).
Proof.
  induction samples as [|s rest IH]; intros prev Hprev; cbn [normalize].
  - constructor.
  - pose proof (binarize_binary (percent maxluma s) prev Hprev) as Hb.
    constructor; [exact Hb | apply IH; exact Hb].
Qed.

Lemma binaryRow_binary (pixels : list Z) : binary (binaryRow pixels).
Proof. apply normalize_binary. now left. Qed.

Lemma binaryRow_length (pixels : list Z) :
  length (binaryRow pixels) = length pixels.
Proof. apply normalize_length. Qed.

(** ** The run-in locator (lines 118-160) *)

Lemma findStart_no_one (l : list Z) :
  ~ In 1 l -> forall x, findStart l x = 0.
Proof.
  induction l as [|v rest IH]; intros Hno x; cbn [findStart].
  - reflexivity.
  - destruct (Z.eqb_spec v 1) as [->|_].
    + exfalso. apply Hno. now left.
    + apply IH. intros Hin. apply Hno. now right.
Qed.

Lemma findStop_constant (l : list Z) (lastVal : Z) :
  Forall (fun v => v = lastVal) l ->
  forall x count, findStop l x lastVal count = 0.
Proof.
  induction 1 as [|v rest Hv _ IH]; intros x count; cbn [findStop].
  - reflexivity.
  - subst v. rewrite Z.eqb_refl. apply IH.
Qed.

Lemma findStop_no_one (l : list Z) :
  binary l -> ~ In 1 l -> findStop l 0 1 0 = 0.
Proof.
  intros Hbin Hno.
  assert (Hzero : Forall (fun v => v = 0) l).
  { apply Forall_forall. intros v Hin.
    destruct (proj1 (Forall_forall _ l) Hbin v Hin) as [E|E]; [exact E|].
    subst v. contradiction. }
  destruct Hzero as [|v rest Hv Hrest]; cbn [findStop].
  - reflexivity.
  - subst v. cbn. apply findStop_constant. exact Hrest.
Qed.

Lemma findStart_range (l : list Z) :
  forall x, 0 <= x ->
  findStart l x = 0 \/ x <= findStart l x < x + Z.of_nat (length l).
Proof.
  induction l as [|v rest IH]; intros x Hx; cbn [findStart length].
  - now left.
  - destruct (v =? 1).
    + right. lia.
    + destruct (IH (x + 1) ltac:(lia)) as [E|E]; [now left | right; lia].
Qed.

Lemma findStop_range (l : list Z) :
  forall x lastVal count,
  findStop l x lastVal count = 0
  \/ x <= findStop l x lastVal count < x + Z.of_nat (length l).
Proof.
  induction l as [|v rest IH]; intros x lastVal count; cbn [findStop length].
  - now left.
  - destruct (v =? lastVal).
    + destruct (IH (x + 1) lastVal count) as [E|E]; [now left | right; lia].
    + destruct (count + 1 =? 13).
      * right. lia.
      * destruct (IH (x + 1) v (count + 1)) as [E|E]; [now left | right; lia].
Qed.

(** Thirteen changes take at least twelve more samples. *)
Lemma findStop_at_least (l : list Z) :
  forall x lastVal count,
  0 <= count <= 12 -> findStop l x lastVal count <> 0 ->
  x + (12 - count) <= findStop l x lastVal count.
Proof.
  induction l as [|v rest IH]; intros x lastVal count Hc Hfound;
    cbn [findStop] in *.
  - contradiction.
  - destruct (v =? lastVal).
    + specialize (IH (x + 1) lastVal count Hc Hfound). lia.
    + destruct (Z.eqb_spec (count + 1) 13).
      * lia.
      * specialize (IH (x + 1) v (count + 1) ltac:(lia) Hfound). lia.
Qed.

Lemma firstOne_range (pixels : list Z) :
  0 <= firstOne pixels <= Z.of_nat (length pixels).
Proof.
  unfold firstOne.
  destruct (findStart_range (binaryRow pixels) 0 ltac:(lia)) as [E|E].
  - rewrite E. lia.
  - rewrite binaryRow_length in E. lia.
Qed.

Lemma thirteenthChange_range (pixels : list Z) :
  thirteenthChange pixels <> 0 ->
  0 < thirteenthChange pixels < Z.of_nat (length pixels).
Proof.
  intros Hfound. unfold thirteenthChange in *.
  pose proof (firstOne_range pixels) as Hs.
  destruct (findStop_range
              (skipn (Z.to_nat (firstOne pixels)) (binaryRow pixels))
              (firstOne pixels) 1 0) as [E|E]; [contradiction|].
  rewrite length_skipn, binaryRow_length in E. lia.
Qed.

(** What [locateRunIn] returns, with the thresholds of lines 127 and 159
    in exact arithmetic. *)
Lemma locateRunIn_exact (pixels : list Z) :
  Z.of_nat (length pixels) <= maxWidth ->
  locateRunIn pixels =
  if maxLuma pixels <? blankBelow then None
  else if Z.of_nat (length pixels) <? 20 * firstOne pixels then None
  else if thirteenthChange pixels =? 0 then None
  else if (5 * thirteenthChange pixels <? Z.of_nat (length pixels))
          || (3 * Z.of_nat (length pixels) <? 10 * thirteenthChange pixels)
       then None
       else Some (mkRunIn (binaryRow pixels) (firstOne pixels)
                          (thirteenthChange pixels)).
Proof.
  intros Hw.
  assert (Hw' : 0 <= Z.of_nat (length pixels) <= maxWidth) by lia.
  unfold locateRunIn.
  rewrite (late_start_exact _ _ Hw'), (short_runin_exact _ _ Hw'),
          (long_runin_exact _ _ Hw').
  reflexivity.
Qed.

Lemma locateRunIn_shape (pixels : list Z) (r : RunIn) :
  locateRunIn pixels = Some r ->
  r = mkRunIn (binaryRow pixels) (firstOne pixels) (thirteenthChange pixels)
  /\ thirteenthChange pixels <> 0.
Proof.
  unfold locateRunIn. intros Hr.
  destruct (maxLuma pixels <? 32); [discriminate|].
  destruct (Py.int_gt_float _ _); [discriminate|].
  fold (binaryRow pixels) in Hr. fold (firstOne pixels) in Hr.
  fold (thirteenthChange pixels) in Hr.
  destruct (Z.eqb_spec (thirteenthChange pixels) 0); [discriminate|].
  destruct (_ || _); [discriminate|].
  injection Hr as <-. auto.
Qed.

(** C6.  A row whose binary row has no 1, or whose first 1 lies beyond 5%
    of the width, is rejected: [decodeFrame] returns (0, 0). *)
Theorem late_start_rejected (pixels : list Z) (DEBUG : bool) :
  Z.of_nat (length pixels) <= maxWidth ->
  ~ In 1 (binaryRow pixels)
  \/ Z.of_nat (length pixels) < 20 * firstOne pixels ->
  decodeFrame pixels DEBUG = Ok (PySeq [0; 0]).
Proof.
  intros Hw Hlate.
  enough (E : locateRunIn pixels = None)
    by (unfold decodeFrame; now rewrite E).
  rewrite (locateRunIn_exact pixels Hw).
  destruct (maxLuma pixels <? blankBelow); [reflexivity|].
  destruct Hlate as [Hno | Hlate].
  - assert (Hs : firstOne pixels = 0) by (apply findStart_no_one; exact Hno).
    assert (Ht : thirteenthChange pixels = 0).
    { unfold thirteenthChange. rewrite Hs. cbn [Z.to_nat skipn].
      apply findStop_no_one; [apply binaryRow_binary | exact Hno]. }
    rewrite Ht, Z.eqb_refl.
    destruct (Z.of_nat (length pixels) <? 20 * firstOne pixels); reflexivity.
  - apply Z.ltb_lt in Hlate. now rewrite Hlate.
Qed.

Lemma late_start_rejected_witness :
  Z.of_nat (length (repeat 0 10 ++ repeat 255 30)) <= maxWidth
  /\ (~ In 1 (binaryRow (repeat 0 10 ++ repeat 255 30))
      \/ Z.of_nat (length (repeat 0 10 ++ repeat 255 30))
         < 20 * firstOne (repeat 0 10 ++ repeat 255 30))
  /\ decodeFrame (repeat 0 10 ++ repeat 255 30) false = Ok (PySeq [0; 0]).
Proof.
  assert (Hw : Z.of_nat (length (repeat 0 10 ++ repeat 255 30)) <= maxWidth)
    by (vm_compute; discriminate).
  assert (Hlate : ~ In 1 (binaryRow (repeat 0 10 ++ repeat 255 30))
                  \/ Z.of_nat (length (repeat 0 10 ++ repeat 255 30))
                     < 20 * firstOne (repeat 0 10 ++ repeat 255 30))
    by (right; vm_compute; reflexivity).
  split; [exact Hw|]. split; [exact Hlate|].
  exact (late_start_rejected _ false Hw Hlate).
Defined.

(** C7.  A frame that gets past line 160 has its 13th change between 20%
    and 30% of the width; a frame whose 13th change lies outside that band
    is rejected with (0, 0). *)
Theorem runin_band (pixels : list Z) :
  Z.of_nat (length pixels) <= maxWidth ->
  (forall r, locateRunIn pixels = Some r ->
     stopRunIn r = thirteenthChange pixels
     /\ Z.of_nat (length pixels) <= 5 * stopRunIn r
     /\ 10 * stopRunIn r <= 3 * Z.of_nat (length pixels))
  /\ (forall DEBUG,
        5 * thirteenthChange pixels < Z.of_nat (length pixels)
        \/ 3 * Z.of_nat (length pixels) < 10 * thirteenthChange pixels ->
        decodeFrame pixels DEBUG = Ok (PySeq [0; 0])).
Proof.
  intros Hw. pose proof (locateRunIn_exact pixels Hw) as E.
  destruct (maxLuma pixels <? blankBelow);
    [|destruct (Z.of_nat (length pixels) <? 20 * firstOne pixels);
      [|destruct (thirteenthChange pixels =? 0)]].
  1-3: split; [intros r Hr; congruence
              | intros DEBUG _; unfold decodeFrame; now rewrite E].
  destruct (Z.ltb_spec (5 * thirteenthChange pixels) (Z.of_nat (length pixels)))
    as [Hshort|Hshort];
  destruct (Z.ltb_spec (3 * Z.of_nat (length pixels))
                       (10 * thirteenthChange pixels)) as [Hlong|Hlong];
  cbn [orb] in E.
  1-3: split; [intros r Hr; congruence
              | intros DEBUG _; unfold decodeFrame; now rewrite E].
  split.
  - intros r Hr. rewrite E in Hr. injection Hr as <-. cbn [stopRunIn]. lia.
  - intros DEBUG [H|H]; lia.
Qed.

Lemma runin_band_witness :
  Z.of_nat (length row_41_00) <= maxWidth
  /\ (forall r, locateRunIn row_41_00 = Some r ->
        stopRunIn r = thirteenthChange row_41_00
        /\ Z.of_nat (length row_41_00) <= 5 * stopRunIn r
        /\ 10 * stopRunIn r <= 3 * Z.of_nat (length row_41_00))
  /\ (forall DEBUG,
        5 * thirteenthChange row_41_00 < Z.of_nat (length row_41_00)
        \/ 3 * Z.of_nat (length row_41_00) < 10 * thirteenthChange row_41_00 ->
        decodeFrame row_41_00 DEBUG = Ok (PySeq [0; 0])).
Proof.
  assert (Hw : Z.of_nat (length row_41_00) <= maxWidth)
    by (vm_compute; discriminate).
  split; [exact Hw|]. exact (runin_band row_41_00 Hw).
Defined.

(** ** Timing (lines 165-178) *)

Lemma skipDead_total (width : Z) (suffix : list Z) :
  forall x, x + Z.of_nat (length suffix) = width -> suffix <> [] ->
  exists first1, skipDead suffix x width = Ok first1 /\ x <= first1 < width.
Proof.
  induction suffix as [|v rest IH]; intros x Hlen Hne; [contradiction|].
  cbn [skipDead length] in *.
  destruct ((v =? 0) && (x <? width - 1)) eqn:Hgo.
  - apply andb_prop in Hgo as [_ Hgo]. apply Z.ltb_lt in Hgo.
    destruct (IH (x + 1)) as (first1 & E & Hr).
    + lia.
    + intros ->. cbn [length] in Hlen. lia.
    + exists first1. split; [exact E | lia].
  - exists x. split; [reflexivity | lia].
Qed.

Lemma skipn_nonempty {A : Type} (l : list A) (n : nat) :
  (n < length l)%nat -> skipn n l <> [].
Proof.
  intros Hn E. apply (f_equal (@length A)) in E.
  rewrite length_skipn in E. cbn [length] in E. lia.
Qed.

(** Line 176 never indexes outside the row. *)
Lemma calibrate_total (pixels : list Z) (r : RunIn) :
  locateRunIn pixels = Some r ->
  exists first1,
    calibrate (Z.of_nat (length pixels)) r
    = Ok (mkTiming (bitWidthOf (stopRunIn r - startRunIn r))
                   (first1 + bitWidthOf (stopRunIn r - startRunIn r)))
    /\ stopRunIn r <= first1 < Z.of_nat (length pixels).
Proof.
  intros Hr.
  destruct (locateRunIn_shape pixels r Hr) as [-> Hfound].
  cbn [values stopRunIn startRunIn].
  pose proof (thirteenthChange_range pixels Hfound) as Hrange.
  unfold calibrate. cbn [values stopRunIn startRunIn].
  pose proof (binaryRow_length pixels) as Hlen.
  destruct (skipDead_total (Z.of_nat (length pixels))
              (skipn (Z.to_nat (thirteenthChange pixels)) (binaryRow pixels))
              (thirteenthChange pixels)) as (first1 & E & Hf).
  - rewrite length_skipn, Hlen. lia.
  - apply skipn_nonempty. rewrite Hlen. lia.
  - exists first1. rewrite E. cbn [bind]. split; [reflexivity | exact Hf].
Qed.

Lemma bitWidth_table : all_below bitWidth_ok 16 0 = true.
Proof. vm_compute. reflexivity. Qed.

(** Lines 166-169 give the exact [ceil(runInLength · 0.038 / 0.251)]. *)
Lemma bitWidthOf_exact (runInLength : Z) :
  0 <= runInLength <= maxWidth ->
  bitWidthOf runInLength = - ((- (38 * runInLength)) / 251).
Proof.
  intros Hr. apply Z.eqb_eq. fold (bitWidth_ok runInLength).
  apply (all_below_sound _ _ _ bitWidth_table).
  unfold maxWidth in Hr. change (2 ^ Z.of_nat 16) with 65536. lia.
Qed.

(** ** The bit sampler (lines 185-206) *)

Lemma getitem_inside (values : list Z) (i : Z) :
  0 <= i < Z.of_nat (length values) ->
  Py.getitem values i = Ok (nth (Z.to_nat i) values 0).
Proof.
  intros Hi. unfold Py.getitem.
  destruct (Z.ltb_spec i 0); [lia|].
  destruct (Z.leb_spec 0 i); [|lia].
  destruct (Z.ltb_spec i (Z.of_nat (length values))); [|lia].
  reflexivity.
Qed.

Lemma outside_false (values : list Z) (offset : Z) :
  outside values offset = false -> 0 <= offset < Z.of_nat (length values).
Proof.
  unfold outside. intros H. apply orb_false_elim in H as [Hhi Hlo].
  rewrite Z.gtb_ltb in Hhi. apply Z.ltb_ge in Hhi, Hlo. lia.
Qed.

Lemma outside_inside (values : list Z) (offset : Z) :
  outside values offset
  = negb ((0 <=? offset) && (offset <? Z.of_nat (length values))).
Proof.
  unfold outside. rewrite Z.gtb_ltb.
  destruct (Z.ltb_spec (Z.of_nat (length values) - 1) offset),
           (Z.ltb_spec offset 0), (Z.leb_spec 0 offset),
           (Z.ltb_spec offset (Z.of_nat (length values)));
    cbn; try reflexivity; lia.
Qed.

Lemma getBit_nodebug (values : list Z) (bitStart bitWidth bit : Z) :
  getBit values bitStart bitWidth false bit =
  Ok (if outside values (bitOffset bitStart bitWidth bit) then -1
      else nth (Z.to_nat (bitOffset bitStart bitWidth bit)) values 0).
Proof.
  unfold getBit. fold (outside values (bitOffset bitStart bitWidth bit)).
  destruct (outside values (bitOffset bitStart bitWidth bit)) eqn:Hout.
  - reflexivity.
  - cbn [bind]. apply getitem_inside, outside_false, Hout.
Qed.

Lemma getBit_nodebug_inside (values : list Z) (bitStart bitWidth bit : Z) :
  getBit values bitStart bitWidth false bit
  = Ok (if (0 <=? bitOffset bitStart bitWidth bit)
           && (bitOffset bitStart bitWidth bit <? Z.of_nat (length values))
        then nth (Z.to_nat (bitOffset bitStart bitWidth bit)) values 0
        else -1).
Proof.
  rewrite getBit_nodebug, outside_inside.
  destruct ((0 <=? bitOffset bitStart bitWidth bit)
            && (bitOffset bitStart bitWidth bit <? Z.of_nat (length values)));
    reflexivity.
Qed.

(** The diagnostic print of a slot that lies inside the row. *)
Lemma debugWindow_inside (values : list Z) :
  forall n o, 0 <= o -> o + Z.of_nat n <= Z.of_nat (length values) ->
  debugWindow values o n = Ok tt.
Proof.
  induction n as [|n IH]; intros o Ho Hend; cbn [debugWindow].
  - reflexivity.
  - rewrite getitem_inside by lia. cbn [bind]. apply IH; lia.
Qed.

Lemma getBit_debug_inside (values : list Z) (bitStart bitWidth bit : Z) :
  bitWidth <= 0
  \/ (0 <= bitStart + bit * bitWidth
      /\ bitStart + bit * bitWidth + bitWidth <= Z.of_nat (length values)) ->
  getBit values bitStart bitWidth true bit
  = getBit values bitStart bitWidth false bit.
Proof.
  intros Hslot. unfold getBit.
  destruct (_ || _); [reflexivity|].
  replace (debugWindow values (bitStart + bit * bitWidth) (Z.to_nat bitWidth))
    with (Ok tt); [reflexivity|].
  symmetry. destruct Hslot as [Hneg | [Hlo Hhi]].
  - replace (Z.to_nat bitWidth) with O by lia. reflexivity.
  - destruct (Z_le_gt_dec bitWidth 0).
    + replace (Z.to_nat bitWidth) with O by lia. reflexivity.
    + apply debugWindow_inside; lia.
Qed.

(** Truncation is the floor on a midpoint that is not negative. *)
Lemma bitOffset_floor (bitStart bitWidth bit : Z) :
  0 <= 2 * (bitStart + bit * bitWidth) + bitWidth ->
  bitOffset bitStart bitWidth bit = spec_offset bitStart bitWidth bit.
Proof.
  intros Hmid. unfold bitOffset, spec_offset.
  apply Z.quot_div_nonneg; lia.
Qed.

(** The timing the code derives for [row_odd_width]. *)
Example row_odd_width_timing :
  locateRunIn row_odd_width
  = Some (mkRunIn (binaryRow row_odd_width) 0 14)
  /\ calibrate 70 (mkRunIn (binaryRow row_odd_width) 0 14)
     = Ok (mkTiming 3 22)
  /\ decodeFrame row_odd_width false = Ok (PySeq [65; 0]).
Proof. repeat split; vm_compute; reflexivity. Qed.

(** Whatever the debug flag, a value the sampler returns is the value of
    the row at its offset, or -1 when the offset is outside the row. *)
Lemma getBit_returns (values : list Z) (bitStart bitWidth bit : Z) :
  let offset := bitOffset bitStart bitWidth bit in
  getBit values bitStart bitWidth false bit
  = Ok (if (0 <=? offset) && (offset <? Z.of_nat (length values))
        then nth (Z.to_nat offset) values 0
        else -1)
  /\ (forall DEBUG v,
        getBit values bitStart bitWidth DEBUG bit = Ok v ->
        v = if (0 <=? offset) && (offset <? Z.of_nat (length values))
            then nth (Z.to_nat offset) values 0
            else -1).
Proof.
  intros offset.
  pose proof (getBit_nodebug_inside values bitStart bitWidth bit) as Hoff.
  fold offset in Hoff.
  split.
  - exact Hoff.
  - intros [|] v Hv; [|rewrite Hoff in Hv; now injection Hv as <-].
    unfold getBit in Hv. fold offset in Hv. fold (outside values offset) in Hv.
    rewrite outside_inside in Hv.
    destruct ((0 <=? offset) && (offset <? Z.of_nat (length values))) eqn:Hin;
      cbn [negb] in Hv.
    + destruct (debugWindow _ _ _); cbn [bind] in Hv; [|discriminate].
      apply andb_prop in Hin as [Hlo Hhi].
      apply Z.leb_le in Hlo. apply Z.ltb_lt in Hhi.
      rewrite getitem_inside in Hv by lia. now injection Hv as <-.
    + now injection Hv as <-.
Qed.

(** For the timing [decodeFrame] derives, the midpoint of every slot from
    the first dead-space bit on is not negative: there [int] is the floor
    and the sampler is the one the specification describes. *)
Lemma sampled_bits_match_spec (pixels : list Z) (r : RunIn) (t : Timing)
      (bit : Z) :
  Z.of_nat (length pixels) <= maxWidth ->
  locateRunIn pixels = Some r ->
  calibrate (Z.of_nat (length pixels)) r = Ok t ->
  -3 <= bit ->
  0 <= 2 * (bitStart t + bit * bitWidth t) + bitWidth t
  /\ getBit (values r) (bitStart t) (bitWidth t) false bit
     = Ok (spec_getBit (values r) (bitStart t) (bitWidth t) bit).
Proof.
  intros Hw Hr Ht Hbit.
  destruct (calibrate_total pixels r Hr) as (first1 & Ht' & Hfirst).
  rewrite Ht in Ht'. injection Ht' as ->.
  destruct (locateRunIn_shape pixels r Hr) as [-> Hfound].
  cbn [stopRunIn startRunIn values bitStart bitWidth] in *.
  pose proof (firstOne_range pixels) as Hstart.
  pose proof (thirteenthChange_range pixels Hfound) as Hstop.
  assert (Hlong : firstOne pixels + 12 <= thirteenthChange pixels).
  { unfold thirteenthChange in *.
    apply (findStop_at_least _ (firstOne pixels) 1 0); [lia | exact Hfound]. }
  set (len := thirteenthChange pixels - firstOne pixels) in *.
  rewrite (bitWidthOf_exact len) by (unfold len; lia).
  pose proof (Z.div_mod (- (38 * len)) 251 ltac:(lia)) as Hdiv.
  pose proof (Z.mod_pos_bound (- (38 * len)) 251 ltac:(lia)) as Hmod.
  set (bw := - (- (38 * len) / 251)) in *.
  assert (Hbw : 0 <= bw /\ 251 * bw < 38 * len + 251) by (unfold len in *; lia).
  assert (Hmid : 0 <= 2 * (first1 + bw + bit * bw) + bw) by (unfold len in *; nia).
  split; [exact Hmid|].
  rewrite getBit_nodebug_inside. unfold spec_getBit.
  rewrite <- (bitOffset_floor _ _ _ Hmid). reflexivity.
Qed.



(** ** Byte assembly (lines 219-238) *)

Lemma dataBits_bound (get : Z -> result Z) (base : Z) (bs : list Z) :
  Forall (fun b => 0 <= b) bs ->
  forall byte parity byte' parity',
  dataBits get base bs byte parity = Ok (byte', parity') ->
  byte <= byte' <= byte + weight bs.
Proof.
  induction 1 as [|b rest Hb _ IH]; intros byte parity byte' parity' H;
    cbn [dataBits weight] in *.
  - injection H as <- _. lia.
  - assert (Hpos : 0 < Z.shiftl 1 b)
      by (rewrite Z.shiftl_1_l; apply Z.pow_pos_nonneg; lia).
    destruct (get (base + b)) as [v|e]; cbn [bind] in H; [|discriminate].
    destruct (v =? -1); [discriminate|].
    destruct (v =? 0); apply IH in H; lia.
Qed.

Lemma decodeByte_bound (get : Z -> result Z) (base byte : Z) :
  decodeByte get base = Ok byte -> 0 <= byte <= 127.
Proof.
  unfold decodeByte. intros H.
  destruct (dataBits get base range7 0 0) as [[byte' parity']|e] eqn:Hbits;
    cbn [bind] in H; [|discriminate].
  destruct (get (base + 7)) as [p|e]; cbn [bind] in H; [|discriminate].
  destruct (negb _); [discriminate|]. injection H as <-. cbn [fst].
  apply dataBits_bound in Hbits.
  - change (weight range7) with 127 in Hbits. lia.
  - unfold range7. repeat constructor; lia.
Qed.

Lemma tryBody_bound (get : Z -> result Z) (data : list Z) :
  tryBody get = Ok data ->
  exists byte0 byte8,
    data = [byte0; byte8] /\ 0 <= byte0 <= 127 /\ 0 <= byte8 <= 127.
Proof.
  unfold tryBody. intros H.
  destruct (get (-3)) as [s3|e]; cbn [bind] in H; [|discriminate].
  destruct (get (-2)) as [s2|e]; cbn [bind] in H; [|discriminate].
  destruct (get (-1)) as [s1|e]; cbn [bind] in H; [|discriminate].
  destruct (negb _); [discriminate|].
  destruct (decodeByte get 0) as [byte0|e] eqn:H0; cbn [bind] in H;
    [|discriminate].
  destruct (decodeByte get 8) as [byte8|e] eqn:H8; cbn [bind] in H;
    [|discriminate].
  injection H as <-. exists byte0, byte8.
  apply decodeByte_bound in H0. apply decodeByte_bound in H8. auto.
Qed.

(** A sequence returned by [decodeFrame] holds two values of seven bits. *)
Lemma decodeFrame_returns_pair (pixels : list Z) (DEBUG : bool) (items : list Z) :
  decodeFrame pixels DEBUG = Ok (PySeq items) ->
  exists byte0 byte8,
    items = [byte0; byte8] /\ 0 <= byte0 <= 127 /\ 0 <= byte8 <= 127.
Proof.
  unfold decodeFrame. intros H.
  destruct (locateRunIn pixels) as [r|].
  - unfold readData in H.
    destruct (calibrate _ r) as [t|e]; cbn [bind] in H; [|discriminate].
    destruct (tryBody _) as [data|[]] eqn:Htry; try discriminate.
    + injection H as <-. apply (tryBody_bound _ _ Htry).
    + destruct DEBUG; [discriminate|]. injection H as <-.
      exists 0, 0. repeat split; lia.
  - injection H as <-. exists 0, 0. repeat split; lia.
Qed.

(** C10.  Whenever [decodeFrame] returns a sequence it holds two values,
    each in [0, 127]: only the bits 0-6 of a group are added into a byte,
    the parity bit never is. *)
Theorem decoded_bytes_ascii (pixels : list Z) (DEBUG : bool) (items : list Z) :
  decodeFrame pixels DEBUG = Ok (PySeq items) ->
  length items = 2%nat /\ Forall ascii items.
Proof.
  intros H.
  destruct (decodeFrame_returns_pair pixels DEBUG items H)
    as (byte0 & byte8 & -> & H0 & H8).
  split; [reflexivity|].
  constructor; [exact H0|]. constructor; [exact H8|]. constructor.
Qed.

Lemma decoded_bytes_ascii_witness :
  decodeFrame row_41_00 true = Ok (PySeq [65; 0])
  /\ length [65; 0] = 2%nat /\ Forall ascii [65; 0].
Proof.
  assert (H : decodeFrame row_41_00 true = Ok (PySeq [65; 0]))
    by (vm_compute; reflexivity).
  split; [exact H|]. exact (decoded_bytes_ascii _ _ _ H).
Defined.

(** C2.  The parity read of line 233 is not tested against -1: on
    [row_no_parity] bit 15 is out of range, the seven data bits of the
    group hold an even number of ones, [(-1 + 2) & 1] is 1 and the frame is
    accepted. *)
Theorem missing_parity_bit_accepted :
  locateRunIn row_no_parity
  = Some (mkRunIn (binaryRow row_no_parity) 0 26)
  /\ calibrate 100 (mkRunIn (binaryRow row_no_parity) 0 26)
     = Ok (mkTiming 4 38)
  /\ sample row_no_parity (mkTiming 4 38) 15 = Ok (-1)
  /\ decodeFrame row_no_parity false = Ok (PySeq [65; 3]).
Proof. repeat split; vm_compute; reflexivity. Qed.

(** ** Rejections, with and without the diagnostics (lines 240-245) *)

Section Mild.
Variable get : Z -> result Z.
Hypothesis get_returns : forall bit, exists v, get bit = Ok v.

Lemma dataBits_mild (base : Z) (bs : list Z) :
  forall byte parity, mild (dataBits get base bs byte parity).
Proof.
  induction bs as [|b rest IH]; intros byte parity; cbn [dataBits].
  - exact I.
  - destruct (get_returns (base + b)) as [v ->]. cbn [bind].
    destruct (v =? -1); [exact I|]. destruct (v =? 0); apply IH.
Qed.

Lemma decodeByte_mild (base : Z) : mild (decodeByte get base).
Proof.
  unfold decodeByte. pose proof (dataBits_mild base range7 0 0) as Hbits.
  destruct (dataBits get base range7 0 0) as [bp|[]]; cbn [bind];
    try exact I; try contradiction.
  destruct (get_returns (base + 7)) as [p ->]. cbn [bind].
  destruct (negb _); exact I.
Qed.

Lemma tryBody_mild : mild (tryBody get).
Proof.
  unfold tryBody.
  destruct (get_returns (-3)) as [s3 ->].
  destruct (get_returns (-2)) as [s2 ->].
  destruct (get_returns (-1)) as [s1 ->]. cbn [bind].
  destruct (negb _); [exact I|].
  pose proof (decodeByte_mild 0) as H0.
  destruct (decodeByte get 0) as [byte0|[]]; cbn [bind];
    try exact I; try contradiction.
  pose proof (decodeByte_mild 8) as H8.
  destruct (decodeByte get 8) as [byte8|[]]; cbn [bind];
    try exact I; try contradiction.
Qed.
End Mild.

(** With [DEBUG] off, [decodeFrame] returns two bytes on every row: no
    exception leaves it and every rejection is the pair (0, 0). *)
Lemma decodeFrame_nodebug (pixels : list Z) :
  exists byte0 byte8,
    decodeFrame pixels false = Ok (PySeq [byte0; byte8])
    /\ 0 <= byte0 <= 127 /\ 0 <= byte8 <= 127.
Proof.
  enough (H : exists items, decodeFrame pixels false = Ok (PySeq items)).
  { destruct H as [items H].
    destruct (decodeFrame_returns_pair _ _ _ H) as (b0 & b8 & -> & Hb).
    now exists b0, b8. }
  unfold decodeFrame.
  destruct (locateRunIn pixels) as [r|] eqn:Hr; [|now exists [0; 0]].
  destruct (calibrate_total pixels r Hr) as (first1 & Ht & _).
  unfold readData. rewrite Ht. cbn [bind bitStart bitWidth].
  match goal with |- context [tryBody ?g] =>
    pose proof (tryBody_mild g) as Hmild; destruct (tryBody g) as [data|[]]
  end.
  - now exists data.
  - now exists [0; 0].
  - exfalso. apply Hmild. intros bit. rewrite getBit_nodebug. eauto.
  - exfalso. apply Hmild. intros bit. rewrite getBit_nodebug. eauto.
Qed.

(** Rejected rows, [DEBUG] off: a run-in that ends at 15% of the width,
    sanity bits other than (0, 0, 1), a flipped parity bit, a black row. *)
Example rejected_rows :
  decodeFrame (scanline 2 8 4 bits_41_00 ++ repeat 0 72) false = Ok (PySeq [0; 0])
  /\ decodeFrame row_bad_sanity false = Ok (PySeq [0; 0])
  /\ decodeFrame row_bad_parity false = Ok (PySeq [0; 0])
  /\ decodeFrame blank_row false = Ok (PySeq [0; 0]).
Proof. repeat split; vm_compute; reflexivity. Qed.

(** C1.  With [DEBUG] on, the handler of line 240 falls through: a frame
    that fails the sanity check ([row_bad_sanity], whose slot -3 samples
    as 1) or the parity check ([row_bad_parity], two ones and a parity bit
    of 0) yields [None], not (0, 0); with [DEBUG] off the same rows yield
    (0, 0). *)
Theorem debug_rejection_returns_None :
  (sample row_bad_sanity (mkTiming 4 34) (-3) = Ok 1
   /\ decodeFrame row_bad_sanity true = Ok PyNone
   /\ decodeFrame row_bad_sanity false = Ok (PySeq [0; 0]))
  /\ (sample row_bad_parity (mkTiming 4 38) 7 = Ok 0
      /\ decodeFrame row_bad_parity true = Ok PyNone
      /\ decodeFrame row_bad_parity false = Ok (PySeq [0; 0])).
Proof. repeat split; vm_compute; reflexivity. Qed.

(** The diagnostic print of [getBit] reads a whole slot: on a row that ends
    inside the last slot it raises [IndexError], which line 240 does not
    catch. *)
Example debug_print_raises :
  decodeFrame row_short_slot true = Raise IndexError
  /\ decodeFrame row_short_slot false = Ok (PySeq [65; 0]).
Proof. split; vm_compute; reflexivity. Qed.

(** ** Round trip: a row that carries two bytes decodes to them *)

Lemma byte_table : all_below byte_ok 7 0 = true.
Proof. vm_compute. reflexivity. Qed.

Lemma byte_facts (byte : Z) :
  0 <= byte < 128 ->
  valueOf byte range7 = byte
  /\ Z.land (parityBit byte + onesOf byte range7) 1 = 1.
Proof.
  intros Hb.
  assert (H : byte_ok byte = true).
  { apply (all_below_sound _ _ _ byte_table).
    change (2 ^ Z.of_nat 7) with 128. lia. }
  unfold byte_ok in H. apply andb_prop in H as [Hv Hp].
  apply Z.eqb_eq in Hv, Hp. auto.
Qed.

Section Reads.
Variable get : Z -> result Z.
Variables base byte : Z.
Hypothesis byte_range : 0 <= byte < 128.
Hypothesis data_reads :
  forall b, In b range7 -> get (base + b) = Ok (bitOf byte b).
Hypothesis parity_read : get (base + 7) = Ok (parityBit byte).

Lemma dataBits_reads (bs : list Z) :
  incl bs range7 ->
  forall acc parity,
  dataBits get base bs acc parity
  = Ok (acc + valueOf byte bs, parity + onesOf byte bs).
Proof.
  induction bs as [|b rest IH]; intros Hin acc parity;
    cbn [dataBits valueOf onesOf].
  - now rewrite !Z.add_0_r.
  - rewrite (data_reads b (Hin b (in_eq b rest))). cbn [bind].
    assert (Hrest : incl rest range7)
      by (intros x Hx; apply Hin; now right).
    unfold bitOf. destruct (Z.testbit byte b); cbn [Z.eqb].
    + rewrite (IH Hrest). apply f_equal. apply f_equal2; lia.
    + rewrite (IH Hrest). apply f_equal. apply f_equal2; lia.
Qed.

Lemma decodeByte_reads : decodeByte get base = Ok byte.
Proof.
  unfold decodeByte.
  rewrite (dataBits_reads range7 (incl_refl _) 0 0). cbn [bind fst snd].
  rewrite parity_read. cbn [bind].
  destruct (byte_facts byte byte_range) as [Hv Hp].
  rewrite !Z.add_0_l, Hp, Hv. reflexivity.
Qed.
End Reads.

Lemma maxLuma_nil_width (pixels : list Z) :
  blankBelow <= maxLuma pixels -> 0 < Z.of_nat (length pixels).
Proof.
  destruct pixels; cbn [length]; [|lia].
  unfold blankBelow. cbn. lia.
Qed.

(** A row in which the decoder finds the reads of [byteA] and [byteB],
    and whose first 1 lies within the first 5% of the width, decodes to
    them; with the diagnostics on this needs the bit slots to lie inside
    the row, since the print of lines 198-204 reads each slot in full. *)
Lemma decodeFrame_of_reads (pixels : list Z) (t : Timing)
        (byteA byteB : Z) (DEBUG : bool) :
  Z.of_nat (length pixels) <= maxWidth ->
  20 * firstOne pixels <= Z.of_nat (length pixels) ->
  ReadsAs pixels t byteA byteB ->
  (DEBUG = true -> slotsInside pixels t) ->
  decodeFrame pixels DEBUG = Ok (PySeq [byteA; byteB]).
Proof.
  intros Hw Hstart Henc Hslots. destruct Henc.
  pose proof (maxLuma_nil_width pixels reads_peak0) as Hpos.
  unfold decodeFrame. rewrite (locateRunIn_exact pixels Hw).
  destruct (Z.ltb_spec (maxLuma pixels) blankBelow); [lia|].
  destruct (Z.ltb_spec (Z.of_nat (length pixels)) (20 * firstOne pixels)); [lia|].
  destruct (Z.eqb_spec (thirteenthChange pixels) 0); [lia|].
  destruct (Z.ltb_spec (5 * thirteenthChange pixels) (Z.of_nat (length pixels)));
    [lia|].
  destruct (Z.ltb_spec (3 * Z.of_nat (length pixels))
                       (10 * thirteenthChange pixels)); [lia|].
  cbn [orb]. unfold readData. rewrite reads_timing0. cbn [bind values].
  assert (Hget : forall bit, -3 <= bit <= 15 ->
            getBit (binaryRow pixels) (bitStart t) (bitWidth t) DEBUG bit
            = sample pixels t bit).
  { intros bit Hbit. destruct DEBUG; [|reflexivity].
    destruct (Hslots eq_refl) as [Hlo Hhi].
    apply getBit_debug_inside. rewrite binaryRow_length.
    destruct (Z_le_gt_dec (bitWidth t) 0); [now left | right]. nia. }
  assert (HA : decodeByte (getBit (binaryRow pixels) (bitStart t) (bitWidth t) DEBUG) 0
               = Ok byteA).
  { apply decodeByte_reads; [assumption| |].
    - intros b Hb. rewrite Hget; [now apply reads_bitsA0|].
      unfold range7 in Hb. cbn in Hb. lia.
    - rewrite Hget; [assumption | lia]. }
  assert (HB : decodeByte (getBit (binaryRow pixels) (bitStart t) (bitWidth t) DEBUG) 8
               = Ok byteB).
  { apply decodeByte_reads; [assumption| |].
    - intros b Hb. rewrite Hget; [now apply reads_bitsB0|].
      unfold range7 in Hb. cbn in Hb. lia.
    - rewrite Hget; [assumption | lia]. }
  destruct reads_sanity0 as (S3 & S2 & S1).
  unfold tryBody.
  rewrite !Hget, S3, S2, S1 by lia. cbn [bind Z.eqb andb negb].
  rewrite HA, HB. reflexivity.
Qed.

(** ** The batch driver (lines 248-263) *)

Lemma starmap_total {A B : Type} (f : A -> result B) (g : A -> B) :
  (forall a, f a = Ok (g a)) ->
  forall iterArgs, starmap f iterArgs = Ok (map g iterArgs).
Proof.
  intros Hf. induction iterArgs as [|a rest IH]; cbn [starmap map].
  - reflexivity.
  - now rewrite Hf, IH.
Qed.

Lemma extend_pair (bytes : list Z) (byte0 byte8 : Z) :
  0 <= byte0 <= 127 -> 0 <= byte8 <= 127 ->
  extend bytes (PySeq [byte0; byte8]) = Ok (bytes ++ [byte0; byte8]).
Proof.
  intros H0 H8. unfold extend, append. cbn [fold_left bind].
  destruct (Z.leb_spec 0 byte0); [|lia].
  destruct (Z.ltb_spec byte0 256); [|lia]. cbn [andb bind].
  destruct (Z.leb_spec 0 byte8); [|lia].
  destruct (Z.ltb_spec byte8 256); [|lia]. cbn [andb].
  now rewrite <- app_assoc.
Qed.

Lemma collect_pairs (line : Z) (images : list image) :
  forall bytes,
  fold_left (fun acc r => bytes' <- acc ;; extend bytes' r)
            (map (fun i : image => PySeq (itemsOf (decodeFrame (i line) false)))
                 images)
            (Ok bytes)
  = Ok (bytes ++ flat_map (fun i => itemsOf (decodeFrame (i line) false)) images).
Proof.
  induction images as [|i rest IH]; intros bytes; cbn [map fold_left flat_map].
  - now rewrite app_nil_r.
  - destruct (decodeFrame_nodebug (i line)) as (b0 & b8 & E & H0 & H8).
    rewrite E. cbn [bind itemsOf].
    rewrite (extend_pair bytes b0 b8 H0 H8), IH.
    now rewrite <- app_assoc.
Qed.

Lemma pairs_length (line : Z) (images : list image) :
  length (flat_map (fun i => itemsOf (decodeFrame (i line) false)) images)
  = (2 * length images)%nat.
Proof.
  induction images as [|i rest IH]; cbn [flat_map length]; [reflexivity|].
  destruct (decodeFrame_nodebug (i line)) as (b0 & b8 & E & _).
  rewrite length_app, IH, E. cbn [itemsOf length]. lia.
Qed.

(** With [DEBUG] off, [getByteStream] is the ordered concatenation of the
    frames' byte pairs, two bytes a frame. *)
Lemma getByteStream_nodebug (images : list image) (line : Z) :
  getByteStream images line false
  = Ok (flat_map (fun i => itemsOf (decodeFrame (i line) false)) images)
  /\ length (flat_map (fun i => itemsOf (decodeFrame (i line) false)) images)
     = (2 * length images)%nat.
Proof.
  split; [|apply pairs_length].
  unfold getByteStream.
  rewrite (starmap_total _
             (fun i : image => PySeq (itemsOf (decodeFrame (i line) false)))).
  - cbn [bind]. apply (collect_pairs line images []).
  - intros i. destruct (decodeFrame_nodebug (i line)) as (b0 & b8 & -> & _).
    reflexivity.
Qed.

(** C3.  With [DEBUG] on, a frame rejected inside the [try] makes
    [getByteStream] raise [TypeError] at line 262 ([None] is not iterable)
    instead of returning six bytes. *)
Theorem getByteStream_debug_raises :
  getByteStream [fun _ => blank_row; fun _ => row_41_00; fun _ => row_bad_sanity]
                21 true
  = Raise TypeError
  /\ getByteStream [fun _ => blank_row; fun _ => row_41_00; fun _ => row_bad_sanity]
                   21 false
     = Ok [0; 0; 65; 0; 0; 0].
Proof. split; vm_compute; reflexivity. Qed.

Lemma append_fold_raise (items : list Z) (e : exn) :
  fold_left (fun acc b => bytes' <- acc ;; append bytes' b) items (Raise e)
  = Raise e.
Proof. induction items as [|b rest IH]; cbn [fold_left bind]; auto. Qed.

Lemma extend_items (items : list Z) :
  forall bytes out,
  extend bytes (PySeq items) = Ok out -> out = bytes ++ items.
Proof.
  unfold extend. induction items as [|b rest IH]; intros bytes out H;
    cbn [fold_left bind] in H.
  - injection H as <-. now rewrite app_nil_r.
  - unfold append at 2 in H. destruct ((0 <=? b) && (b <? 256)).
    + apply IH in H. rewrite H, <- app_assoc. reflexivity.
    + rewrite append_fold_raise in H. discriminate.
Qed.

Lemma extend_fold_raise (results : list pyvalue) (e : exn) :
  fold_left (fun acc r => bytes <- acc ;; extend bytes r) results (Raise e)
  = Raise e.
Proof. induction results as [|r rest IH]; cbn [fold_left bind]; auto. Qed.

Lemma collect_ascii (results : list pyvalue) :
  Forall (fun r => forall items, r = PySeq items -> Forall ascii items) results ->
  forall bytes out,
  Forall ascii bytes ->
  fold_left (fun acc r => bytes' <- acc ;; extend bytes' r) results (Ok bytes)
  = Ok out ->
  Forall ascii out.
Proof.
  induction 1 as [|r rest Hr _ IH]; intros bytes out Hbytes H;
    cbn [fold_left bind] in H.
  - now injection H as <-.
  - destruct r as [|items].
    + cbn [extend] in H. rewrite extend_fold_raise in H. discriminate.
    + destruct (extend bytes (PySeq items)) as [bytes'|e] eqn:E.
      * apply extend_items in E. subst bytes'.
        apply (IH (bytes ++ items) out); [|exact H].
        apply Forall_app. split; [exact Hbytes | exact (Hr items eq_refl)].
      * rewrite extend_fold_raise in H. discriminate.
Qed.

Lemma starmap_results {A B : Type} (f : A -> result B) (iterArgs : list A) :
  forall results, starmap f iterArgs = Ok results ->
  Forall (fun r => exists a, f a = Ok r) results.
Proof.
  induction iterArgs as [|a rest IH]; intros results H; cbn [starmap] in H.
  - injection H as <-. constructor.
  - destruct (f a) as [b|e] eqn:Ea; cbn [bind] in H; [|discriminate].
    destruct (starmap f rest) as [bs|e]; cbn [bind] in H; [|discriminate].
    injection H as <-. constructor; [now exists a | now apply IH].
Qed.

(** Every byte [getByteStream] returns is a 7-bit value, so the stream
    decodes as ASCII (line 303). *)
Lemma getByteStream_ascii (images : list image) (line : Z) (DEBUG : bool)
      (bytes : list Z) :
  getByteStream images line DEBUG = Ok bytes -> Forall ascii bytes.
Proof.
  unfold getByteStream. intros H.
  match type of H with context [starmap ?f images] =>
    destruct (starmap f images) as [results|e] eqn:Hmap
  end; cbn [bind] in H; [|discriminate].
  apply starmap_results in Hmap.
  assert (Hpairs : Forall (fun r => forall items, r = PySeq items ->
                                    Forall ascii items) results).
  { apply Forall_forall. intros r Hin items ->.
    destruct (proj1 (Forall_forall _ results) Hmap _ Hin) as [i Hi].
    destruct (decodeFrame_returns_pair _ _ _ Hi) as (b0 & b8 & -> & H0 & H8).
    constructor; [exact H0 | constructor; [exact H8 | constructor]]. }
  exact (collect_ascii results Hpairs [] bytes (Forall_nil ascii) H).
Qed.

(** * Further properties of the code *)

(** ** What the diagnostics change (lines 196-205 and 240-245) *)

Lemma agree_bind {A B : Type} (m m' : result A) (k k' : A -> result B) :
  agree m m' -> (forall a, agree (k a) (k' a)) ->
  agree (bind m k) (bind m' k').
Proof.
  intros Hm Hk. destruct m as [a|[]]; cbn [agree bind] in *.
  - rewrite Hm. cbn [bind]. apply Hk.
  - rewrite Hm. reflexivity.
  - exact I.
  - exact I.
Qed.

Lemma debugWindow_raises (values : list Z) :
  forall n o e, debugWindow values o n = Raise e -> e = IndexError.
Proof.
  induction n as [|n IH]; intros o e H; cbn [debugWindow] in H.
  - discriminate.
  - unfold Py.getitem in H.
    destruct (_ && _); cbn [bind] in H.
    + apply (IH _ _ H).
    + now injection H as <-.
Qed.

(** The sampler with the diagnostics on returns what it returns with them
    off, or fails with [IndexError]. *)
Lemma getBit_agree (values : list Z) (bitStart bitWidth bit : Z) :
  agree (getBit values bitStart bitWidth true bit)
        (getBit values bitStart bitWidth false bit).
Proof.
  unfold getBit. destruct (_ || _); [reflexivity|].
  destruct (debugWindow values _ _) as [[]|e] eqn:Hwin; cbn [bind].
  - unfold Py.getitem. destruct (_ && _); cbn; [reflexivity | exact I].
  - apply debugWindow_raises in Hwin. subst e. exact I.
Qed.

Section Agree.
Variables get get' : Z -> result Z.
Hypothesis gets_agree : forall bit, agree (get bit) (get' bit).

Lemma dataBits_agree (base : Z) (bs : list Z) :
  forall byte parity,
  agree (dataBits get base bs byte parity) (dataBits get' base bs byte parity).
Proof.
  induction bs as [|b rest IH]; intros byte parity; cbn [dataBits].
  - reflexivity.
  - apply agree_bind; [apply gets_agree|]. intros v.
    destruct (v =? -1); [reflexivity|]. destruct (v =? 0); apply IH.
Qed.

Lemma decodeByte_agree (base : Z) :
  agree (decodeByte get base) (decodeByte get' base).
Proof.
  unfold decodeByte. apply agree_bind; [apply dataBits_agree|]. intros bp.
  apply agree_bind; [apply gets_agree|]. intros p.
  destruct (negb _); reflexivity.
Qed.

Lemma tryBody_agree : agree (tryBody get) (tryBody get').
Proof.
  unfold tryBody.
  apply agree_bind; [apply gets_agree|]. intros s3.
  apply agree_bind; [apply gets_agree|]. intros s2.
  apply agree_bind; [apply gets_agree|]. intros s1.
  destruct (negb _); [reflexivity|].
  apply agree_bind; [apply decodeByte_agree|]. intros byte0.
  apply agree_bind; [apply decodeByte_agree|]. intros byte8.
  reflexivity.
Qed.
End Agree.

(** X1.  The diagnostics never change what is decoded: whenever
    [decodeFrame] returns with [DEBUG] on, it returns the same bytes with
    [DEBUG] off, and (0, 0) where the debug run fell through to [None]. *)
Theorem diagnostics_keep_result (pixels : list Z) (v : pyvalue) :
  decodeFrame pixels true = Ok v ->
  decodeFrame pixels false = Ok (withoutDiagnostics v).
Proof.
  unfold decodeFrame. destruct (locateRunIn pixels) as [r|].
  - unfold readData. destruct (calibrate _ r) as [t|e]; cbn [bind];
      [|discriminate].
    pose proof (tryBody_agree _ _ (getBit_agree (values r) (bitStart t) (bitWidth t)))
      as Hagree.
    destruct (tryBody (getBit (values r) (bitStart t) (bitWidth t) true))
      as [data|[]]; cbn [agree] in Hagree; intros H; try discriminate.
    + rewrite Hagree. now injection H as <-.
    + rewrite Hagree. now injection H as <-.
  - intros H. now injection H as <-.
Qed.

Lemma diagnostics_keep_result_witness :
  decodeFrame row_bad_parity true = Ok PyNone
  /\ decodeFrame row_bad_parity false = Ok (withoutDiagnostics PyNone).
Proof.
  assert (H : decodeFrame row_bad_parity true = Ok PyNone)
    by (vm_compute; reflexivity).
  split; [exact H|]. exact (diagnostics_keep_result _ _ H).
Defined.

Lemma getBit_raises (values : list Z) (bitStart bitWidth : Z) (DEBUG : bool)
      (bit : Z) (e : exn) :
  getBit values bitStart bitWidth DEBUG bit = Raise e ->
  e = IndexError /\ DEBUG = true.
Proof.
  destruct DEBUG.
  - intros H. split; [|reflexivity]. unfold getBit in H.
    destruct (_ || _); [discriminate|].
    destruct (debugWindow values _ _) as [[]|e'] eqn:Hwin; cbn [bind] in H.
    + unfold Py.getitem in H. destruct (_ && _); [discriminate|].
      now injection H as <-.
    + injection H as <-. apply (debugWindow_raises _ _ _ _ Hwin).
  - rewrite getBit_nodebug. discriminate.
Qed.

Section Raises.
Variable get : Z -> result Z.
Hypothesis get_raises : forall bit e, get bit = Raise e -> e = IndexError.

Lemma dataBits_raises (base : Z) (bs : list Z) :
  forall byte parity e,
  dataBits get base bs byte parity = Raise e ->
  e = ValueError \/ e = IndexError.
Proof.
  induction bs as [|b rest IH]; intros byte parity e H; cbn [dataBits] in H.
  - discriminate.
  - destruct (get (base + b)) as [v|e'] eqn:Hget; cbn [bind] in H.
    + destruct (v =? -1); [injection H as <-; now left|].
      destruct (v =? 0); apply (IH _ _ _ H).
    + injection H as <-. right. apply (get_raises _ _ Hget).
Qed.

Lemma decodeByte_raises (base : Z) (e : exn) :
  decodeByte get base = Raise e -> e = ValueError \/ e = IndexError.
Proof.
  unfold decodeByte. intros H.
  destruct (dataBits get base range7 0 0) as [bp|e'] eqn:Hbits;
    cbn [bind] in H.
  - destruct (get (base + 7)) as [p|e'] eqn:Hget; cbn [bind] in H.
    + destruct (negb _); [injection H as <-; now left | discriminate].
    + injection H as <-. right. apply (get_raises _ _ Hget).
  - injection H as <-. apply (dataBits_raises _ _ _ _ _ Hbits).
Qed.

Lemma tryBody_raises (e : exn) :
  tryBody get = Raise e -> e = ValueError \/ e = IndexError.
Proof.
  unfold tryBody. intros H.
  destruct (get (-3)) as [s3|e'] eqn:H3; cbn [bind] in H;
    [|injection H as <-; right; apply (get_raises _ _ H3)].
  destruct (get (-2)) as [s2|e'] eqn:H2; cbn [bind] in H;
    [|injection H as <-; right; apply (get_raises _ _ H2)].
  destruct (get (-1)) as [s1|e'] eqn:H1; cbn [bind] in H;
    [|injection H as <-; right; apply (get_raises _ _ H1)].
  destruct (negb _); [injection H as <-; now left|].
  destruct (decodeByte get 0) as [byte0|e'] eqn:H0; cbn [bind] in H;
    [|injection H as <-; apply (decodeByte_raises _ _ H0)].
  destruct (decodeByte get 8) as [byte8|e'] eqn:H8; cbn [bind] in H;
    [discriminate | injection H as <-; apply (decodeByte_raises _ _ H8)].
Qed.
End Raises.

Lemma decodeFrame_raises (pixels : list Z) (DEBUG : bool) (e : exn) :
  decodeFrame pixels DEBUG = Raise e -> e = IndexError /\ DEBUG = true.
Proof.
  intros H. destruct DEBUG.
  - split; [|reflexivity]. unfold decodeFrame in H.
    destruct (locateRunIn pixels) as [r|] eqn:Hr; [|discriminate].
    destruct (calibrate_total pixels r Hr) as (first1 & Ht & _).
    unfold readData in H. rewrite Ht in H. cbn [bind bitStart bitWidth] in H.
    match type of H with context [tryBody ?g] =>
      destruct (tryBody g) as [data|e'] eqn:Htry
    end; [discriminate|].
    apply tryBody_raises in Htry.
    + destruct Htry as [-> | ->]; [discriminate | now injection H as <-].
    + intros bit e0 Hbit. apply (getBit_raises _ _ _ _ _ _ Hbit).
  - destruct (decodeFrame_nodebug pixels) as (b0 & b8 & E & _).
    rewrite E in H. discriminate.
Qed.

(** X2.  [decodeFrame] returns, or fails with the [IndexError] of the
    diagnostic print, which needs [DEBUG] on: the [ValueError]s of lines
    217, 226 and 234 are all caught at line 240 and nothing else is
    raised. *)
Theorem decodeFrame_raises_only_IndexError (pixels : list Z) (DEBUG : bool) :
  (exists v, decodeFrame pixels DEBUG = Ok v)
  \/ (DEBUG = true /\ decodeFrame pixels DEBUG = Raise IndexError).
Proof.
  destruct (decodeFrame pixels DEBUG) as [v|e] eqn:H.
  - left. now exists v.
  - right. destruct (decodeFrame_raises _ _ _ H) as [-> ->]. auto.
Qed.

(** ** Invariants of the run descriptor and of the timing *)

Lemma findStart_finds (l : list Z) :
  In 1 l -> forall x,
  x <= findStart l x < x + Z.of_nat (length l)
  /\ nth (Z.to_nat (findStart l x - x)) l 0 = 1.
Proof.
  induction l as [|v rest IH]; intros Hin x; [contradiction|].
  cbn [findStart length]. destruct (Z.eqb_spec v 1) as [->|Hv].
  - replace (x - x) with 0 by lia. cbn. lia.
  - destruct Hin as [E|Hin]; [congruence|].
    destruct (IH Hin (x + 1)) as [Hr Hn]. split; [lia|].
    replace (Z.to_nat (findStart rest (x + 1) - x))
      with (S (Z.to_nat (findStart rest (x + 1) - (x + 1)))) by lia.
    exact Hn.
Qed.

(** The value at the 13th change: the state [lastVal] flipped once for
    each change still to come. *)
Lemma findStop_value (l : list Z) :
  binary l ->
  forall x lastVal count,
  lastVal = 0 \/ lastVal = 1 ->
  findStop l x lastVal count <> 0 ->
  nth (Z.to_nat (findStop l x lastVal count - x)) l 0
  = if Z.odd (13 - count) then 1 - lastVal else lastVal.
Proof.
  induction 1 as [|v rest Hv Hrest IH]; intros x lastVal count Hlast Hfound;
    cbn [findStop] in *; [contradiction|].
  destruct (Z.eqb_spec v lastVal) as [->|Hne].
  - pose proof (findStop_range rest (x + 1) lastVal count) as [E|Hr];
      [contradiction|].
    replace (Z.to_nat (findStop rest (x + 1) lastVal count - x))
      with (S (Z.to_nat (findStop rest (x + 1) lastVal count - (x + 1))))
      by lia.
    cbn [nth]. apply IH; assumption.
  - assert (Hflip : v = 1 - lastVal) by lia.
    destruct (Z.eqb_spec (count + 1) 13) as [E|E].
    + replace (x - x) with 0 by lia. replace count with 12 by lia.
      cbn. exact Hflip.
    + pose proof (findStop_range rest (x + 1) v (count + 1)) as [E'|Hr];
        [contradiction|].
      replace (Z.to_nat (findStop rest (x + 1) v (count + 1) - x))
        with (S (Z.to_nat (findStop rest (x + 1) v (count + 1) - (x + 1))))
        by lia.
      cbn [nth]. rewrite (IH (x + 1) v (count + 1)) by (assumption || lia).
      replace (13 - (count + 1)) with (13 - count - 1) by lia.
      rewrite Z.odd_sub. cbn [Z.odd xorb].
      destruct (Z.odd (13 - count)); cbn [xorb negb]; lia.
Qed.

Lemma nth_skipn_Z (l : list Z) (n : nat) (i : Z) :
  Z.of_nat n <= i ->
  nth (Z.to_nat (i - Z.of_nat n)) (skipn n l) 0 = nth (Z.to_nat i) l 0.
Proof.
  intros Hi. rewrite nth_skipn. f_equal. lia.
Qed.

Lemma skipn_cons_nth (l : list Z) (n : nat) :
  (n < length l)%nat -> skipn n l = nth n l 0 :: skipn (S n) l.
Proof.
  revert n. induction l as [|v rest IH]; intros n Hn; cbn [length] in Hn;
    [lia|].
  destruct n as [|n]; [reflexivity|]. cbn [skipn nth]. apply IH. lia.
Qed.

Lemma binaryRow_has_one (pixels : list Z) :
  thirteenthChange pixels <> 0 -> In 1 (binaryRow pixels).
Proof.
  intros Hfound.
  destruct (in_dec Z.eq_dec 1 (binaryRow pixels)) as [Hin|Hno]; [exact Hin|].
  exfalso. apply Hfound. unfold thirteenthChange, firstOne.
  rewrite (findStart_no_one _ Hno). cbn [Z.to_nat skipn].
  apply findStop_no_one; [apply binaryRow_binary | exact Hno].
Qed.

(** The scan of line 140 starts on a 1, so the 13 changes take at least 13
    more samples. *)
Lemma thirteenthChange_far (pixels : list Z) :
  thirteenthChange pixels <> 0 ->
  firstOne pixels + 13 <= thirteenthChange pixels.
Proof.
  intros Hfound.
  destruct (findStart_finds _ (binaryRow_has_one _ Hfound) 0) as [Hr Hn].
  rewrite Z.sub_0_r in Hn. fold (firstOne pixels) in Hr, Hn.
  unfold thirteenthChange in *.
  rewrite skipn_cons_nth in * by lia. rewrite Hn in *.
  cbn [findStop] in *. change (1 =? 1) with true in *. cbv iota in *.
  pose proof (findStop_at_least _ (firstOne pixels + 1) 1 0 ltac:(lia) Hfound).
  lia.
Qed.

(** X3.  A run descriptor that reaches line 165 is sound: the binary row
    holds only 0 and 1, [startRunIn] is within 5% of the width and indexes
    a 1, [stopRunIn] lies at least 13 samples later, inside the row, and
    indexes a 0 (the row has fallen for the seventh time). *)
Theorem run_descriptor_invariants (pixels : list Z) (r : RunIn) :
  Z.of_nat (length pixels) <= maxWidth ->
  locateRunIn pixels = Some r ->
  binary (values r)
  /\ length (values r) = length pixels
  /\ 0 <= startRunIn r
  /\ 20 * startRunIn r <= Z.of_nat (length pixels)
  /\ nth (Z.to_nat (startRunIn r)) (values r) 0 = 1
  /\ startRunIn r + 13 <= stopRunIn r < Z.of_nat (length pixels)
  /\ nth (Z.to_nat (stopRunIn r)) (values r) 0 = 0.
Proof.
  intros Hw Hr.
  destruct (locateRunIn_shape pixels r Hr) as [-> Hfound].
  cbn [values startRunIn stopRunIn].
  pose proof (binaryRow_binary pixels) as Hbin.
  pose proof (firstOne_range pixels) as Hstart.
  pose proof (thirteenthChange_range pixels Hfound) as Hstop.
  pose proof (binaryRow_has_one pixels Hfound) as Hone.
  assert (Hlate : 20 * firstOne pixels <= Z.of_nat (length pixels)).
  { rewrite (locateRunIn_exact pixels Hw) in Hr.
    destruct (maxLuma pixels <? blankBelow); [discriminate|].
    destruct (Z.ltb_spec (Z.of_nat (length pixels)) (20 * firstOne pixels));
      [discriminate | lia]. }
  pose proof (thirteenthChange_far pixels Hfound) as Hlong.
  repeat split; try assumption; try lia.
  - apply binaryRow_length.
  - destruct (findStart_finds _ Hone 0) as [_ Hn].
    unfold firstOne. now rewrite Z.sub_0_r in Hn.
  - unfold thirteenthChange in *.
    rewrite <- (nth_skipn_Z (binaryRow pixels) (Z.to_nat (firstOne pixels)))
      by lia.
    rewrite Z2Nat.id by lia.
    rewrite findStop_value.
    + reflexivity.
    + apply Forall_forall. intros v Hv.
      apply (proj1 (Forall_forall _ _) Hbin).
      revert Hv. generalize (Z.to_nat (firstOne pixels)).
      intros n Hv. rewrite <- (firstn_skipn n (binaryRow pixels)).
      apply in_or_app. now right.
    + now right.
    + exact Hfound.
Qed.

Lemma run_descriptor_invariants_witness :
  Z.of_nat (length row_41_00) <= maxWidth
  /\ locateRunIn row_41_00 = Some (mkRunIn (binaryRow row_41_00) 0 26)
  /\ binary (values (mkRunIn (binaryRow row_41_00) 0 26))
  /\ length (values (mkRunIn (binaryRow row_41_00) 0 26)) = length row_41_00
  /\ 0 <= startRunIn (mkRunIn (binaryRow row_41_00) 0 26)
  /\ 20 * startRunIn (mkRunIn (binaryRow row_41_00) 0 26)
     <= Z.of_nat (length row_41_00)
  /\ nth (Z.to_nat (startRunIn (mkRunIn (binaryRow row_41_00) 0 26)))
         (values (mkRunIn (binaryRow row_41_00) 0 26)) 0 = 1
  /\ startRunIn (mkRunIn (binaryRow row_41_00) 0 26) + 13
     <= stopRunIn (mkRunIn (binaryRow row_41_00) 0 26)
     < Z.of_nat (length row_41_00)
  /\ nth (Z.to_nat (stopRunIn (mkRunIn (binaryRow row_41_00) 0 26)))
         (values (mkRunIn (binaryRow row_41_00) 0 26)) 0 = 0.
Proof.
  assert (Hw : Z.of_nat (length row_41_00) <= maxWidth)
    by (vm_compute; discriminate).
  assert (Hr : locateRunIn row_41_00 = Some (mkRunIn (binaryRow row_41_00) 0 26))
    by (vm_compute; reflexivity).
  split; [exact Hw|]. split; [exact Hr|].
  exact (run_descriptor_invariants _ _ Hw Hr).
Defined.

Lemma fold_max_In (pixels : list Z) :
  forall acc,
  let m := fold_left (fun maxluma cpixel =>
                        if cpixel >? maxluma then cpixel else maxluma)
                     pixels acc in
  m = acc \/ In m pixels.
Proof.
  induction pixels as [|p rest IH]; intros acc; cbn [fold_left].
  - now left.
  - destruct (p >? acc).
    + destruct (IH p) as [E|Hin]; [right; left; now rewrite E | right; now right].
    + destruct (IH acc) as [E|Hin]; [now left | right; now right].
Qed.

Lemma normalize_peak (maxluma : Z) :
  blankBelow <= maxluma <= maxSample ->
  forall samples prev, In maxluma samples ->
  In 1 (normalize maxluma prev samples).
Proof.
  intros Hm. induction samples as [|s rest IH]; intros prev Hin;
    [contradiction|].
  cbn [normalize]. destruct Hin as [->|Hin].
  - left. unfold blankBelow, maxSample in Hm.
    rewrite (binarize_exact maxluma maxluma prev)
      by (unfold blankBelow, maxSample; lia).
    unfold spec_percent. rewrite Z.div_mul by lia. reflexivity.
  - right. apply IH. exact Hin.
Qed.

(** X4.  On a row of 8-bit samples that is not blank, the peak sample is
    classified 1, so [startRunIn] is the index of a real 1 (never the
    initial 0 of line 119 by default) and nothing before it is a 1. *)
Theorem nonblank_row_has_leading_edge (pixels : list Z) :
  sampleRow pixels -> blankBelow <= maxLuma pixels ->
  In 1 (binaryRow pixels)
  /\ 0 <= firstOne pixels < Z.of_nat (length pixels)
  /\ nth (Z.to_nat (firstOne pixels)) (binaryRow pixels) 0 = 1.
Proof.
  intros Hrow Hpeak.
  pose proof (maxLuma_bounds pixels Hrow) as Hb.
  assert (Hin : In (maxLuma pixels) pixels).
  { destruct (fold_max_In pixels 0) as [E|Hin]; [|exact Hin].
    unfold maxLuma in Hpeak. unfold blankBelow in Hpeak. lia. }
  assert (Hone : In 1 (binaryRow pixels))
    by (apply normalize_peak; [lia | exact Hin]).
  split; [exact Hone|].
  destruct (findStart_finds _ Hone 0) as [Hr Hn].
  rewrite binaryRow_length in Hr. rewrite Z.sub_0_r in Hn.
  unfold firstOne. split; [lia | exact Hn].
Qed.

Lemma nonblank_row_has_leading_edge_witness :
  sampleRow [0; 40; 200; 90]
  /\ blankBelow <= maxLuma [0; 40; 200; 90]
  /\ In 1 (binaryRow [0; 40; 200; 90])
  /\ 0 <= firstOne [0; 40; 200; 90] < Z.of_nat (length [0; 40; 200; 90])
  /\ nth (Z.to_nat (firstOne [0; 40; 200; 90])) (binaryRow [0; 40; 200; 90]) 0 = 1.
Proof.
  assert (Hrow : sampleRow [0; 40; 200; 90])
    by (unfold sampleRow, maxSample; repeat constructor; lia).
  assert (Hpeak : blankBelow <= maxLuma [0; 40; 200; 90])
    by (vm_compute; discriminate).
  split; [exact Hrow|]. split; [exact Hpeak|].
  exact (nonblank_row_has_leading_edge _ Hrow Hpeak).
Defined.

(** The scan of lines 176-177 stops on the first sample that is not 0, or
    on the last sample of the row. *)
Lemma skipDead_stops (width : Z) (suffix : list Z) :
  forall x first1,
  x + Z.of_nat (length suffix) = width ->
  skipDead suffix x width = Ok first1 ->
  x <= first1 < width
  /\ (forall i, x <= i < first1 -> nth (Z.to_nat (i - x)) suffix 0 = 0)
  /\ (nth (Z.to_nat (first1 - x)) suffix 0 <> 0 \/ first1 = width - 1).
Proof.
  induction suffix as [|v rest IH]; intros x first1 Hlen H;
    cbn [skipDead length] in *; [discriminate|].
  destruct (Z.eqb_spec v 0) as [->|Hv]; cbn [andb] in H.
  - destruct (Z.ltb_spec x (width - 1)) as [Hlt|Hge].
    + destruct (IH (x + 1) first1 ltac:(lia) H) as (Hr & Hzero & Hend).
      split; [lia|]. split.
      * intros i Hi. destruct (Z.eq_dec i x) as [->|Hix].
        -- now replace (x - x) with 0 by lia.
        -- replace (Z.to_nat (i - x)) with (S (Z.to_nat (i - (x + 1)))) by lia.
           apply Hzero. lia.
      * replace (Z.to_nat (first1 - x))
          with (S (Z.to_nat (first1 - (x + 1)))) by lia.
        exact Hend.
    + injection H as <-. split; [lia|]. split; [intros i Hi; lia | right; lia].
  - injection H as <-. split; [lia|]. split; [intros i Hi; lia|].
    left. now replace (x - x) with 0 by lia.
Qed.

(** What lines 165-178 derive from a run descriptor. *)
Lemma timing_facts (pixels : list Z) (r : RunIn) (t : Timing) :
  Z.of_nat (length pixels) <= maxWidth ->
  locateRunIn pixels = Some r ->
  calibrate (Z.of_nat (length pixels)) r = Ok t ->
  let len := stopRunIn r - startRunIn r in
  let first1 := bitStart t - bitWidth t in
  12 <= len <= stopRunIn r
  /\ 38 * len <= 251 * bitWidth t < 38 * len + 251
  /\ stopRunIn r <= first1 < Z.of_nat (length pixels)
  /\ skipDead (skipn (Z.to_nat (stopRunIn r)) (values r)) (stopRunIn r)
              (Z.of_nat (length pixels)) = Ok first1.
Proof.
  intros Hw Hr Ht len first1.
  destruct (calibrate_total pixels r Hr) as (f & Ht' & Hf).
  rewrite Ht in Ht'. injection Ht' as ->.
  assert (Hskip : skipDead (skipn (Z.to_nat (stopRunIn r)) (values r))
                           (stopRunIn r) (Z.of_nat (length pixels)) = Ok f).
  { unfold calibrate in Ht.
    destruct (skipDead _ _ _) as [f'|e]; cbn [bind] in Ht; [|discriminate].
    injection Ht as Ht. f_equal. lia. }
  destruct (locateRunIn_shape pixels r Hr) as [-> Hfound].
  cbn [stopRunIn startRunIn values bitStart bitWidth] in *.
  pose proof (firstOne_range pixels) as Hstart.
  pose proof (thirteenthChange_range pixels Hfound) as Hstop.
  assert (Hlong : firstOne pixels + 12 <= thirteenthChange pixels).
  { unfold thirteenthChange in *.
    apply (findStop_at_least _ (firstOne pixels) 1 0); [lia | exact Hfound]. }
  subst first1 len.
  pose proof (bitWidthOf_exact (thirteenthChange pixels - firstOne pixels)
                ltac:(lia)) as Hbw.
  pose proof (Z.div_mod (- (38 * (thirteenthChange pixels - firstOne pixels)))
                251 ltac:(lia)) as Hdiv.
  pose proof (Z.mod_pos_bound
                (- (38 * (thirteenthChange pixels - firstOne pixels))) 251
                ltac:(lia)) as Hmod.
  repeat split; try lia.
  rewrite Hskip. f_equal. lia.
Qed.

(** X5.  The timing of lines 165-178: [bitWidth] is exactly
    [ceil(38·runInLength/251)] and at least 2; [bitStart - bitWidth] is
    the first index from [stopRunIn] on whose sample is 1, or the last
    index of the row when the row stays at 0. *)
Theorem timing_invariants (pixels : list Z) (r : RunIn) (t : Timing) :
  Z.of_nat (length pixels) <= maxWidth ->
  locateRunIn pixels = Some r ->
  calibrate (Z.of_nat (length pixels)) r = Ok t ->
  bitWidth t = - ((- (38 * (stopRunIn r - startRunIn r))) / 251)
  /\ 2 <= bitWidth t
  /\ stopRunIn r <= bitStart t - bitWidth t < Z.of_nat (length pixels)
  /\ (forall i, stopRunIn r <= i < bitStart t - bitWidth t ->
                nth (Z.to_nat i) (values r) 0 = 0)
  /\ (nth (Z.to_nat (bitStart t - bitWidth t)) (values r) 0 = 1
      \/ bitStart t - bitWidth t = Z.of_nat (length pixels) - 1).
Proof.
  intros Hw Hr Ht.
  destruct (timing_facts pixels r t Hw Hr Ht) as (Hlen & Hbw & Hf & Hskip).
  destruct (locateRunIn_shape pixels r Hr) as [E Hfound].
  pose proof (thirteenthChange_range pixels Hfound) as Hstop.
  assert (Hs : stopRunIn r = thirteenthChange pixels) by now rewrite E.
  assert (Hv : values r = binaryRow pixels) by now rewrite E.
  apply skipDead_stops in Hskip.
  2:{ rewrite length_skipn, Hv, binaryRow_length. lia. }
  destruct Hskip as (_ & Hzero & Hend).
  split; [|split; [lia|split; [exact Hf|split]]].
  - pose proof (Z.div_mod (- (38 * (stopRunIn r - startRunIn r))) 251 ltac:(lia)).
    pose proof (Z.mod_pos_bound (- (38 * (stopRunIn r - startRunIn r))) 251
                  ltac:(lia)).
    lia.
  - intros i Hi. specialize (Hzero i Hi).
    rewrite <- (Z2Nat.id (stopRunIn r)) in Hzero at 1 by lia.
    rewrite nth_skipn_Z in Hzero by lia. exact Hzero.
  - destruct Hend as [Hne|Hlast]; [left | now right].
    rewrite <- (Z2Nat.id (stopRunIn r)) in Hne at 1 by lia.
    rewrite nth_skipn_Z in Hne by lia.
    pose proof (binaryRow_binary pixels) as Hbin. rewrite <- Hv in Hbin.
    assert (Hin : In (nth (Z.to_nat (bitStart t - bitWidth t)) (values r) 0)
                     (values r)).
    { apply nth_In. rewrite Hv, binaryRow_length. lia. }
    destruct (proj1 (Forall_forall _ _) Hbin _ Hin); [contradiction | assumption].
Qed.

Lemma timing_invariants_witness :
  Z.of_nat (length row_41_00) <= maxWidth
  /\ locateRunIn row_41_00 = Some (mkRunIn (binaryRow row_41_00) 0 26)
  /\ calibrate (Z.of_nat (length row_41_00))
               (mkRunIn (binaryRow row_41_00) 0 26) = Ok (mkTiming 4 38)
  /\ bitWidth (mkTiming 4 38)
     = - ((- (38 * (stopRunIn (mkRunIn (binaryRow row_41_00) 0 26)
                    - startRunIn (mkRunIn (binaryRow row_41_00) 0 26))))
          / 251)
  /\ 2 <= bitWidth (mkTiming 4 38)
  /\ stopRunIn (mkRunIn (binaryRow row_41_00) 0 26)
     <= bitStart (mkTiming 4 38) - bitWidth (mkTiming 4 38)
     < Z.of_nat (length row_41_00)
  /\ (forall i,
        stopRunIn (mkRunIn (binaryRow row_41_00) 0 26) <= i
        < bitStart (mkTiming 4 38) - bitWidth (mkTiming 4 38) ->
        nth (Z.to_nat i) (values (mkRunIn (binaryRow row_41_00) 0 26)) 0 = 0)
  /\ (nth (Z.to_nat (bitStart (mkTiming 4 38) - bitWidth (mkTiming 4 38)))
          (values (mkRunIn (binaryRow row_41_00) 0 26)) 0 = 1
      \/ bitStart (mkTiming 4 38) - bitWidth (mkTiming 4 38)
         = Z.of_nat (length row_41_00) - 1).
Proof.
  assert (Hw : Z.of_nat (length row_41_00) <= maxWidth)
    by (vm_compute; discriminate).
  assert (Hr : locateRunIn row_41_00 = Some (mkRunIn (binaryRow row_41_00) 0 26))
    by (vm_compute; reflexivity).
  assert (Ht : calibrate (Z.of_nat (length row_41_00))
                 (mkRunIn (binaryRow row_41_00) 0 26) = Ok (mkTiming 4 38))
    by (vm_compute; reflexivity).
  split; [exact Hw|]. split; [exact Hr|]. split; [exact Ht|].
  exact (timing_invariants _ _ _ Hw Hr Ht).
Defined.

(** ** Rows that cannot carry a signal *)

Lemma normalize_uniform (v : Z) :
  blankBelow <= v <= maxSample ->
  forall n prev, normalize v prev (repeat v n) = repeat 1 n.
Proof.
  intros Hv. induction n as [|n IH]; intros prev; cbn [repeat normalize].
  - reflexivity.
  - rewrite (binarize_exact v v prev) by (unfold blankBelow, maxSample in *; lia).
    unfold spec_percent. unfold blankBelow in Hv.
    rewrite Z.div_mul by lia. cbn. f_equal. apply IH.
Qed.

Lemma findStart_ones (n : nat) : findStart (repeat 1 n) 0 = 0.
Proof. destruct n; reflexivity. Qed.

(** X6.  A row whose samples all have the same value is rejected: it is
    blank, or its binary row is all 1 and shows no change at all. *)
Theorem uniform_row_rejected (v : Z) (n : nat) (DEBUG : bool) :
  0 <= v <= maxSample -> Z.of_nat n <= maxWidth ->
  decodeFrame (repeat v n) DEBUG = Ok (PySeq [0; 0]).
Proof.
  intros Hv Hn.
  enough (E : locateRunIn (repeat v n) = None)
    by (unfold decodeFrame; now rewrite E).
  rewrite locateRunIn_exact by now rewrite repeat_length.
  destruct (Z.ltb_spec (maxLuma (repeat v n)) blankBelow) as [|Hpeak];
    [reflexivity|].
  assert (Hmax : maxLuma (repeat v n) = v).
  { destruct (fold_max_In (repeat v n) 0) as [E|Hin].
    - unfold maxLuma, blankBelow in Hpeak. lia.
    - apply repeat_spec in Hin. exact Hin. }
  assert (Hrow : binaryRow (repeat v n) = repeat 1 n).
  { unfold binaryRow. rewrite Hmax. apply normalize_uniform. lia. }
  assert (Hs : firstOne (repeat v n) = 0)
    by (unfold firstOne; rewrite Hrow; apply findStart_ones).
  assert (Ht : thirteenthChange (repeat v n) = 0).
  { unfold thirteenthChange. rewrite Hs, Hrow. cbn [Z.to_nat skipn].
    apply findStop_constant. apply Forall_forall. intros x Hx.
    apply repeat_spec in Hx. exact Hx. }
  rewrite Hs, Ht, repeat_length.
  destruct (Z.ltb_spec (Z.of_nat n) (20 * 0)); [lia | reflexivity].
Qed.

Lemma uniform_row_rejected_witness :
  0 <= 200 <= maxSample /\ Z.of_nat 720 <= maxWidth
  /\ decodeFrame (repeat 200 720) true = Ok (PySeq [0; 0]).
Proof.
  assert (Hv : 0 <= 200 <= maxSample) by (unfold maxSample; lia).
  assert (Hn : Z.of_nat 720 <= maxWidth) by (vm_compute; discriminate).
  split; [exact Hv|]. split; [exact Hn|].
  exact (uniform_row_rejected 200 720 true Hv Hn).
Defined.

(** X7.  A row of fewer than 44 samples is always rejected: the 13 changes
    of the run-in put [stopRunIn] at 13 or more, which is beyond 30% of
    such a width. *)
Theorem narrow_row_rejected (pixels : list Z) (DEBUG : bool) :
  (length pixels < 44)%nat ->
  locateRunIn pixels = None
  /\ decodeFrame pixels DEBUG = Ok (PySeq [0; 0]).
Proof.
  intros Hnarrow.
  assert (E : locateRunIn pixels = None).
  { destruct (locateRunIn pixels) as [r|] eqn:Hr; [exfalso | reflexivity].
    destruct (locateRunIn_shape pixels r Hr) as [-> Hfound].
    pose proof (thirteenthChange_far pixels Hfound) as Hfar.
    pose proof (firstOne_range pixels) as Hstart.
    rewrite locateRunIn_exact in Hr by (unfold maxWidth; lia).
    destruct (maxLuma pixels <? blankBelow); [discriminate|].
    destruct (Z.of_nat (length pixels) <? 20 * firstOne pixels); [discriminate|].
    destruct (thirteenthChange pixels =? 0); [discriminate|].
    destruct (Z.ltb_spec (3 * Z.of_nat (length pixels))
                         (10 * thirteenthChange pixels)); [|lia].
    rewrite orb_true_r in Hr. discriminate. }
  split; [exact E|]. unfold decodeFrame. now rewrite E.
Qed.

Lemma narrow_row_rejected_witness :
  (length (row_43) < 44)%nat
  /\ locateRunIn (row_43) = None
  /\ decodeFrame (row_43) false = Ok (PySeq [0; 0]).
Proof.
  assert (H : (length (row_43) < 44)%nat)
    by (vm_compute; lia).
  split; [exact H|]. exact (narrow_row_rejected _ false H).
Defined.

(** At 44 samples the run-in validation can pass. *)
Example narrow_bound_is_tight :
  length (row_44) = 44%nat
  /\ locateRunIn (row_44)
     = Some (mkRunIn (binaryRow (row_44)) 0 13).
Proof. split; vm_compute; reflexivity. Qed.

(** ** What the byte assembler accepts (lines 209-239) *)

Lemma spell7 (r0 r1 r2 r3 r4 r5 r6 : Z) :
  r0 = 0 \/ r0 = 1 -> r1 = 0 \/ r1 = 1 -> r2 = 0 \/ r2 = 1 ->
  r3 = 0 \/ r3 = 1 -> r4 = 0 \/ r4 = 1 -> r5 = 0 \/ r5 = 1 ->
  r6 = 0 \/ r6 = 1 ->
  let byte := spelled range7 [r0; r1; r2; r3; r4; r5; r6] in
  0 <= byte < 128
  /\ map (bitOf byte) range7 = [r0; r1; r2; r3; r4; r5; r6]
  /\ onesOf byte range7 = total [r0; r1; r2; r3; r4; r5; r6].
Proof.
  intros [-> | ->] [-> | ->] [-> | ->] [-> | ->] [-> | ->] [-> | ->] [-> | ->];
    vm_compute; intuition (reflexivity || discriminate).
Qed.

Section Sound.
Variable get : Z -> result Z.
Variable base : Z.
(** The reads of the sampler on a binary row. *)
Hypothesis ternary : forall bit v, get bit = Ok v -> v = -1 \/ v = 0 \/ v = 1.

Lemma dataBits_sound (bs : list Z) :
  forall byte parity byte' parity',
  dataBits get base bs byte parity = Ok (byte', parity') ->
  exists rs,
    Forall2 (fun b r => get (base + b) = Ok r /\ (r = 0 \/ r = 1)) bs rs
    /\ byte' = byte + spelled bs rs
    /\ parity' = parity + total rs.
Proof.
  induction bs as [|b rest IH]; intros byte parity byte' parity' H;
    cbn [dataBits] in H.
  - injection H as <- <-. exists []. cbn. repeat split; [constructor|lia|lia].
  - destruct (get (base + b)) as [v|e] eqn:Hget; cbn [bind] in H;
      [|discriminate].
    destruct (ternary _ _ Hget) as [-> | [-> | ->]]; cbn [Z.eqb] in H.
    + discriminate.
    + destruct (IH _ _ _ _ H) as (rs & Hrs & Hb & Hp).
      exists (0 :: rs). cbn [spelled total].
      repeat split; [constructor; auto | lia | lia].
    + change (1 =? -1) with false in H. change (1 =? 0) with false in H.
      cbv iota in H.
      destruct (IH _ _ _ _ H) as (rs & Hrs & Hb & Hp).
      exists (1 :: rs). cbn [spelled total].
      repeat split; [constructor; auto | lia | lia].
Qed.

Lemma decodeByte_sound (byte : Z) :
  decodeByte get base = Ok byte -> groupAccepted get base byte.
Proof.
  unfold decodeByte. intros H.
  destruct (dataBits get base range7 0 0) as [[byte' parity']|e] eqn:Hbits;
    cbn [bind] in H; [|discriminate].
  destruct (get (base + 7)) as [p|e] eqn:Hp; cbn [bind] in H; [|discriminate].
  destruct (Z.eqb_spec (Z.land (p + snd (byte', parity')) 1) 1) as [Hodd|];
    cbn [negb] in H; [|discriminate].
  injection H as <-. cbn [fst snd] in *.
  destruct (dataBits_sound _ _ _ _ _ Hbits) as (rs & Hrs & -> & ->).
  unfold range7 in Hrs.
  inversion Hrs as [|? r0 ? l0 [G0 B0] T0]; subst; clear Hrs.
  inversion T0 as [|? r1 ? l1 [G1 B1] T1]; subst; clear T0.
  inversion T1 as [|? r2 ? l2 [G2 B2] T2]; subst; clear T1.
  inversion T2 as [|? r3 ? l3 [G3 B3] T3]; subst; clear T2.
  inversion T3 as [|? r4 ? l4 [G4 B4] T4]; subst; clear T3.
  inversion T4 as [|? r5 ? l5 [G5 B5] T5]; subst; clear T4.
  inversion T5 as [|? r6 ? l6 [G6 B6] T6]; subst; clear T5.
  inversion T6; subst; clear T6.
  destruct (spell7 r0 r1 r2 r3 r4 r5 r6 B0 B1 B2 B3 B4 B5 B6)
    as (Hrange & Hbits' & Hones).
  fold range7 in *. rewrite !Z.add_0_l in *.
  split; [exact Hrange|]. split.
  - unfold range7 in Hbits'. cbn [map] in Hbits'.
    injection Hbits' as E0 E1 E2 E3 E4 E5 E6.
    intros b Hb. unfold range7 in Hb. cbn [In] in Hb.
    destruct Hb as [<-|[<-|[<-|[<-|[<-|[<-|[<-|[]]]]]]]].
    + rewrite G0. f_equal. symmetry. exact E0.
    + rewrite G1. f_equal. symmetry. exact E1.
    + rewrite G2. f_equal. symmetry. exact E2.
    + rewrite G3. f_equal. symmetry. exact E3.
    + rewrite G4. f_equal. symmetry. exact E4.
    + rewrite G5. f_equal. symmetry. exact E5.
    + rewrite G6. f_equal. symmetry. exact E6.
  - exists p. split; [exact Hp|]. rewrite Hones. exact Hodd.
Qed.
End Sound.

Lemma decodeByte_complete (get : Z -> result Z) (base byte : Z) :
  groupAccepted get base byte -> decodeByte get base = Ok byte.
Proof.
  intros (Hrange & Hbits & p & Hp & Hodd). unfold decodeByte.
  rewrite (dataBits_reads get base byte Hbits range7 (incl_refl _) 0 0).
  cbn [bind fst snd]. rewrite Hp. cbn [bind].
  destruct (byte_facts byte Hrange) as [Hv _].
  rewrite !Z.add_0_l, Hodd, Hv. reflexivity.
Qed.

Lemma tryBody_accepts (get : Z -> result Z) :
  (forall bit v, get bit = Ok v -> v = -1 \/ v = 0 \/ v = 1) ->
  forall byteA byteB,
  tryBody get = Ok [byteA; byteB] <-> accepted get byteA byteB.
Proof.
  intros Hternary byteA byteB. unfold tryBody, accepted. split.
  - intros H.
    destruct (get (-3)) as [s3|e] eqn:H3; cbn [bind] in H; [|discriminate].
    destruct (get (-2)) as [s2|e] eqn:H2; cbn [bind] in H; [|discriminate].
    destruct (get (-1)) as [s1|e] eqn:H1; cbn [bind] in H; [|discriminate].
    destruct (Z.eqb_spec s3 0) as [->|]; [|discriminate].
    destruct (Z.eqb_spec s2 0) as [->|]; [|discriminate].
    destruct (Z.eqb_spec s1 1) as [->|]; [|discriminate].
    cbn [andb negb] in H.
    destruct (decodeByte get 0) as [b0|e] eqn:H0; cbn [bind] in H;
      [|discriminate].
    destruct (decodeByte get 8) as [b8|e] eqn:H8; cbn [bind] in H;
      [|discriminate].
    injection H as <- <-.
    split; [reflexivity|]. split; [reflexivity|]. split; [reflexivity|].
    split; apply decodeByte_sound; assumption.
  - intros (-> & -> & -> & HA & HB). cbn [bind Z.eqb andb negb].
    rewrite (decodeByte_complete _ _ _ HA), (decodeByte_complete _ _ _ HB).
    reflexivity.
Qed.

Lemma sample_ternary (pixels : list Z) (t : Timing) (bit v : Z) :
  sample pixels t bit = Ok v -> v = -1 \/ v = 0 \/ v = 1.
Proof.
  unfold sample. rewrite getBit_nodebug. intros H. injection H as <-.
  destruct (outside _ _) eqn:Hout; [now left | right].
  apply outside_false in Hout.
  apply (proj1 (Forall_forall _ _) (binaryRow_binary pixels)).
  apply nth_In. lia.
Qed.

(** X8.  The byte assembler is exact on the reads of the sampler: it
    returns [byteA; byteB] if and only if the sanity bits read (0, 0, 1),
    the seven data reads of each group are the bits of its byte, least
    significant first, and each eighth read makes the count of ones odd. *)
Theorem assembler_accepts_exactly (pixels : list Z) (t : Timing)
        (byteA byteB : Z) :
  tryBody (sample pixels t) = Ok [byteA; byteB]
  <-> accepted (sample pixels t) byteA byteB.
Proof. apply tryBody_accepts. apply sample_ternary. Qed.

(** Lines 209-245 with [DEBUG] off, on the reads of the sampler. *)
Lemma decodeFrame_off (pixels : list Z) (r : RunIn) (t : Timing) :
  locateRunIn pixels = Some r ->
  calibrate (Z.of_nat (length pixels)) r = Ok t ->
  decodeFrame pixels false
  = match tryBody (sample pixels t) with
    | Ok data => Ok (PySeq data)
    | Raise _ => Ok (PySeq [0; 0])
    end.
Proof.
  intros Hr Ht.
  destruct (locateRunIn_shape pixels r Hr) as [E _].
  assert (Hv : values r = binaryRow pixels) by now rewrite E.
  unfold decodeFrame. rewrite Hr. unfold readData. rewrite Ht. cbn [bind].
  rewrite Hv.
  change (getBit (binaryRow pixels) (bitStart t) (bitWidth t) false)
    with (sample pixels t).
  pose proof (tryBody_mild (sample pixels t)) as Hmild.
  destruct (tryBody (sample pixels t)) as [data|[]]; try reflexivity;
    exfalso; apply Hmild; intros bit; unfold sample;
    rewrite getBit_nodebug; eauto.
Qed.

(** X9.  With [DEBUG] off, a frame that passes the run-in validation
    returns the bytes its samples are accepted as, and (0, 0) when they
    are accepted as no bytes at all. *)
Theorem decodeFrame_returns_accepted (pixels : list Z) (r : RunIn) (t : Timing) :
  locateRunIn pixels = Some r ->
  calibrate (Z.of_nat (length pixels)) r = Ok t ->
  (forall byteA byteB,
     accepted (sample pixels t) byteA byteB ->
     decodeFrame pixels false = Ok (PySeq [byteA; byteB]))
  /\ ((forall byteA byteB, ~ accepted (sample pixels t) byteA byteB) ->
      decodeFrame pixels false = Ok (PySeq [0; 0])).
Proof.
  intros Hr Ht. rewrite (decodeFrame_off pixels r t Hr Ht). split.
  - intros byteA byteB Hacc.
    apply (tryBody_accepts _ (sample_ternary pixels t)) in Hacc.
    now rewrite Hacc.
  - intros Hnone.
    destruct (tryBody (sample pixels t)) as [data|e] eqn:Htry; [|reflexivity].
    exfalso. destruct (tryBody_bound _ _ Htry) as (b0 & b8 & -> & _).
    apply (Hnone b0 b8).
    now apply (tryBody_accepts _ (sample_ternary pixels t)).
Qed.

Lemma decodeFrame_returns_accepted_witness :
  locateRunIn row_no_parity = Some (mkRunIn (binaryRow row_no_parity) 0 26)
  /\ calibrate (Z.of_nat (length row_no_parity))
               (mkRunIn (binaryRow row_no_parity) 0 26) = Ok (mkTiming 4 38)
  /\ (forall byteA byteB,
        accepted (sample row_no_parity (mkTiming 4 38)) byteA byteB ->
        decodeFrame row_no_parity false = Ok (PySeq [byteA; byteB]))
  /\ ((forall byteA byteB,
         ~ accepted (sample row_no_parity (mkTiming 4 38)) byteA byteB) ->
      decodeFrame row_no_parity false = Ok (PySeq [0; 0])).
Proof.
  assert (Hr : locateRunIn row_no_parity
               = Some (mkRunIn (binaryRow row_no_parity) 0 26))
    by (vm_compute; reflexivity).
  assert (Ht : calibrate (Z.of_nat (length row_no_parity))
                 (mkRunIn (binaryRow row_no_parity) 0 26) = Ok (mkTiming 4 38))
    by (vm_compute; reflexivity).
  split; [exact Hr|]. split; [exact Ht|].
  exact (decodeFrame_returns_accepted _ _ _ Hr Ht).
Defined.

Lemma onesOf_ext (byte byte' : Z) (bs : list Z) :
  (forall b, In b bs -> bitOf byte b = bitOf byte' b) ->
  onesOf byte bs = onesOf byte' bs.
Proof.
  induction bs as [|b rest IH]; intros H; cbn [onesOf]; [reflexivity|].
  rewrite (H b (in_eq _ _)), IH; [reflexivity|].
  intros x Hx. apply H. now right.
Qed.

Lemma bitOf_binary (byte b : Z) : bitOf byte b = 0 \/ bitOf byte b = 1.
Proof. unfold bitOf. destruct (Z.testbit byte b); auto. Qed.

(** X10.  With [DEBUG] off each failure inside the [try] gives (0, 0):
    sanity bits other than (0, 0, 1), a data bit whose offset is out of
    range, or a group in which the count of ones plus the parity read is
    even. *)
Theorem try_failures_rejected (pixels : list Z) (r : RunIn) (t : Timing) :
  locateRunIn pixels = Some r ->
  calibrate (Z.of_nat (length pixels)) r = Ok t ->
  ~ (sample pixels t (-3) = Ok 0 /\ sample pixels t (-2) = Ok 0
     /\ sample pixels t (-1) = Ok 1)
  \/ (exists base b, (base = 0 \/ base = 8) /\ In b range7
                     /\ sample pixels t (base + b) = Ok (-1))
  \/ (exists base byte p,
        (base = 0 \/ base = 8)
        /\ (forall b, In b range7 ->
                      sample pixels t (base + b) = Ok (bitOf byte b))
        /\ sample pixels t (base + 7) = Ok p
        /\ Z.land (p + onesOf byte range7) 1 <> 1) ->
  decodeFrame pixels false = Ok (PySeq [0; 0]).
Proof.
  intros Hr Ht Hfail. rewrite (decodeFrame_off pixels r t Hr Ht).
  destruct (tryBody (sample pixels t)) as [data|e] eqn:Htry; [|reflexivity].
  exfalso. destruct (tryBody_bound _ _ Htry) as (b0 & b8 & -> & _).
  apply (tryBody_accepts _ (sample_ternary pixels t)) in Htry.
  destruct Htry as (S3 & S2 & S1 & HA & HB).
  assert (Hgroup : forall base, base = 0 \/ base = 8 ->
            exists byte, groupAccepted (sample pixels t) base byte).
  { intros base [-> | ->]; eauto. }
  destruct Hfail as [Hsanity | [(base & b & Hbase & Hb & Hout)
                               | (base & byte & p & Hbase & Hbits & Hp & Heven)]].
  - apply Hsanity. auto.
  - destruct (Hgroup base Hbase) as (byte & _ & Hbits & _).
    rewrite (Hbits b Hb) in Hout. injection Hout as Hout.
    destruct (bitOf_binary byte b); lia.
  - destruct (Hgroup base Hbase) as (byte' & _ & Hbits' & p' & Hp' & Hodd).
    rewrite Hp in Hp'. injection Hp' as <-.
    apply Heven. rewrite (onesOf_ext byte byte' range7); [exact Hodd|].
    intros b Hb. specialize (Hbits b Hb). rewrite (Hbits' b Hb) in Hbits.
    now injection Hbits as ->.
Qed.

Lemma try_failures_rejected_witness :
  locateRunIn row_bad_parity = Some (mkRunIn (binaryRow row_bad_parity) 0 26)
  /\ calibrate (Z.of_nat (length row_bad_parity))
               (mkRunIn (binaryRow row_bad_parity) 0 26) = Ok (mkTiming 4 38)
  /\ decodeFrame row_bad_parity false = Ok (PySeq [0; 0]).
Proof.
  assert (Hr : locateRunIn row_bad_parity
               = Some (mkRunIn (binaryRow row_bad_parity) 0 26))
    by (vm_compute; reflexivity).
  assert (Ht : calibrate (Z.of_nat (length row_bad_parity))
                 (mkRunIn (binaryRow row_bad_parity) 0 26) = Ok (mkTiming 4 38))
    by (vm_compute; reflexivity).
  split; [exact Hr|]. split; [exact Ht|].
  apply (try_failures_rejected _ _ _ Hr Ht).
  right. right. exists 0, 65, 0. split; [now left|]. split; [|split].
  - intros b Hb. cbn in Hb.
    repeat (destruct Hb as [<-|Hb]; [vm_compute; reflexivity|]). contradiction.
  - vm_compute. reflexivity.
  - vm_compute. discriminate.
Defined.

(** ** The diagnostic print stays inside a row that holds every slot *)

Section Ext.
Variables get get' : Z -> result Z.
Hypothesis same_reads : forall bit, -3 <= bit <= 15 -> get bit = get' bit.

Lemma dataBits_ext (base : Z) (bs : list Z) :
  (forall b, In b bs -> -3 <= base + b <= 15) ->
  forall byte parity,
  dataBits get base bs byte parity = dataBits get' base bs byte parity.
Proof.
  induction bs as [|b rest IH]; intros Hbs byte parity; cbn [dataBits].
  - reflexivity.
  - rewrite (same_reads _ (Hbs b (in_eq _ _))).
    destruct (get' (base + b)) as [v|e]; cbn [bind]; [|reflexivity].
    destruct (v =? -1); [reflexivity|].
    destruct (v =? 0); apply IH; intros x Hx; apply Hbs; now right.
Qed.

Lemma decodeByte_ext (base : Z) :
  base = 0 \/ base = 8 -> decodeByte get base = decodeByte get' base.
Proof.
  intros Hbase. unfold decodeByte.
  rewrite (dataBits_ext base range7).
  - rewrite (same_reads (base + 7)) by lia. reflexivity.
  - intros b Hb. unfold range7 in Hb. cbn [In] in Hb. lia.
Qed.

Lemma tryBody_ext : tryBody get = tryBody get'.
Proof.
  unfold tryBody.
  rewrite (same_reads (-3)), (same_reads (-2)), (same_reads (-1)) by lia.
  rewrite (decodeByte_ext 0), (decodeByte_ext 8) by auto.
  reflexivity.
Qed.
End Ext.

(** X11.  With [DEBUG] on, a frame whose row holds the slot of bit 15 in
    full ([bitStart + 16·bitWidth <= width]) never fails: the print of
    lines 198-204 stays inside the row, and [decodeFrame] returns what it
    returns with [DEBUG] off, or [None] in place of a rejection. *)
Theorem diagnostics_safe_when_slots_fit (pixels : list Z) (r : RunIn)
        (t : Timing) :
  Z.of_nat (length pixels) <= maxWidth ->
  locateRunIn pixels = Some r ->
  calibrate (Z.of_nat (length pixels)) r = Ok t ->
  bitStart t + 16 * bitWidth t <= Z.of_nat (length pixels) ->
  exists v, decodeFrame pixels true = Ok v
            /\ decodeFrame pixels false = Ok (withoutDiagnostics v).
Proof.
  intros Hw Hr Ht Hfit.
  destruct (timing_facts pixels r t Hw Hr Ht) as (Hlen & Hbw & Hf & _).
  destruct (locateRunIn_shape pixels r Hr) as [E _].
  assert (Hv : values r = binaryRow pixels) by now rewrite E.
  assert (Hsame : tryBody (getBit (values r) (bitStart t) (bitWidth t) true)
                  = tryBody (sample pixels t)).
  { apply tryBody_ext. intros bit Hbit. unfold sample. rewrite Hv.
    apply getBit_debug_inside. right. rewrite binaryRow_length. nia. }
  rewrite (decodeFrame_off pixels r t Hr Ht).
  unfold decodeFrame. rewrite Hr. unfold readData. rewrite Ht. cbn [bind].
  rewrite Hsame.
  pose proof (tryBody_mild (sample pixels t)) as Hmild.
  destruct (tryBody (sample pixels t)) as [data|[]].
  - exists (PySeq data). auto.
  - exists PyNone. auto.
  - exfalso. apply Hmild. intros bit. unfold sample.
    rewrite getBit_nodebug. eauto.
  - exfalso. apply Hmild. intros bit. unfold sample.
    rewrite getBit_nodebug. eauto.
Qed.

Lemma diagnostics_safe_when_slots_fit_witness :
  Z.of_nat (length row_41_00) <= maxWidth
  /\ locateRunIn row_41_00 = Some (mkRunIn (binaryRow row_41_00) 0 26)
  /\ calibrate (Z.of_nat (length row_41_00))
               (mkRunIn (binaryRow row_41_00) 0 26) = Ok (mkTiming 4 38)
  /\ bitStart (mkTiming 4 38) + 16 * bitWidth (mkTiming 4 38)
     <= Z.of_nat (length row_41_00)
  /\ exists v, decodeFrame row_41_00 true = Ok v
               /\ decodeFrame row_41_00 false = Ok (withoutDiagnostics v).
Proof.
  assert (Hw : Z.of_nat (length row_41_00) <= maxWidth)
    by (vm_compute; discriminate).
  assert (Hr : locateRunIn row_41_00 = Some (mkRunIn (binaryRow row_41_00) 0 26))
    by (vm_compute; reflexivity).
  assert (Ht : calibrate (Z.of_nat (length row_41_00))
                 (mkRunIn (binaryRow row_41_00) 0 26) = Ok (mkTiming 4 38))
    by (vm_compute; reflexivity).
  assert (Hfit : bitStart (mkTiming 4 38) + 16 * bitWidth (mkTiming 4 38)
                 <= Z.of_nat (length row_41_00))
    by (vm_compute; discriminate).
  split; [exact Hw|]. split; [exact Hr|]. split; [exact Ht|].
  split; [exact Hfit|].
  exact (diagnostics_safe_when_slots_fit _ _ _ Hw Hr Ht Hfit).
Defined.

(** ** The batch driver, whatever the debug flag (lines 248-263) *)

Lemma collectFrom_cons (bytes : list Z) (i : image) (rest : list image)
      (line : Z) (DEBUG : bool) :
  collectFrom bytes (i :: rest) line DEBUG
  = match decodeFrame (i line) DEBUG with
    | Ok (PySeq [byte0; byte8]) =>
        collectFrom (bytes ++ [byte0; byte8]) rest line DEBUG
    | Ok _ =>
        match starmap (fun i : image => decodeFrame (i line) DEBUG) rest with
        | Ok _ => Raise TypeError
        | Raise e => Raise e
        end
    | Raise e => Raise e
    end.
Proof.
  unfold collectFrom. cbn [starmap].
  destruct (decodeFrame (i line) DEBUG) as [[|items]|e] eqn:Hi; cbn [bind].
  - destruct (starmap _ rest) as [rs|e]; cbn [bind fold_left extend];
      [apply extend_fold_raise | reflexivity].
  - destruct (decodeFrame_returns_pair _ _ _ Hi) as (b0 & b8 & -> & H0 & H8).
    destruct (starmap _ rest) as [rs|e]; cbn [bind fold_left];
      [|reflexivity].
    now rewrite (extend_pair bytes b0 b8 H0 H8).
  - reflexivity.
Qed.

Lemma collectFrom_Ok (line : Z) (DEBUG : bool) (images : list image) :
  forall bytes out,
  collectFrom bytes images line DEBUG = Ok out
  <-> pairs line DEBUG images /\ out = bytes ++ stream line DEBUG images.
Proof.
  induction images as [|i rest IH]; intros bytes out.
  - unfold collectFrom, pairs, stream. cbn. rewrite app_nil_r. split.
    + intros H. injection H as <-. split; [constructor | reflexivity].
    + intros [_ ->]. reflexivity.
  - rewrite collectFrom_cons. unfold pairs, stream in *. cbn [flat_map].
    destruct (decodeFrame (i line) DEBUG) as [[|items]|e] eqn:Hi.
    + split.
      * destruct (starmap _ rest); discriminate.
      * intros [Hp _]. inversion Hp as [|? ? (b0 & b8 & E) _]. congruence.
    + destruct (decodeFrame_returns_pair _ _ _ Hi) as (b0 & b8 & -> & _).
      rewrite IH. cbn [itemsOf]. rewrite <- app_assoc. split.
      * intros [Hp ->]. split; [|reflexivity].
        constructor; [exists b0, b8; exact Hi | exact Hp].
      * intros [Hp ->]. split; [|reflexivity]. now inversion Hp.
    + split; [discriminate|].
      intros [Hp _]. inversion Hp as [|? ? (b0 & b8 & E) _]. congruence.
Qed.

Lemma stream_length (line : Z) (DEBUG : bool) (images : list image) :
  pairs line DEBUG images ->
  length (stream line DEBUG images) = (2 * length images)%nat
  /\ Forall ascii (stream line DEBUG images).
Proof.
  unfold pairs, stream. induction 1 as [|i rest (b0 & b8 & E) _ [IHl IHa]];
    cbn [flat_map length].
  - split; [reflexivity | constructor].
  - destruct (decodeFrame_returns_pair _ _ _ E) as (c0 & c8 & Hc & H0 & H8).
    injection Hc as <- <-. rewrite E. cbn [itemsOf]. split.
    + rewrite length_app, IHl. cbn [length]. lia.
    + apply Forall_app. split; [|exact IHa].
      constructor; [exact H0|]. constructor; [exact H8|]. constructor.
Qed.

(** X12.  Whenever [getByteStream] returns, every frame handed back a pair
    and the stream is the pairs in the order of the frames: two bytes a
    frame, each a 7-bit value. *)
Theorem getByteStream_returns_pairs (images : list image) (line : Z)
        (DEBUG : bool) (bytes : list Z) :
  getByteStream images line DEBUG = Ok bytes ->
  pairs line DEBUG images
  /\ bytes = stream line DEBUG images
  /\ length bytes = (2 * length images)%nat
  /\ Forall ascii bytes.
Proof.
  intros H. change (collectFrom [] images line DEBUG = Ok bytes) in H.
  apply collectFrom_Ok in H. destruct H as [Hp ->]. cbn [app].
  destruct (stream_length _ _ _ Hp) as [Hl Ha]. auto.
Qed.

Lemma getByteStream_returns_pairs_witness :
  getByteStream [fun _ => blank_row; fun _ => row_41_00] 21 true
  = Ok [0; 0; 65; 0]
  /\ pairs 21 true [fun _ => blank_row; fun _ => row_41_00]
  /\ [0; 0; 65; 0] = stream 21 true [fun _ => blank_row; fun _ => row_41_00]
  /\ length [0; 0; 65; 0]
     = (2 * length [(fun _ => blank_row) : image; fun _ => row_41_00])%nat
  /\ Forall ascii [0; 0; 65; 0].
Proof.
  assert (H : getByteStream [fun _ => blank_row; fun _ => row_41_00] 21 true
              = Ok [0; 0; 65; 0]) by (vm_compute; reflexivity).
  split; [exact H|]. exact (getByteStream_returns_pairs _ _ _ _ H).
Defined.

(** X13.  Batches compose: the stream of two lists of frames one after the
    other is the stream of the first followed by the stream of the
    second. *)
Theorem getByteStream_app (images images' : list image) (line : Z)
        (DEBUG : bool) (bytes bytes' : list Z) :
  getByteStream images line DEBUG = Ok bytes ->
  getByteStream images' line DEBUG = Ok bytes' ->
  getByteStream (images ++ images') line DEBUG = Ok (bytes ++ bytes').
Proof.
  intros H H'.
  change (collectFrom [] images line DEBUG = Ok bytes) in H.
  change (collectFrom [] images' line DEBUG = Ok bytes') in H'.
  change (collectFrom [] (images ++ images') line DEBUG = Ok (bytes ++ bytes')).
  apply collectFrom_Ok in H. apply collectFrom_Ok in H'.
  destruct H as [Hp ->], H' as [Hp' ->]. apply collectFrom_Ok. split.
  - apply Forall_app. split; assumption.
  - unfold stream. cbn [app]. now rewrite flat_map_app.
Qed.

Lemma getByteStream_app_witness :
  getByteStream [fun _ => blank_row] 21 true = Ok [0; 0]
  /\ getByteStream [fun _ => row_41_00] 21 true = Ok [65; 0]
  /\ getByteStream ([fun _ => blank_row] ++ [fun _ => row_41_00]) 21 true
     = Ok ([0; 0] ++ [65; 0]).
Proof.
  assert (H : getByteStream [fun _ => blank_row] 21 true = Ok [0; 0])
    by (vm_compute; reflexivity).
  assert (H' : getByteStream [fun _ => row_41_00] 21 true = Ok [65; 0])
    by (vm_compute; reflexivity).
  split; [exact H|]. split; [exact H'|].
  exact (getByteStream_app _ _ _ _ _ _ H H').
Defined.

Lemma starmap_raises {A B : Type} (f : A -> result B) (iterArgs : list A)
      (e : exn) :
  starmap f iterArgs = Raise e -> exists a, In a iterArgs /\ f a = Raise e.
Proof.
  induction iterArgs as [|a rest IH]; cbn [starmap]; intros H;
    [discriminate|].
  destruct (f a) as [b|e'] eqn:Ha; cbn [bind] in H.
  - destruct (starmap f rest) as [bs|e'] eqn:Hrest; cbn [bind] in H;
      [discriminate|].
    injection H as <-. destruct (IH eq_refl) as (x & Hx & E).
    exists x. split; [now right | exact E].
  - injection H as <-. exists a. split; [now left | exact Ha].
Qed.

Lemma collectFrom_raises (line : Z) (DEBUG : bool) (images : list image) :
  forall bytes e,
  collectFrom bytes images line DEBUG = Raise e ->
  DEBUG = true /\ (e = TypeError \/ e = IndexError).
Proof.
  induction images as [|i rest IH]; intros bytes e H.
  - discriminate.
  - rewrite collectFrom_cons in H.
    destruct (decodeFrame (i line) DEBUG) as [[|items]|e'] eqn:Hi.
    + assert (HD : DEBUG = true).
      { destruct DEBUG; [reflexivity|].
        destruct (decodeFrame_nodebug (i line)) as (b0 & b8 & E & _).
        rewrite E in Hi. discriminate. }
      split; [exact HD|].
      destruct (starmap _ rest) as [rs|e''] eqn:Hrest.
      * injection H as <-. now left.
      * injection H as <-. apply starmap_raises in Hrest.
        destruct Hrest as (x & _ & Hx).
        destruct (decodeFrame_raises _ _ _ Hx) as [-> _]. now right.
    + destruct (decodeFrame_returns_pair _ _ _ Hi) as (b0 & b8 & -> & _).
      apply (IH _ _ H).
    + injection H as <-. destruct (decodeFrame_raises _ _ _ Hi) as [-> ->].
      auto.
Qed.

(** ** The batch driver as called, on file names (lines 248-263) *)

Lemma Pool_accepts (threads : option Z) :
  (poolAccepts threads -> Pool threads = Ok tt)
  /\ (~ poolAccepts threads -> Pool threads = Raise ValueError).
Proof.
  unfold poolAccepts, Pool. destruct threads as [n|]; [|tauto].
  destruct (Z.ltb_spec n 1) as [Hlt|Hge]; split; intros Hacc;
    solve [reflexivity | lia].
Qed.

Section OnDiskFacts.
Variable Image_open : String.string -> option image.

Lemma opened_length (images : list String.string) :
  forall frames, opened Image_open images = Some frames ->
  length frames = length images.
Proof.
  induction images as [|i rest IH]; intros frames H; cbn [opened] in H.
  - now injection H as <-.
  - destruct (Image_open i); [|discriminate].
    destruct (opened Image_open rest) as [fs|]; [|discriminate].
    injection H as <-. cbn [length]. now rewrite (IH fs).
Qed.

Lemma starmap_files_opened (line : Z) (DEBUG : bool)
      (images : list String.string) :
  forall frames, opened Image_open images = Some frames ->
  starmap_files (fun i => OnDisk.decodeFrame Image_open i line DEBUG) images
  = match starmap (fun i : image => decodeFrame (i line) DEBUG) frames with
    | Ok results => inr results
    | Raise e => inl (Exn e)
    end.
Proof.
  induction images as [|i rest IH]; intros frames H;
    cbn [opened starmap_files] in *.
  - injection H as <-. reflexivity.
  - unfold OnDisk.decodeFrame at 1. destruct (Image_open i) as [luma|];
      [|discriminate].
    destruct (opened Image_open rest) as [fs|]; [|discriminate].
    injection H as <-. cbn [starmap]. rewrite (IH fs eq_refl).
    destruct (decodeFrame (luma line) DEBUG); cbn [bind]; [|reflexivity].
    destruct (starmap _ fs); reflexivity.
Qed.

Lemma starmap_files_unopened (line : Z) (DEBUG : bool)
      (images : list String.string) :
  opened Image_open images = None ->
  exists e,
    starmap_files (fun i => OnDisk.decodeFrame Image_open i line DEBUG) images
    = inl e
    /\ (e = OSError \/ (DEBUG = true /\ e = Exn IndexError)).
Proof.
  induction images as [|i rest IH]; intros H; cbn [opened starmap_files] in *;
    [discriminate|].
  unfold OnDisk.decodeFrame at 1. destruct (Image_open i) as [luma|].
  - destruct (opened Image_open rest) as [fs|]; [discriminate|].
    destruct (decodeFrame (luma line) DEBUG) as [v|e] eqn:E.
    + destruct (IH eq_refl) as (e & -> & He). now exists e.
    + destruct (decodeFrame_raises _ _ _ E) as [-> ->].
      exists (Exn IndexError). auto.
  - exists OSError. auto.
Qed.

Lemma getByteStream_opened (images : list String.string) (line : Z)
      (threads : option Z) (DEBUG : bool) (frames : list image) :
  Pool threads = Ok tt ->
  opened Image_open images = Some frames ->
  OnDisk.getByteStream Image_open images line threads DEBUG
  = match getByteStream frames line DEBUG with
    | Ok bytes => inr bytes
    | Raise e => inl (Exn e)
    end.
Proof.
  intros Hp Ho. unfold OnDisk.getByteStream, getByteStream.
  rewrite Hp, (starmap_files_opened line DEBUG images frames Ho).
  unfold image in *.
  match goal with |- context [starmap ?f frames] =>
    destruct (starmap f frames)
  end; reflexivity.
Qed.

Lemma getByteStream_returned (images : list String.string) (line : Z)
      (threads : option Z) (DEBUG : bool) (bytes : list Z) :
  OnDisk.getByteStream Image_open images line threads DEBUG = inr bytes ->
  exists frames,
    opened Image_open images = Some frames
    /\ getByteStream frames line DEBUG = Ok bytes.
Proof.
  intros H. destruct (Pool threads) as [[]|e] eqn:Hp.
  - destruct (opened Image_open images) as [frames|] eqn:Ho.
    + exists frames. split; [reflexivity|].
      rewrite (getByteStream_opened _ _ _ _ _ Hp Ho) in H.
      destruct (getByteStream frames line DEBUG); congruence.
    + unfold OnDisk.getByteStream in H. rewrite Hp in H.
      destruct (starmap_files_unopened line DEBUG images Ho) as (e & E & _).
      rewrite E in H. discriminate.
  - unfold OnDisk.getByteStream in H. rewrite Hp in H. discriminate.
Qed.


End OnDiskFacts.

(** ** The command line (lines 288-303) *)

Section CommandLineFacts.
Variables isfile isdir : String.string -> bool.
Variable listdir : String.string -> list String.string.

Lemma fromDirectory_filter (f : String.string) (files : list String.string) :
  fromDirectory isfile listdir f files
  = files ++ filter isfile (map (join f) (listdir f)).
Proof.
  unfold fromDirectory. generalize (listdir f) as names. intros names.
  revert files. induction names as [|i rest IH]; intros files;
    cbn [fold_left map filter].
  - now rewrite app_nil_r.
  - rewrite IH. destruct (isfile (join f i)); [|reflexivity].
    now rewrite <- app_assoc.
Qed.

Lemma gather_app (pre rest : list String.string) :
  forall files,
  gather isfile isdir listdir (pre ++ rest) files
  = match gather isfile isdir listdir pre files with
    | Listed found => gather isfile isdir listdir rest found
    | NotAFileOrDirectory f => NotAFileOrDirectory f
    end.
Proof.
  induction pre as [|f pre IH]; intros files;
    cbn [app gather]; [reflexivity|].
  destruct (isfile f); [apply IH|].
  destruct (isdir f); [apply IH | reflexivity].
Qed.

Lemma gather_files (args : list String.string) :
  forall files,
  forallb isfile args = true ->
  gather isfile isdir listdir args files = Listed (files ++ args).
Proof.
  induction args as [|f rest IH]; intros files H;
    cbn [forallb gather] in *.
  - now rewrite app_nil_r.
  - apply andb_true_iff in H. destruct H as [-> Hrest].
    rewrite (IH _ Hrest), <- app_assoc. reflexivity.
Qed.

Lemma gather_permutation (args : list String.string) :
  forall files found,
  gather isfile isdir listdir args files = Listed found ->
  Permutation found (files ++ flat_map (contribution isfile listdir) args).
Proof.
  induction args as [|f rest IH];
    intros files found H; cbn [gather flat_map] in H |- *.
  - injection H as <-. now rewrite app_nil_r.
  - unfold contribution at 1. destruct (isfile f).
    + rewrite app_assoc. apply (IH _ _ H).
    + destruct (isdir f); [|discriminate].
      rewrite (IH _ _ H), app_assoc. apply Permutation_app_tail.
      rewrite <- fromDirectory_filter. symmetry.
      apply PathSort.Permuted_sort.
Qed.

(** X15.  Arguments that are all files are decoded in the order given:
    the list is sorted only after a directory has been read. *)
Theorem files_keep_their_order (args : list String.string) :
  forallb isfile args = true ->
  gather isfile isdir listdir args [] = Listed args.
Proof.
  intros H. apply (gather_files args [] H).
Qed.

(** X16.  The listing stops exactly at the first argument that is neither
    a file nor a directory, whatever follows it. *)
Theorem listing_stops_at_first_stranger (args : list String.string)
        (files : list String.string) (f : String.string) :
  gather isfile isdir listdir args files = NotAFileOrDirectory f
  <-> exists pre post,
        args = pre ++ f :: post
        /\ forallb (fun g => isfile g || isdir g) pre = true
        /\ isfile f = false /\ isdir f = false.
Proof.
  revert files.
  induction args as [|g rest IH]; intros files; cbn [gather].
  - split; [discriminate|]. intros (pre & post & E & _).
    destruct pre; discriminate.
  - destruct (isfile g) eqn:Hf; [|destruct (isdir g) eqn:Hd].
    + rewrite IH. split.
      * intros (pre & post & -> & Hpre & H). exists (g :: pre), post.
        cbn [app forallb]. rewrite Hf, Hpre. auto.
      * intros (pre & post & E & Hpre & Hf' & Hd').
        destruct pre as [|g' pre]; cbn [app forallb] in E, Hpre;
          injection E as <- ->; [congruence|].
        apply andb_true_iff in Hpre. exists pre, post. tauto.
    + rewrite IH. split.
      * intros (pre & post & -> & Hpre & H). exists (g :: pre), post.
        cbn [app forallb]. rewrite Hf, Hd, Hpre. auto.
      * intros (pre & post & E & Hpre & Hf' & Hd').
        destruct pre as [|g' pre]; cbn [app forallb] in E, Hpre;
          injection E as <- ->; [congruence|].
        apply andb_true_iff in Hpre. exists pre, post. tauto.
    + split.
      * intros H. injection H as <-. exists [], rest. cbn [app forallb]. auto.
      * intros (pre & post & E & Hpre & Hf' & Hd').
        destruct pre as [|g' pre]; cbn [app forallb] in E, Hpre;
          injection E as <- ->; [reflexivity|].
        rewrite Hf, Hd in Hpre. discriminate.
Qed.

(** X17.  A listing holds, in some order, the file arguments and the
    files found directly in the directory arguments, each as often as it
    was met; entries of a directory that are not files are left out. *)
Theorem listing_is_the_contributions (args found : list String.string) :
  gather isfile isdir listdir args [] = Listed found ->
  Permutation found (flat_map (contribution isfile listdir) args)
  /\ Forall (fun file => isfile file = true) found.
Proof.
  intros H. pose proof (gather_permutation args [] found H) as P.
  cbn [app] in P. split; [exact P|].
  apply Forall_forall. intros file Hin.
  apply (Permutation_in _ P) in Hin. apply in_flat_map in Hin.
  destruct Hin as (f & _ & Hin). 
  unfold contribution in Hin. destruct (isfile f) eqn:Hf.
  - destruct Hin as [<- | []]. exact Hf.
  - apply filter_In in Hin. tauto.
Qed.

(** X18.  After a directory argument the whole list so far is sorted,
    files named before it included; files named after the last directory
    follow in the order given. *)
Theorem directory_sorts_what_came_before (pre post : list String.string)
        (d : String.string) (found : list String.string) :
  isfile d = false ->
  forallb isfile post = true ->
  gather isfile isdir listdir (pre ++ d :: post) [] = Listed found ->
  exists head,
    found = head ++ post
    /\ Sorted (fun a b => String.leb a b = true) head
    /\ Permutation head (flat_map (contribution isfile listdir) (pre ++ [d])).
Proof.
  intros Hd Hpost H. rewrite gather_app in H.
  destruct (gather isfile isdir listdir pre []) as [before|] eqn:Hpre;
    [|discriminate].
  cbn [gather] in H. rewrite Hd in H.
  destruct (isdir d); [|discriminate].
  rewrite (gather_files post _ Hpost) in H. injection H as <-.
  exists (PathSort.sort (fromDirectory isfile listdir d before)).
  split; [reflexivity|]. split; [apply PathSort.Sorted_sort|].
  rewrite <- PathSort.Permuted_sort, fromDirectory_filter, flat_map_app.
  apply Permutation_app.
  - apply (gather_permutation pre [] before Hpre).
  - cbn [flat_map]. rewrite app_nil_r. 
    unfold contribution. now rewrite Hd.
Qed.

Lemma decode_ascii_7bit (bytes : list Z) :
  Forall ascii bytes -> decode_ascii bytes = Some bytes.
Proof.
  intros H. unfold decode_ascii.
  replace (forallb (fun b => b <? 128) bytes) with true; [reflexivity|].
  symmetry. apply forallb_forall. intros b Hb.
  apply (proj1 (Forall_forall _ _) H) in Hb. unfold ascii in Hb.
  apply Z.ltb_lt. lia.
Qed.

Section Run.
Variable Image_open : String.string -> option image.

(** X19.  With diagnostics off, a listing that succeeds, a pool that
    starts and listed files that all open as images give a printed text:
    the two bytes of each listed frame in the order of the listing, then
    the newline of [print]. *)
Theorem main_prints_stream (args files : list String.string) (ccline : Z)
        (threads : option Z) (frames : list image) :
  gather isfile isdir listdir args [] = Listed files ->
  poolAccepts threads ->
  opened Image_open files = Some frames ->
  exists bytes,
    main isfile isdir listdir Image_open args ccline threads false
    = Printed (bytes ++ [10])
    /\ bytes = stream ccline false frames
    /\ length bytes = (2 * length files)%nat
    /\ Forall ascii bytes.
Proof.
  intros Hg Hp Ho. unfold main. rewrite Hg.
  rewrite (getByteStream_opened Image_open files ccline threads false frames
             (proj1 (Pool_accepts threads) Hp) Ho).
  destruct (getByteStream_nodebug frames ccline) as [E L].
  pose proof (getByteStream_ascii _ _ _ _ E) as Ha.
  rewrite E, (decode_ascii_7bit _ Ha).
  rewrite (opened_length Image_open files frames Ho) in L.
  eexists. split; [reflexivity|].
  split; [reflexivity|]. split; [exact L | exact Ha].
Qed.

(** X20.  The script never ends in [UnicodeDecodeError]: [decode('ascii')] is
    only reached with a stream of 7-bit values. *)
Theorem main_never_UnicodeDecodeError (args : list String.string)
        (ccline : Z) (threads : option Z) (debug : bool) :
  main isfile isdir listdir Image_open args ccline threads debug
  <> UnicodeDecodeError.
Proof.
  unfold main. destruct (gather isfile isdir listdir args []); [|discriminate].
  destruct (OnDisk.getByteStream Image_open files ccline threads debug)
    as [e|bytes] eqn:E; [discriminate|].
  destruct (getByteStream_returned _ _ _ _ _ _ E) as (frames & _ & E').
  rewrite (decode_ascii_7bit _ (getByteStream_ascii _ _ _ _ E')).
  discriminate.
Qed.
End Run.
End CommandLineFacts.

Lemma files_keep_their_order_witness :
  forallb demo_isfile ["z.png"; "d/b"; "d/a"]%string = true
  /\ gather demo_isfile demo_isdir demo_listdir
            ["z.png"; "d/b"; "d/a"]%string []
     = Listed ["z.png"; "d/b"; "d/a"]%string.
Proof.
  assert (H : forallb demo_isfile ["z.png"; "d/b"; "d/a"]%string = true)
    by (vm_compute; reflexivity).
  split; [exact H|].
  exact (files_keep_their_order demo_isfile demo_isdir demo_listdir _ H).
Defined.

Lemma listing_is_the_contributions_witness :
  gather demo_isfile demo_isdir demo_listdir ["z.png"; "d"]%string []
  = Listed ["d/a"; "d/b"; "z.png"]%string
  /\ Permutation ["d/a"; "d/b"; "z.png"]%string
       (flat_map (contribution demo_isfile demo_listdir)
                 ["z.png"; "d"]%string)
  /\ Forall (fun file => demo_isfile file = true)
            ["d/a"; "d/b"; "z.png"]%string.
Proof.
  assert (H : gather demo_isfile demo_isdir demo_listdir
                     ["z.png"; "d"]%string []
              = Listed ["d/a"; "d/b"; "z.png"]%string)
    by (vm_compute; reflexivity).
  split; [exact H|].
  exact (listing_is_the_contributions demo_isfile demo_isdir demo_listdir
           _ _ H).
Defined.

Lemma directory_sorts_what_came_before_witness :
  demo_isfile "d"%string = false
  /\ forallb demo_isfile ["d/b"]%string = true
  /\ gather demo_isfile demo_isdir demo_listdir
            (["z.png"]%string ++ "d"%string :: ["d/b"]%string) []
     = Listed ["d/a"; "d/b"; "z.png"; "d/b"]%string
  /\ exists head,
       ["d/a"; "d/b"; "z.png"; "d/b"]%string = head ++ ["d/b"]%string
       /\ Sorted (fun a b => String.leb a b = true) head
       /\ Permutation head
            (flat_map (contribution demo_isfile demo_listdir)
                      (["z.png"]%string ++ ["d"]%string)).
Proof.
  assert (Hd : demo_isfile "d"%string = false) by (vm_compute; reflexivity).
  assert (Hp : forallb demo_isfile ["d/b"]%string = true)
    by (vm_compute; reflexivity).
  assert (H : gather demo_isfile demo_isdir demo_listdir
                     (["z.png"]%string ++ "d"%string :: ["d/b"]%string) []
              = Listed ["d/a"; "d/b"; "z.png"; "d/b"]%string)
    by (vm_compute; reflexivity).
  split; [exact Hd|]. split; [exact Hp|]. split; [exact H|].
  exact (directory_sorts_what_came_before demo_isfile demo_isdir demo_listdir
           _ _ _ _ Hd Hp H).
Defined.

Lemma main_prints_stream_witness :
  gather demo_isfile demo_isdir demo_listdir ["z.png"; "d"]%string []
  = Listed ["d/a"; "d/b"; "z.png"]%string
  /\ poolAccepts (Some 4)
  /\ opened demo_open ["d/a"; "d/b"; "z.png"]%string
     = Some [fun _ => row_41_00; fun _ => blank_row; fun _ => blank_row]
  /\ exists bytes,
       main demo_isfile demo_isdir demo_listdir demo_open
            ["z.png"; "d"]%string 21 (Some 4) false
       = Printed (bytes ++ [10])
       /\ bytes = stream 21 false
                    [fun _ => row_41_00; fun _ => blank_row;
                     fun _ => blank_row]
       /\ length bytes = (2 * length ["d/a"; "d/b"; "z.png"]%string)%nat
       /\ Forall ascii bytes.
Proof.
  assert (H : gather demo_isfile demo_isdir demo_listdir
                     ["z.png"; "d"]%string []
              = Listed ["d/a"; "d/b"; "z.png"]%string)
    by (vm_compute; reflexivity).
  assert (Hp : poolAccepts (Some 4)) by (cbn; lia).
  assert (Ho : opened demo_open ["d/a"; "d/b"; "z.png"]%string
               = Some [fun _ => row_41_00; fun _ => blank_row;
                       fun _ => blank_row])
    by reflexivity.
  split; [exact H|]. split; [exact Hp|]. split; [exact Ho|].
  exact (main_prints_stream demo_isfile demo_isdir demo_listdir demo_open
           _ _ 21 _ _ H Hp Ho).
Defined.

(** A directory that holds a file that is no image: the listing takes it
    and the run ends in the [OSError] of [Image.open]; a run with no
    process to start ends in [ValueError]. *)
Example main_on_a_text_file :
  main demo_isfile demo_isdir demo_listdir demo_open ["d"; "e"]%string 21
       None false
  = Uncaught OSError
  /\ main demo_isfile demo_isdir demo_listdir demo_open ["d"]%string 21
          (Some 0) false
     = Uncaught (Exn ValueError).
Proof. split; vm_compute; reflexivity. Qed.

(** ** The slots [decodeFrame] reads *)

(** X21.  In the calls [decodeFrame] makes, from the first dead-space bit
    on, the midpoint offset is never negative: the truncation of [int]
    (line 192) is the floor there, and the sampler reads the sample under
    the midpoint, or -1 past the end of the row. *)
Theorem decodeFrame_reads_midpoints (pixels : list Z) (r : RunIn)
        (t : Timing) (bit : Z) :
  Z.of_nat (length pixels) <= maxWidth ->
  locateRunIn pixels = Some r ->
  calibrate (Z.of_nat (length pixels)) r = Ok t ->
  -3 <= bit ->
  0 <= bitOffset (bitStart t) (bitWidth t) bit
  /\ bitOffset (bitStart t) (bitWidth t) bit
     = spec_offset (bitStart t) (bitWidth t) bit
  /\ sample pixels t bit
     = Ok (if bitOffset (bitStart t) (bitWidth t) bit
              <? Z.of_nat (length pixels)
           then nth (Z.to_nat (bitOffset (bitStart t) (bitWidth t) bit))
                    (binaryRow pixels) 0
           else -1).
Proof.
  intros Hw Hr Ht Hbit.
  destruct (sampled_bits_match_spec pixels r t bit Hw Hr Ht Hbit) as [Hmid E].
  pose proof (bitOffset_floor _ _ _ Hmid) as Hfloor.
  destruct (locateRunIn_shape pixels r Hr) as [-> _].
  cbn [values] in E. unfold sample. rewrite E, Hfloor.
  assert (H0 : 0 <= spec_offset (bitStart t) (bitWidth t) bit).
  { unfold spec_offset. apply Z.div_pos; lia. }
  split; [exact H0|]. split; [reflexivity|].
  unfold spec_getBit. rewrite binaryRow_length.
  destruct (Z.leb_spec 0 (spec_offset (bitStart t) (bitWidth t) bit));
    [reflexivity | lia].
Qed.

Lemma decodeFrame_reads_midpoints_witness :
  Z.of_nat (length row_odd_width) <= maxWidth
  /\ locateRunIn row_odd_width = Some (mkRunIn (binaryRow row_odd_width) 0 14)
  /\ calibrate (Z.of_nat (length row_odd_width))
               (mkRunIn (binaryRow row_odd_width) 0 14) = Ok (mkTiming 3 22)
  /\ -3 <= -3
  /\ 0 <= bitOffset (bitStart (mkTiming 3 22)) (bitWidth (mkTiming 3 22)) (-3)
  /\ bitOffset (bitStart (mkTiming 3 22)) (bitWidth (mkTiming 3 22)) (-3)
     = spec_offset (bitStart (mkTiming 3 22)) (bitWidth (mkTiming 3 22)) (-3)
  /\ sample row_odd_width (mkTiming 3 22) (-3)
     = Ok (if bitOffset (bitStart (mkTiming 3 22))
                        (bitWidth (mkTiming 3 22)) (-3)
              <? Z.of_nat (length row_odd_width)
           then nth (Z.to_nat (bitOffset (bitStart (mkTiming 3 22))
                                         (bitWidth (mkTiming 3 22)) (-3)))
                    (binaryRow row_odd_width) 0
           else -1).
Proof.
  assert (Hw : Z.of_nat (length row_odd_width) <= maxWidth)
    by (vm_compute; discriminate).
  assert (Hr : locateRunIn row_odd_width
               = Some (mkRunIn (binaryRow row_odd_width) 0 14))
    by (vm_compute; reflexivity).
  assert (Ht : calibrate (Z.of_nat (length row_odd_width))
                 (mkRunIn (binaryRow row_odd_width) 0 14)
               = Ok (mkTiming 3 22))
    by (vm_compute; reflexivity).
  assert (Hb : -3 <= -3) by lia.
  split; [exact Hw|]. split; [exact Hr|]. split; [exact Ht|].
  split; [exact Hb|].
  exact (decodeFrame_reads_midpoints _ _ _ _ Hw Hr Ht Hb).
Defined.

(** ** Round trip through the encoder *)

Lemma fold_max_ge (pixels : list Z) :
  forall acc,
  let m := fold_left (fun maxluma cpixel =>
                        if cpixel >? maxluma then cpixel else maxluma)
                     pixels acc in
  acc <= m /\ Forall (fun p => p <= m) pixels.
Proof.
  induction pixels as [|p rest IH]; intros acc; cbn [fold_left].
  - split; [lia | constructor].
  - destruct (IH (if p >? acc then p else acc)) as [Hacc Hrest].
    destruct (Z.gtb_spec p acc); (split; [lia | constructor; [lia | exact Hrest]]).
Qed.

(** The peak of a row that holds only black and one white level. *)
Lemma maxLuma_two_levels (white : Z) (pixels : list Z) :
  0 <= white -> In white pixels ->
  Forall (fun p => p = 0 \/ p = white) pixels ->
  maxLuma pixels = white.
Proof.
  intros Hw Hin Hall. unfold maxLuma.
  pose proof (fold_max_ge pixels 0) as Hge.
  pose proof (fold_max_In pixels 0) as HIn.
  cbv zeta in Hge, HIn.
  set (m := fold_left _ pixels 0) in *.
  destruct Hge as [H0 Hge].
  pose proof (proj1 (Forall_forall _ _) Hge _ Hin) as Hle. cbv beta in Hle.
  destruct HIn as [E | E]; [lia|].
  pose proof (proj1 (Forall_forall _ _) Hall _ E) as Hm. cbv beta in Hm. lia.
Qed.

Lemma normalize_two_levels (white : Z) :
  blankBelow <= white <= maxSample ->
  forall pixels prev,
  Forall (fun p => p = 0 \/ p = white) pixels ->
  normalize white prev pixels = map (fun p => if p =? 0 then 0 else 1) pixels.
Proof.
  intros Hw. induction pixels as [|p rest IH]; intros prev Hall;
    cbn [normalize map]; [reflexivity|].
  inversion Hall as [|? ? Hp Hrest]; subst.
  rewrite (IH _ Hrest). f_equal.
  unfold blankBelow, maxSample in Hw.
  rewrite binarize_exact by (unfold blankBelow, maxSample; destruct Hp; lia).
  unfold spec_classify, spec_percent.
  destruct Hp as [-> | ->].
  - rewrite Z.mul_0_r, Z.div_0_l by lia. reflexivity.
  - rewrite Z.div_mul by lia.
    destruct (Z.eqb_spec white 0); [lia | reflexivity].
Qed.

Lemma wave_levels (white : Z) (n : nat) (cells : list Z) :
  Forall (fun p => p = 0 \/ p = white) (wave white n cells).
Proof.
  unfold wave. induction cells as [|c rest IH]; cbn [flat_map];
    [constructor|].
  apply Forall_app. split; [|exact IH].
  apply Forall_forall. intros p Hp. apply repeat_spec in Hp.
  destruct (c =? 0); auto.
Qed.

Lemma zeros_levels (white : Z) (n : nat) :
  Forall (fun p => p = 0 \/ p = white) (repeat 0 n).
Proof.
  apply Forall_forall. intros p Hp. apply repeat_spec in Hp. auto.
Qed.

Lemma encode_levels (lead h trail : nat) (white byteA byteB : Z) :
  Forall (fun p => p = 0 \/ p = white) (encode lead h trail white byteA byteB).
Proof.
  unfold encode.
  apply Forall_app; split; [apply zeros_levels|].
  apply Forall_app; split; [apply wave_levels|].
  apply Forall_app; split; [apply zeros_levels|].
  apply Forall_app; split; [apply wave_levels | apply zeros_levels].
Qed.

Lemma map_wave (white : Z) (n : nat) (cells : list Z) :
  white <> 0 ->
  map (fun p => if p =? 0 then 0 else 1) (wave white n cells) = wave 1 n cells.
Proof.
  intros Hw. unfold wave. induction cells as [|c rest IH]; cbn [flat_map];
    [reflexivity|].
  rewrite map_app, IH, map_repeat. do 2 f_equal.
  destruct (c =? 0); [reflexivity|].
  destruct (Z.eqb_spec white 0); [contradiction | reflexivity].
Qed.

Lemma encode_has_white (lead h trail : nat) (white byteA byteB : Z) :
  (1 <= h)%nat -> In white (encode lead h trail white byteA byteB).
Proof.
  intros Hh. unfold encode. apply in_or_app. right. apply in_or_app. left.
  destruct h as [|h]; [lia|]. cbn. now left.
Qed.

(** The binary row of an encoded row is the same signal with levels 0
    and 1. *)
Lemma binaryRow_encode (lead h trail : nat) (white byteA byteB : Z) :
  (1 <= h)%nat -> blankBelow <= white <= maxSample ->
  maxLuma (encode lead h trail white byteA byteB) = white
  /\ binaryRow (encode lead h trail white byteA byteB)
     = encode lead h trail 1 byteA byteB.
Proof.
  intros Hh Hw.
  assert (Hmax : maxLuma (encode lead h trail white byteA byteB) = white).
  { apply maxLuma_two_levels.
    - unfold blankBelow in Hw. lia.
    - now apply encode_has_white.
    - apply encode_levels. }
  split; [exact Hmax|].
  unfold binaryRow. rewrite Hmax.
  rewrite (normalize_two_levels white Hw _ 0 (encode_levels _ _ _ _ _ _)).
  assert (Hnz : white <> 0) by (unfold blankBelow in Hw; lia).
  unfold encode. rewrite !map_app, !map_repeat, !(map_wave white _ _ Hnz).
  reflexivity.
Qed.

(** *** The scans over runs of equal samples *)

Lemma findStart_zeros (n : nat) (rest : list Z) :
  forall x, findStart (repeat 0 n ++ 1 :: rest) x = x + Z.of_nat n.
Proof.
  induction n as [|n IH]; intros x; cbn [repeat app findStart Z.eqb].
  - cbn. lia.
  - rewrite IH. lia.
Qed.

Lemma findStop_same (v : Z) (n : nat) (rest : list Z) :
  forall x count,
  findStop (repeat v n ++ rest) x v count
  = findStop rest (x + Z.of_nat n) v count.
Proof.
  induction n as [|n IH]; intros x count; cbn [repeat app findStop].
  - f_equal. cbn. lia.
  - rewrite Z.eqb_refl, IH. f_equal. lia.
Qed.

Lemma findStop_change (v v' : Z) (n : nat) (rest : list Z) (x count : Z) :
  v' <> v -> count + 1 <> 13 ->
  findStop (repeat v' (S n) ++ rest) x v count
  = findStop rest (x + Z.of_nat (S n)) v' (count + 1).
Proof.
  intros Hv Hc. cbn [repeat app findStop].
  destruct (Z.eqb_spec v' v); [contradiction|].
  destruct (Z.eqb_spec (count + 1) 13); [contradiction|].
  rewrite findStop_same. f_equal. lia.
Qed.

Lemma findStop_last (v v' : Z) (n : nat) (rest : list Z) (x : Z) :
  v' <> v ->
  findStop (repeat v' (S n) ++ rest) x v 12 = x.
Proof.
  intros Hv. cbn [repeat app findStop].
  destruct (Z.eqb_spec v' v); [contradiction | reflexivity].
Qed.

Lemma skipn_zeros {A : Type} (l rest : list A) :
  skipn (length l) (l ++ rest) = rest.
Proof. induction l; [reflexivity | assumption]. Qed.

Lemma skipDead_zeros (n : nat) (rest : list Z) (width : Z) :
  forall x, x + Z.of_nat n < width ->
  skipDead (repeat 0 n ++ 1 :: rest) x width = Ok (x + Z.of_nat n).
Proof.
  induction n as [|n IH]; intros x Hx; cbn [repeat app skipDead].
  - cbn. f_equal. lia.
  - destruct (Z.ltb_spec x (width - 1)); [|lia].
    cbn [Z.eqb andb]. rewrite IH by lia. f_equal. lia.
Qed.

Lemma wave_length (white : Z) (n : nat) (cells : list Z) :
  length (wave white n cells) = (length cells * n)%nat.
Proof.
  unfold wave. induction cells as [|c rest IH]; cbn [flat_map length];
    [reflexivity|].
  rewrite length_app, repeat_length, IH. cbn. lia.
Qed.

Lemma byteBits_length (byte : Z) : length (byteBits byte) = 8%nat.
Proof. reflexivity. Qed.

Lemma encode_length (lead h trail : nat) (white byteA byteB : Z) :
  length (encode lead h trail white byteA byteB) = (lead + 51 * h + trail)%nat.
Proof.
  unfold encode.
  rewrite !length_app, !repeat_length, !wave_length. cbn [length].
  rewrite !length_app, !byteBits_length. unfold runInBurst. cbn [length]. lia.
Qed.

(** A sample inside cell [m] of a wave is the level of that cell. *)
Lemma nth_wave (white : Z) (n : nat) (cells : list Z) :
  forall m j, (m < length cells)%nat -> (j < n)%nat ->
  nth (m * n + j) (wave white n cells) 0
  = if nth m cells 0 =? 0 then 0 else white.
Proof.
  unfold wave. induction cells as [|c rest IH]; intros m j Hm Hj;
    cbn [length] in Hm; [lia|].
  cbn [flat_map]. destruct m as [|m].
  - cbn [Nat.mul Nat.add nth]. rewrite app_nth1 by (rewrite repeat_length; lia).
    apply nth_repeat_lt. exact Hj.
  - set (run := repeat (if c =? 0 then 0 else white) n).
    replace (S m * n + j)%nat with (length run + (m * n + j))%nat
      by (unfold run; rewrite repeat_length; lia).
    rewrite app_nth2_plus. cbn [nth]. apply IH; lia.
Qed.

(** *** What the decoder measures on an encoded row *)

Lemma runIn_runs (h : nat) :
  wave 1 h runInBurst
  = repeat 1 h ++ repeat 0 h ++ repeat 1 h ++ repeat 0 h ++ repeat 1 h
    ++ repeat 0 h ++ repeat 1 h ++ repeat 0 h ++ repeat 1 h ++ repeat 0 h
    ++ repeat 1 h ++ repeat 0 h ++ repeat 1 h ++ [].
Proof. reflexivity. Qed.

Lemma cells_start (n : nat) (cells : list Z) :
  wave 1 (S n) (1 :: cells) = 1 :: repeat 1 n ++ wave 1 (S n) cells.
Proof. reflexivity. Qed.

Lemma parityBit_binary (byte : Z) : parityBit byte = 0 \/ parityBit byte = 1.
Proof. unfold parityBit. destruct (Z.even _); auto. Qed.

Lemma cells_binary (byteA byteB : Z) :
  Forall (fun c => c = 0 \/ c = 1) (1 :: byteBits byteA ++ byteBits byteB).
Proof.
  constructor; [now right|]. apply Forall_app. split;
    (apply Forall_app; split;
     [apply Forall_forall; intros c Hc; apply in_map_iff in Hc;
      destruct Hc as (b & <- & _); apply bitOf_binary
     | constructor; [apply parityBit_binary | constructor]]).
Qed.

Section Encoded.
Variables lead h trail : nat.
Variables byteA byteB : Z.
Hypothesis half_cycle : (1 <= h)%nat.

Local Abbreviation signal := (encode lead h trail 1 byteA byteB).
Local Abbreviation cells := (1 :: byteBits byteA ++ byteBits byteB).
Local Abbreviation stop := (runInEnd lead h).

Lemma signal_parts :
  signal = (repeat 0 lead ++ wave 1 h runInBurst)
           ++ repeat 0 (4 * h) ++ wave 1 (2 * h) cells ++ repeat 0 trail
  /\ Z.of_nat (length (repeat 0 lead ++ wave 1 h runInBurst)) = stop.
Proof.
  split.
  - unfold encode. now rewrite <- app_assoc.
  - rewrite length_app, repeat_length, wave_length. unfold runInBurst, runInEnd.
    cbn [length]. lia.
Qed.

Lemma signal_start : findStart signal 0 = Z.of_nat lead.
Proof.
  unfold encode. destruct h as [|n]; [lia|].
  rewrite runIn_runs. cbn [repeat app].
  now rewrite findStart_zeros.
Qed.

Lemma signal_stop :
  findStop (skipn lead signal) (Z.of_nat lead) 1 0 = stop.
Proof.
  unfold encode.
  rewrite <- (repeat_length 0 lead) at 1. rewrite skipn_zeros.
  destruct h as [|n]; [lia|].
  rewrite runIn_runs, <- !app_assoc.
  rewrite findStop_same.
  do 12 (rewrite findStop_change by lia; cbn [Z.add Pos.add Pos.succ]).
  cbn [app]. change (4 * S n)%nat with (S (n + (S n + (S n + (S n + 0))))).
  rewrite findStop_last by lia. unfold runInEnd. lia.
Qed.

Lemma signal_skipDead (width : Z) :
  stop + 4 * Z.of_nat h < width ->
  skipDead (skipn (Z.to_nat stop) signal) stop width
  = Ok (stop + 4 * Z.of_nat h).
Proof.
  intros Hw. destruct signal_parts as [-> Hlen].
  replace (Z.to_nat stop)
    with (length (repeat 0 lead ++ wave 1 h runInBurst)) by lia.
  rewrite skipn_zeros.
  destruct h as [|n]; [lia|].
  change (2 * S n)%nat with (S (n + (S n + 0))).
  rewrite cells_start, <- app_comm_cons.
  rewrite skipDead_zeros by lia. f_equal. lia.
Qed.

(** Samples of the dead space and of the cells. *)
Lemma signal_dead (i : Z) :
  stop <= i < stop + 4 * Z.of_nat h -> nth (Z.to_nat i) signal 0 = 0.
Proof.
  intros Hi. destruct signal_parts as [-> Hlen].
  set (pre := repeat 0 lead ++ wave 1 h runInBurst) in *.
  replace (Z.to_nat i) with (length pre + Z.to_nat (i - stop))%nat by lia.
  rewrite app_nth2_plus, app_nth1 by (rewrite repeat_length; lia).
  apply nth_repeat_lt. lia.
Qed.

Lemma signal_cell (m : nat) (i : Z) :
  (m < 17)%nat ->
  stop + 4 * Z.of_nat h + Z.of_nat m * (2 * Z.of_nat h) <= i
  < stop + 4 * Z.of_nat h + (Z.of_nat m + 1) * (2 * Z.of_nat h) ->
  nth (Z.to_nat i) signal 0 = nth m cells 0.
Proof.
  intros Hm Hi. destruct signal_parts as [-> Hlen].
  set (pre := repeat 0 lead ++ wave 1 h runInBurst) in *.
  set (j := Z.to_nat (i - (stop + 4 * Z.of_nat h
                           + Z.of_nat m * (2 * Z.of_nat h)))).
  assert (Hj : (j < 2 * h)%nat) by (unfold j; nia).
  replace (Z.to_nat i)
    with (length pre + (length (repeat 0%Z (4 * h)) + (m * (2 * h) + j)))%nat
    by (rewrite repeat_length; unfold j; nia).
  rewrite !app_nth2_plus.
  rewrite app_nth1
    by (rewrite wave_length; cbn [length]; rewrite length_app;
        rewrite !byteBits_length; nia).
  rewrite nth_wave by (cbn [length]; rewrite ?length_app, ?byteBits_length; lia).
  assert (Hc : nth m cells 0 = 0 \/ nth m cells 0 = 1).
  { destruct (nth_in_or_default m cells 0) as [Hin | ->]; [|now left].
    apply (proj1 (Forall_forall _ _) (cells_binary byteA byteB) _ Hin). }
  destruct Hc as [-> | ->]; reflexivity.
Qed.
End Encoded.

Lemma offset_bounds (bitStart bitWidth bit : Z) :
  0 <= 2 * (bitStart + bit * bitWidth) + bitWidth ->
  2 * bitOffset bitStart bitWidth bit
  <= 2 * (bitStart + bit * bitWidth) + bitWidth
  <= 2 * bitOffset bitStart bitWidth bit + 1.
Proof.
  intros Hmid. unfold bitOffset. rewrite Z.quot_div_nonneg by lia.
  pose proof (Z.div_mod (2 * (bitStart + bit * bitWidth) + bitWidth) 2
                ltac:(lia)) as Hdiv.
  pose proof (Z.mod_pos_bound (2 * (bitStart + bit * bitWidth) + bitWidth) 2
                ltac:(lia)) as Hmod.
  lia.
Qed.

(** [bitWidth = ceil(494·h/251)] for a run-in of [13·h] samples. *)
Lemma bitWidth_of_runIn (h : nat) :
  13 * Z.of_nat h <= maxWidth ->
  494 * Z.of_nat h <= 251 * bitWidthOf (13 * Z.of_nat h)
  < 494 * Z.of_nat h + 251.
Proof.
  intros Hh. rewrite bitWidthOf_exact by lia.
  pose proof (Z.div_mod (- (38 * (13 * Z.of_nat h))) 251 ltac:(lia)) as Hdiv.
  pose proof (Z.mod_pos_bound (- (38 * (13 * Z.of_nat h))) 251 ltac:(lia))
    as Hmod.
  lia.
Qed.

Section Decoded.
Variables lead h trail : nat.
Variables white byteA byteB : Z.
Hypothesis half_cycle : (1 <= h)%nat.
Hypothesis white_level : blankBelow <= white <= maxSample.
Hypothesis width_bound : Z.of_nat (lead + 51 * h + trail) <= maxWidth.

Local Abbreviation row := (encode lead h trail white byteA byteB).
Local Abbreviation signal := (encode lead h trail 1 byteA byteB).
Local Abbreviation cells := (1 :: byteBits byteA ++ byteBits byteB).
Local Abbreviation stop := (runInEnd lead h).
Local Abbreviation width := (Z.of_nat (lead + 51 * h + trail)).
Local Abbreviation timing :=
  (mkTiming (bitWidthOf (13 * Z.of_nat h))
            (stop + 4 * Z.of_nat h + bitWidthOf (13 * Z.of_nat h))).

Lemma encoded_measures :
  binaryRow row = signal
  /\ firstOne row = Z.of_nat lead
  /\ thirteenthChange row = stop.
Proof.
  destruct (binaryRow_encode lead h trail white byteA byteB half_cycle
              white_level) as [_ Hbin].
  assert (Hstart : firstOne row = Z.of_nat lead).
  { unfold firstOne. rewrite Hbin. apply signal_start. exact half_cycle. }
  split; [exact Hbin|]. split; [exact Hstart|].
  unfold thirteenthChange. rewrite Hstart, Hbin, Nat2Z.id.
  apply signal_stop. exact half_cycle.
Qed.

Lemma encoded_timing :
  calibrate width (mkRunIn (binaryRow row) (firstOne row)
                           (thirteenthChange row))
  = Ok timing.
Proof.
  destruct encoded_measures as (-> & -> & ->).
  unfold calibrate. cbn [stopRunIn startRunIn values].
  rewrite signal_skipDead by (try exact half_cycle; unfold runInEnd; lia).
  cbn [bind]. replace (stop - Z.of_nat lead) with (13 * Z.of_nat h)
    by (unfold runInEnd; lia).
  reflexivity.
Qed.

(** The cell that slot [m - 1] samples. *)
Lemma encoded_cell (m : nat) :
  (m < 17)%nat ->
  sample row timing (Z.of_nat m - 1) = Ok (nth m cells 0).
Proof.
  intros Hm. unfold sample. destruct encoded_measures as (-> & _ & _).
  cbn [bitStart bitWidth].
  pose proof (bitWidth_of_runIn h ltac:(lia)) as Hw.
  set (w := bitWidthOf (13 * Z.of_nat h)) in *.
  rewrite getBit_nodebug_inside, encode_length.
  set (o := bitOffset (stop + 4 * Z.of_nat h + w) w (Z.of_nat m - 1)).
  assert (Hcell :
    stop + 4 * Z.of_nat h + Z.of_nat m * (2 * Z.of_nat h) <= o
    < stop + 4 * Z.of_nat h + (Z.of_nat m + 1) * (2 * Z.of_nat h)).
  { unfold o.
    do 17 (destruct m as [|m];
           [ cbn [Z.of_nat Pos.of_succ_nat Pos.succ Z.sub Z.add Z.opp
                  Z.pos_sub Pos.pred_double];
             match goal with |- context [bitOffset ?s w ?k] =>
               pose proof (offset_bounds s w k ltac:(unfold runInEnd; lia))
             end; unfold runInEnd in *; lia | ]).
    lia. }
  assert (Hin : 0 <= o < Z.of_nat (lead + 51 * h + trail))
    by (unfold runInEnd in *; nia).
  destruct (Z.leb_spec 0 o); [|lia].
  destruct (Z.ltb_spec o (Z.of_nat (lead + 51 * h + trail))); [|lia].
  cbn [andb]. f_equal. apply signal_cell; assumption.
Qed.

(** The dead-space slots. *)
Lemma encoded_dead (bit : Z) :
  bit = -3 \/ bit = -2 -> sample row timing bit = Ok 0.
Proof.
  intros Hbit. unfold sample. destruct encoded_measures as (-> & _ & _).
  cbn [bitStart bitWidth].
  pose proof (bitWidth_of_runIn h ltac:(lia)) as Hw.
  set (w := bitWidthOf (13 * Z.of_nat h)) in *.
  rewrite getBit_nodebug_inside, encode_length.
  set (o := bitOffset (stop + 4 * Z.of_nat h + w) w bit).
  assert (Hdead : stop <= o < stop + 4 * Z.of_nat h).
  { unfold o. destruct Hbit as [-> | ->];
      match goal with |- context [bitOffset ?s w ?k] =>
        pose proof (offset_bounds s w k ltac:(unfold runInEnd; lia))
      end; unfold runInEnd in *; lia. }
  destruct (Z.leb_spec 0 o); [|unfold runInEnd in *; lia].
  destruct (Z.ltb_spec o (Z.of_nat (lead + 51 * h + trail)));
    [|unfold runInEnd in *; lia].
  cbn [andb]. f_equal. apply signal_dead; assumption.
Qed.
End Decoded.

(** On an encoded row the decoder finds the reads of the two bytes. *)
Lemma encode_reads (lead h trail : nat) (white byteA byteB : Z) :
  (1 <= h)%nat ->
  blankBelow <= white <= maxSample ->
  0 <= byteA < 128 -> 0 <= byteB < 128 ->
  Z.of_nat (lead + 51 * h + trail) <= maxWidth ->
  Z.of_nat (lead + 51 * h + trail) <= 5 * runInEnd lead h ->
  10 * runInEnd lead h <= 3 * Z.of_nat (lead + 51 * h + trail) ->
  ReadsAs (encode lead h trail white byteA byteB)
          (mkTiming (bitWidthOf (13 * Z.of_nat h))
                    (runInEnd lead h + 4 * Z.of_nat h
                     + bitWidthOf (13 * Z.of_nat h)))
          byteA byteB.
Proof.
  intros Hh Hwhite HA HB Hw Hlo Hhi.
  pose proof (encoded_measures lead h trail white byteA byteB Hh Hwhite)
    as (Hbin & Hstart & Hstop).
  pose proof (encoded_cell lead h trail white byteA byteB Hh Hwhite Hw)
    as Hcell.
  pose proof (encoded_dead lead h trail white byteA byteB Hh Hwhite Hw)
    as Hdead.
  constructor.
  - destruct (binaryRow_encode lead h trail white byteA byteB Hh Hwhite)
      as [-> _]. lia.
  - rewrite encode_length, Hstop. lia.
  - rewrite encode_length.
    apply (encoded_timing lead h trail white byteA byteB Hh Hwhite Hw).
  - split; [apply Hdead; now left|]. split; [apply Hdead; now right|].
    apply (Hcell 0%nat). lia.
  - exact HA.
  - intros b Hb. cbn in Hb.
    destruct Hb as [<-|[<-|[<-|[<-|[<-|[<-|[<-|[]]]]]]]].
    + apply (Hcell 1%nat); lia.
    + apply (Hcell 2%nat); lia.
    + apply (Hcell 3%nat); lia.
    + apply (Hcell 4%nat); lia.
    + apply (Hcell 5%nat); lia.
    + apply (Hcell 6%nat); lia.
    + apply (Hcell 7%nat); lia.
  - apply (Hcell 8%nat); lia.
  - exact HB.
  - intros b Hb. cbn in Hb.
    destruct Hb as [<-|[<-|[<-|[<-|[<-|[<-|[<-|[]]]]]]]].
    + apply (Hcell 9%nat); lia.
    + apply (Hcell 10%nat); lia.
    + apply (Hcell 11%nat); lia.
    + apply (Hcell 12%nat); lia.
    + apply (Hcell 13%nat); lia.
    + apply (Hcell 14%nat); lia.
    + apply (Hcell 15%nat); lia.
  - apply (Hcell 16%nat); lia.
Qed.




(** The encoder at two samples per half-cycle gives the 102-sample row of
    0x41 and 0x00 used above. *)
Example encode_row_41_00 : encode 0 2 0 255 65 0 = row_41_00.
Proof. reflexivity. Qed.
